(** * Trading engine: risk gate, sentiment strategy and order registry

    A shallow embedding of the execution core of the trading tool
    (src/trading/risk-manager.js, src/trading/strategy-base.js,
    src/trading/strategies/news-based-strategy.js and
    src/trading/trading-engine.js) and the properties its specification
    states about it.

    JavaScript numbers are IEEE-754 binary64 values: they are modelled by
    Rocq's primitive floats, so every comparison and product below is
    the one the interpreter computes (NaN and signed zeros included).
    Clock readings are integers (milliseconds since the epoch). *)

From Stdlib Require Import ZArith List String Bool PrimFloat Uint63.
From stdpp Require Import base strings gmap.
Import ListNotations.

Set Warnings "-inexact-float".
Local Open Scope string_scope.
Local Open Scope list_scope.

(** ** JavaScript numbers *)

Module Num.

Definition num := float.

(** [a > b], [a >= b], [a <= b], [a < b] and [a === b] on numbers. *)
Definition gt (a b : num) : bool := PrimFloat.ltb b a.
Definition ge (a b : num) : bool := PrimFloat.leb b a.
Definition le (a b : num) : bool := PrimFloat.leb a b.
Definition lt (a b : num) : bool := PrimFloat.ltb a b.
Definition seq (a b : num) : bool := PrimFloat.eqb a b.

(** Truthiness of a number: everything but [0], [-0] and [NaN]. *)
Definition truthy (a : num) : bool :=
  negb (PrimFloat.eqb a 0%float || PrimFloat.is_nan a).

(** [x || d] where [x] is a possibly absent numeric property. *)
Definition or_default (x : option num) (d : num) : num :=
  match x with
  | Some v => if truthy v then v else d
  | None => d
  end.

(** [-a] *)
Definition neg (a : num) : num := PrimFloat.opp a.

(** The length of an array as a number. *)
Definition of_nat (n : nat) : num :=
  PrimFloat.of_uint63 (Uint63.of_Z (Z.of_nat n)).

End Num.
Export Num(num).

(** Truthiness of a string: the empty string is falsy. *)
Definition truthy_str (s : string) : bool := negb (String.eqb s "").

(** [s || d] on strings. *)
Definition or_str (s d : string) : string := if truthy_str s then s else d.

(** [{ key: given.key || dflt, ...given }]: the spread writes a present key
    back as it was given, so the default only fills an absent one. *)
Definition spread_default {A} (given : option A) (dflt : A) : A :=
  match given with Some v => v | None => dflt end.

(** ** Insertion-ordered maps

    A JavaScript [Map] (and the own string keys of a plain object) iterates
    in insertion order; [set] on a present key replaces the value where it
    stands, on a fresh key it appends. *)

Module JsMap.

Definition t (V : Type) := list (string * V).

Definition empty {V} : t V := [].

Fixpoint get {V} (k : string) (m : t V) : option V :=
  match m with
  | [] => None
  | (k', v) :: m' => if String.eqb k' k then Some v else get k m'
  end.

Definition has {V} (k : string) (m : t V) : bool :=
  match get k m with Some _ => true | None => false end.

Fixpoint set {V} (k : string) (v : V) (m : t V) : t V :=
  match m with
  | [] => [(k, v)]
  | (k', v') :: m' =>
      if String.eqb k' k then (k, v) :: m' else (k', v') :: set k v m'
  end.

Definition delete {V} (k : string) (m : t V) : t V :=
  filter (fun kv => negb (String.eqb (fst kv) k)) m.

Definition keys {V} (m : t V) : list string := map fst m.
Definition values {V} (m : t V) : list V := map snd m.
Definition entries {V} (m : t V) : list (string * V) := m.

(** The representation invariant: a key stands once. *)
Definition wf {V} (m : t V) : Prop := NoDup (keys m).

End JsMap.

(** ** Data model *)

(** A broker-reported holding ([getPositions] of a broker adapter). *)
Record Position := mkPosition {
  pos_symbol : string;
  pos_qty : num;
  pos_marketValue : option num;
  pos_avgCost : num;
  pos_unrealizedPnl : num
}.

(** The order object handed to the risk gate and to [placeOrder]. *)
Record Order := mkOrder {
  ord_symbol : string;
  ord_qty : num;
  ord_side : string;
  ord_type : string;
  ord_limitPrice : option num;
  ord_stopPrice : option num;
  ord_timeInForce : option string
}.

(** The text of a signal's [reason] option, kept by its template and the
    values interpolated in it:
    - [BuyReason s b] is
      [`Positive sentiment (${s.toFixed(2)}) with high buzz (${b})`];
    - [SellReason code c] is [`${code} - P&L: ${(c * 100).toFixed(2)}%`];
    - [NoReason] is an absent option. *)
Inductive SignalReason :=
| BuyReason (sentiment buzz : num)
| SellReason (code : string) (priceChange : num)
| NoReason.

(** A trade intent ([createSignal] of the strategy base class). *)
Record Signal := mkSignal {
  sig_symbol : string;
  sig_action : string;
  sig_quantity : num;
  sig_orderType : string;
  sig_limitPrice : option num;
  sig_stopPrice : option num;
  sig_timeInForce : string;
  sig_strategyName : string;
  sig_timestamp : Z;
  sig_reason : SignalReason;
  sig_preferredBroker : option string
}.

(** An order as a broker reports it: the result of [placeOrder] and the
    items of [getOrderHistory] (which add the two fill fields). *)
Record OrderResult := mkOrderResult {
  or_orderId : string;
  or_symbol : string;
  or_qty : num;
  or_side : string;
  or_type : string;
  or_status : string;
  or_timestamp : Z;
  or_filledQty : option num;
  or_avgFillPrice : option num
}.

(** An entry of the order registry: [{...result, strategyName, signal}]. *)
Record OrderInfo := mkOrderInfo {
  oi_result : OrderResult;
  oi_strategyName : string;
  oi_signal : Signal
}.

(** A thrown [Error], by its message. *)
Record Error := mkError { err_message : string }.

(** What the data aggregator caches for a symbol. *)
Record Analysis := mkAnalysis {
  an_sentimentScore : num;
  an_buzzScore : num;
  an_newsMentions : num
}.

(** [getLatestData()] of the aggregator: [undefined] before the first
    collection, else an object whose [summary] may be absent. *)
Record LatestData := mkLatestData {
  ld_summary : option (gmap string Analysis)
}.

(** A market data point; [price] is what the broker's quote carried. *)
Record MarketData := mkMarketData {
  md_price : option num;
  md_volume : option num
}.

(** ** Console output

    A line is kept by its template and the values interpolated in it; the
    timestamp prefix of the [log] helpers is left out. *)
Inductive LogLine :=
(* RiskManager.log *)
| LogBlacklisted (symbol : string)
    (* warn `Order rejected: ${symbol} is blacklisted` *)
| LogDailyLossLimit (dailyPnl : num)
    (* warn `Order rejected: Daily loss limit reached (${dailyPnl})` *)
| LogPositionSizeTooLarge (qty : num)
    (* warn `Order rejected: Position size too large (${qty})` *)
| LogTooManyOpenPositions (n : nat)
    (* warn `Order rejected: Too many open positions (${n})` *)
| LogPortfolioRiskTooHigh (risk : num)
    (* warn `Order rejected: Portfolio risk too high (${risk}%)` *)
| LogConcentrationTooHigh (symbol : string)
    (* warn `Order rejected: Symbol concentration too high for ${symbol}` *)
| LogCountersReset
    (* info 'Daily counters reset' *)
(* BaseStrategy.log *)
| LogNoAggregator
| LogNoData
| LogBuySignal (symbol : string) (sentiment buzz : num)
| LogSellSignal (symbol code : string) (priceChange : num)
(* console.log / console.warn / console.error of the engine *)
| LogStarting
| LogBrokerConnected (name : string)
| LogBrokerConnectFailed (name : string) (e : Error)
| LogStarted
| LogPositionsError (brokerName : string) (e : Error)
| LogMarketDataError (symbol : string) (e : Error)
| LogSignalError (strategyName : string) (e : Error)
| LogInvalidSignal (strategyName : string) (s : Signal)
| LogSignalRejected (s : Signal)
| LogOrderPlaced (orderId : string) (s : Signal)
| LogExecuteFailed (e : Error)
| LogOrderError (orderId : string) (e : Error)
| LogStrategyError (strategyName : string) (e : Error).

(** The fixed part of the risk gate's rejection lines. *)
Definition rejection_text (l : LogLine) : option string :=
  match l with
  | LogBlacklisted _ => Some "is blacklisted"
  | LogDailyLossLimit _ => Some "Daily loss limit reached"
  | LogPositionSizeTooLarge _ => Some "Position size too large"
  | LogTooManyOpenPositions _ => Some "Too many open positions"
  | LogPortfolioRiskTooHigh _ => Some "Portfolio risk too high"
  | LogConcentrationTooHigh _ => Some "Symbol concentration too high"
  | _ => None
  end.

(** ** The outside world

    The clock, the calendar and the data aggregator are read through
    oracles on an abstract world [W]; a read may change the world (time
    passes). *)
Class World (W : Type) := {
  date_now : W -> Z * W;              (* Date.now(), new Date() *)
  date_today : W -> string * W;       (* new Date().toDateString() *)
  aggregator_latest : W -> option LatestData * W
                                      (* dataAggregator.getLatestData() *)
}.

(** ** Computations: state, exceptions, console *)

Inductive Res (A : Type) :=
| Ok (a : A)
| Throw (e : Error).
Arguments Ok {A} a.
Arguments Throw {A} e.

(** The state a method of an object of type [S] runs in. *)
Record St (W S : Type) := mkSt {
  obj : S;
  world : W;
  console : list LogLine
}.
Arguments mkSt {W S} obj world console.
Arguments obj {W S} _.
Arguments world {W S} _.
Arguments console {W S} _.

Definition M (W S A : Type) := St W S -> Res A * St W S.

Section Monad.
Context {W S : Type}.

Definition ret {A} (a : A) : M W S A := fun s => (Ok a, s).

Definition bind {A B} (m : M W S A) (f : A -> M W S B) : M W S B :=
  fun s =>
    match m s with
    | (Ok a, s') => f a s'
    | (Throw e, s') => (Throw e, s')
    end.

Definition throw {A} (e : Error) : M W S A := fun s => (Throw e, s).

(** [try { m } catch (error) { h error }]: mutations made before the
    throw stay. *)
Definition try_catch {A} (m : M W S A) (h : Error -> M W S A) : M W S A :=
  fun s =>
    match m s with
    | (Ok a, s') => (Ok a, s')
    | (Throw e, s') => h e s'
    end.

Definition get_obj : M W S S := fun s => (Ok (obj s), s).

Definition put_obj (o : S) : M W S unit :=
  fun s => (Ok tt, mkSt o (world s) (console s)).

Definition modify_obj (f : S -> S) : M W S unit :=
  fun s => (Ok tt, mkSt (f (obj s)) (world s) (console s)).

Definition log (l : LogLine) : M W S unit :=
  fun s => (Ok tt, mkSt (obj s) (world s) (console s ++ [l])).

(** Reading an oracle of the world. *)
Definition ask {A} (f : W -> A * W) : M W S A :=
  fun s => let (a, w) := f (world s) in (Ok a, mkSt (obj s) w (console s)).

(** Calling into the world where the call may throw (a broker). *)
Definition call {A} (f : W -> Res A * W) : M W S A :=
  fun s => let (r, w) := f (world s) in (r, mkSt (obj s) w (console s)).

End Monad.

Notation "x <- m ;; k" := (bind m (fun x => k))
  (at level 100, m at next level, right associativity).
Notation "m ;;; k" := (bind m (fun _ => k))
  (at level 100, right associativity).

(** A [for ... of] loop over an array. *)
Fixpoint for_each {W S A} (l : list A) (body : A -> M W S unit) : M W S unit :=
  match l with
  | [] => ret tt
  | x :: l' => body x ;;; for_each l' body
  end.

(** Running a method of a component [S1] held in a field of [S2]. *)
Definition zoom {W S1 S2 A} (proj : S2 -> S1) (upd : S1 -> S2 -> S2)
    (m : M W S1 A) : M W S2 A :=
  fun s =>
    let (r, s1) := m (mkSt (proj (obj s)) (world s) (console s)) in
    (r, mkSt (upd (obj s1) (obj s)) (world s1) (console s1)).

(** ** The risk gate (src/trading/risk-manager.js) *)

Module RiskManager.

Record Config := mkConfig {
  maxPositionSize : num;
  maxDailyLoss : num;
  maxPortfolioRisk : num;
  stopLossPercentage : num;
  maxOpenPositions : num;
  blacklistedSymbols : list string
}.

(** The constructor's argument: every limit may be left out. *)
Record RawConfig := mkRawConfig {
  raw_maxPositionSize : option num;
  raw_maxDailyLoss : option num;
  raw_maxPortfolioRisk : option num;
  raw_stopLossPercentage : option num;
  raw_maxOpenPositions : option num;
  raw_blacklistedSymbols : option (list string)
}.

Record t := mkRiskManager {
  config : Config;
  dailyPnl : num;
  dailyTrades : num;
  lastResetDate : string
}.

(** [new RiskManager(config)], on the day [today]. *)
Definition constructor (c : RawConfig) (today : string) : t :=
  {| config :=
       {| maxPositionSize := spread_default (raw_maxPositionSize c) 1000%float;
          maxDailyLoss := spread_default (raw_maxDailyLoss c) 500%float;
          maxPortfolioRisk := spread_default (raw_maxPortfolioRisk c) 0.02%float;
          stopLossPercentage :=
            spread_default (raw_stopLossPercentage c) 0.02%float;
          maxOpenPositions := spread_default (raw_maxOpenPositions c) 10%float;
          blacklistedSymbols := spread_default (raw_blacklistedSymbols c) [] |};
     dailyPnl := 0%float;
     dailyTrades := 0%float;
     lastResetDate := today |}.

(** The three shapes [flattenPositions] accepts: a [Map] of arrays, an
    array, or a plain object some of whose values are arrays. *)
Inductive PositionsArg :=
| PosMap (m : JsMap.t (list Position))
| PosArray (l : list Position)
| PosObject (o : list (string * option (list Position))).

Definition flattenPositions (positionsMap : PositionsArg) : list Position :=
  match positionsMap with
  | PosMap m => concat (JsMap.values m)
  | PosArray l => l
  | PosObject o =>
      concat (map (fun kv => match snd kv with Some l => l | None => [] end) o)
  end.

(** [order.qty * (order.limitPrice || 100)] *)
Definition orderValue (order : Order) : num :=
  (ord_qty order * Num.or_default (ord_limitPrice order) 100%float)%float.

(** [positions.reduce((sum, pos) => sum + Math.abs(pos.marketValue || 0), 0)] *)
Definition totalValue (positions : list Position) : num :=
  fold_left
    (fun sum pos =>
       (sum + PrimFloat.abs (Num.or_default (pos_marketValue pos) 0))%float)
    positions 0%float.

Section Methods.
Context {W : Type} `{World W}.

Definition resetDailyCountersIfNeeded : M W t unit :=
  today <- ask date_today ;;
  this <- get_obj ;;
  if negb (String.eqb (lastResetDate this) today) then
    put_obj {| config := config this;
               dailyPnl := 0%float;
               dailyTrades := 0%float;
               lastResetDate := today |} ;;;
    log LogCountersReset
  else ret tt.

Definition validatePortfolioRisk (order : Order) (positions : list Position)
  : M W t bool :=
  this <- get_obj ;;
  let totalPortfolioValue := totalValue positions in
  if Num.seq totalPortfolioValue 0%float then ret true else
  let riskPercentage := (orderValue order / totalPortfolioValue)%float in
  if Num.gt riskPercentage (maxPortfolioRisk (config this)) then
    log (LogPortfolioRiskTooHigh riskPercentage) ;;;
    ret false
  else ret true.

Definition validatePositionConcentration (order : Order)
    (positions : list Position) : M W t bool :=
  this <- get_obj ;;
  let symbolPositions :=
    filter (fun pos => String.eqb (pos_symbol pos) (ord_symbol order))
           positions in
  let totalSymbolValue := totalValue symbolPositions in
  let maxSymbolValue := maxPositionSize (config this) in
  if Num.gt (totalSymbolValue + orderValue order)%float maxSymbolValue then
    log (LogConcentrationTooHigh (ord_symbol order)) ;;;
    ret false
  else ret true.

Definition validateOrder (order : Order) (positions : PositionsArg)
  : M W t bool :=
  resetDailyCountersIfNeeded ;;;
  this <- get_obj ;;
  (* Check if symbol is blacklisted *)
  if existsb (String.eqb (ord_symbol order))
             (blacklistedSymbols (config this)) then
    log (LogBlacklisted (ord_symbol order)) ;;;
    ret false
  (* Check daily loss limit *)
  else if Num.le (dailyPnl this) (Num.neg (maxDailyLoss (config this))) then
    log (LogDailyLossLimit (dailyPnl this)) ;;;
    ret false
  (* Check maximum position size *)
  else if Num.gt (orderValue order) (maxPositionSize (config this)) then
    log (LogPositionSizeTooLarge (ord_qty order)) ;;;
    ret false
  else
    (* Check maximum open positions *)
    let allPositions := flattenPositions positions in
    if Num.ge (Num.of_nat (length allPositions))
              (maxOpenPositions (config this))
       && String.eqb (ord_side order) "buy" then
      log (LogTooManyOpenPositions (length allPositions)) ;;;
      ret false
    else
      (* Check portfolio risk *)
      okRisk <- validatePortfolioRisk order allPositions ;;
      if negb okRisk then ret false else
      (* Check position concentration *)
      okConc <- validatePositionConcentration order allPositions ;;
      if negb okConc then ret false else
      ret true.

Definition updateDailyPnl (pnl : num) : M W t unit :=
  resetDailyCountersIfNeeded ;;;
  modify_obj (fun this =>
    {| config := config this;
       dailyPnl := (dailyPnl this + pnl)%float;
       dailyTrades := (dailyTrades this + 1)%float;
       lastResetDate := lastResetDate this |}).

End Methods.

End RiskManager.

(** ** A simulated world for the scenarios: the clock stands still. *)
Record SimWorld := mkSimWorld {
  sim_now : Z;
  sim_today : string;
  sim_latest : option LatestData
}.

#[export] Instance SimWorld_World : World SimWorld := {
  date_now w := (sim_now w, w);
  date_today w := (sim_today w, w);
  aggregator_latest w := (sim_latest w, w)
}.

(** ** Strategies (src/trading/strategy-base.js and
       src/trading/strategies/news-based-strategy.js) *)

Module Strategy.

Record Config := mkConfig {
  description : string;
  sentimentThreshold : num;
  buzzThreshold : num;
  positionSize : num;
  holdingPeriod : Z;
  maxPositionsPerSymbol : num
}.

(** The constructor's defaults. *)
Definition defaultConfig : Config :=
  {| description := "Trades based on news sentiment and buzz analysis";
     sentimentThreshold := 0.6%float;
     buzzThreshold := 50%float;
     positionSize := 100%float;
     holdingPeriod := 3600000;
     maxPositionsPerSymbol := 1%float |}.

(** What the strategy remembers of a symbol it has bought. *)
Record ActivePosition := mkActivePosition {
  entryTime : Z;
  entryPrice : num;
  reason : string
}.

Record t := mkStrategy {
  name : string;
  config : Config;
  enabled : bool;
  watchlist : list string;
  lastSignals : list Signal;
  activePositions : gmap string ActivePosition;
  (** whether [setDataAggregator] was called *)
  dataAggregator : bool
}.

(** [new NewsBasedStrategy(config)] with the given watchlist. *)
Definition constructor (c : Config) (symbols : list string) : t :=
  {| name := "NewsBasedStrategy";
     config := c;
     enabled := true;
     watchlist := symbols;
     lastSignals := [];
     activePositions := ∅;
     dataAggregator := false |}.

Definition setDataAggregator (s : t) : t :=
  {| name := name s; config := config s; enabled := enabled s;
     watchlist := watchlist s; lastSignals := lastSignals s;
     activePositions := activePositions s; dataAggregator := true |}.

Definition with_lastSignals (f : list Signal -> list Signal) (s : t) : t :=
  {| name := name s; config := config s; enabled := enabled s;
     watchlist := watchlist s; lastSignals := f (lastSignals s);
     activePositions := activePositions s;
     dataAggregator := dataAggregator s |}.

Definition with_activePositions
    (f : gmap string ActivePosition -> gmap string ActivePosition)
    (s : t) : t :=
  {| name := name s; config := config s; enabled := enabled s;
     watchlist := watchlist s; lastSignals := lastSignals s;
     activePositions := f (activePositions s);
     dataAggregator := dataAggregator s |}.

(** The [options] argument of [createSignal]. *)
Record Options := mkOptions {
  opt_orderType : option string;
  opt_limitPrice : option num;
  opt_stopPrice : option num;
  opt_timeInForce : option string;
  opt_reason : SignalReason;
  opt_preferredBroker : option string
}.

(** [{ orderType: 'market', reason }] *)
Definition marketOptions (r : SignalReason) : Options :=
  {| opt_orderType := Some "market";
     opt_limitPrice := None;
     opt_stopPrice := None;
     opt_timeInForce := None;
     opt_reason := r;
     opt_preferredBroker := None |}.

(** [l.slice(-n)] *)
Definition slice_last {A} (n : nat) (l : list A) : list A :=
  skipn (length l - n) l.

(** The four sell conditions of [evaluateSellSignal]. *)
Record SellConditions := mkSellConditions {
  holdingPeriodExceeded : bool;
  strongNegativeSentiment : bool;
  stopLoss : bool;
  takeProfit : bool
}.

Definition any_condition (c : SellConditions) : bool :=
  holdingPeriodExceeded c || strongNegativeSentiment c
  || stopLoss c || takeProfit c.

(** [let reason = 'unknown'; if (...) reason = ...; else if ...] *)
Definition reason_code (c : SellConditions) : string :=
  if holdingPeriodExceeded c then "holding_period_exceeded"
  else if strongNegativeSentiment c then "negative_sentiment"
  else if stopLoss c then "stop_loss"
  else if takeProfit c then "take_profit"
  else "unknown".

(** [(currentPrice - position.entryPrice) / position.entryPrice] *)
Definition priceChange (currentPrice : num) (position : ActivePosition)
  : num :=
  ((currentPrice - entryPrice position) / entryPrice position)%float.

Definition sell_conditions (c : Config) (position : ActivePosition)
    (analysis : Analysis) (currentPrice : num) (now : Z) : SellConditions :=
  let holdingTime := (now - entryTime position)%Z in
  {| holdingPeriodExceeded := (holdingPeriod c <=? holdingTime)%Z;
     strongNegativeSentiment :=
       Num.le (an_sentimentScore analysis)
              (Num.neg (sentimentThreshold c));
     stopLoss :=
       Num.le (priceChange currentPrice position) (-0.05)%float;
     takeProfit :=
       Num.ge (priceChange currentPrice position) 0.10%float |}.

Section Methods.
Context {W : Type} `{World W}.

Definition createSignal (symbol action : string) (quantity : num)
    (options : Options) : M W t Signal :=
  this <- get_obj ;;
  timestamp <- ask date_now ;;
  let signal :=
    {| sig_symbol := symbol;
       sig_action := action;
       sig_quantity := quantity;
       sig_orderType :=
         spread_default (opt_orderType options) "market";
       sig_limitPrice := opt_limitPrice options;
       sig_stopPrice := opt_stopPrice options;
       sig_timeInForce :=
         spread_default (opt_timeInForce options) "gtc";
       sig_strategyName := name this;
       sig_timestamp := timestamp;
       sig_reason := opt_reason options;
       sig_preferredBroker := opt_preferredBroker options |} in
  modify_obj (with_lastSignals (fun l => l ++ [signal])) ;;;
  this <- get_obj ;;
  (* Keep only last 100 signals *)
  (if (100 <? length (lastSignals this))%nat then
     modify_obj (with_lastSignals (slice_last 100))
   else ret tt) ;;;
  ret signal.

Definition evaluateBuySignal (symbol : string) (analysis : Analysis)
    (currentPrice : num) : M W t (option Signal) :=
  this <- get_obj ;;
  (* Don't buy if we already have a position *)
  match activePositions this !! symbol with
  | Some _ => ret None
  | None =>
      let strongPositiveSentiment :=
        Num.ge (an_sentimentScore analysis)
               (sentimentThreshold (config this)) in
      let highBuzz :=
        Num.ge (an_buzzScore analysis) (buzzThreshold (config this)) in
      let hasNewsContent := Num.gt (an_newsMentions analysis) 0%float in
      if strongPositiveSentiment && highBuzz && hasNewsContent then
        log (LogBuySignal symbol (an_sentimentScore analysis)
                          (an_buzzScore analysis)) ;;;
        (* Track this position *)
        now <- ask date_now ;;
        modify_obj (with_activePositions
          (insert symbol {| entryTime := now;
                            entryPrice := currentPrice;
                            reason := "positive_sentiment_buzz" |})) ;;;
        signal <- createSignal symbol "buy" (positionSize (config this))
                    (marketOptions
                       (BuyReason (an_sentimentScore analysis)
                                  (an_buzzScore analysis))) ;;
        ret (Some signal)
      else ret None
  end.

Definition evaluateSellSignal (symbol : string) (analysis : Analysis)
    (currentPrice : num) : M W t (option Signal) :=
  this <- get_obj ;;
  match activePositions this !! symbol with
  | None => ret None
  | Some position =>
      now <- ask date_now ;;
      let c := sell_conditions (config this) position analysis
                               currentPrice now in
      if any_condition c then
        log (LogSellSignal symbol (reason_code c)
                           (priceChange currentPrice position)) ;;;
        (* Remove from active positions *)
        modify_obj (with_activePositions (delete symbol)) ;;;
        signal <- createSignal symbol "sell" (positionSize (config this))
                    (marketOptions
                       (SellReason (reason_code c)
                                   (priceChange currentPrice position))) ;;
        ret (Some signal)
      else ret None
  end.

(** The body of the watchlist loop of [evaluate], for one symbol:
    the signals it pushes. Nothing in the body throws on data of these
    types, so the [try]/[catch] around it is not written. *)
Definition evaluate_symbol (summary : gmap string Analysis)
    (marketData : gmap string MarketData) (symbol : string)
  : M W t (list Signal) :=
  match summary !! symbol with
  | None => ret []                                    (* continue *)
  | Some symbolAnalysis =>
      match marketData !! symbol ≫= md_price with
      | None => ret []                                (* continue *)
      | Some currentPrice =>
          if negb (Num.truthy currentPrice) then ret [] else
          (* Check for buy signals *)
          buySignal <- evaluateBuySignal symbol symbolAnalysis
                         currentPrice ;;
          (* Check for sell signals on existing positions *)
          sellSignal <- evaluateSellSignal symbol symbolAnalysis
                          currentPrice ;;
          ret (option_list buySignal ++ option_list sellSignal)
      end
  end.

Fixpoint evaluate_loop (summary : gmap string Analysis)
    (marketData : gmap string MarketData) (symbols : list string)
    (signals : list Signal) : M W t (list Signal) :=
  match symbols with
  | [] => ret signals
  | symbol :: rest =>
      pushed <- evaluate_symbol summary marketData symbol ;;
      evaluate_loop summary marketData rest (signals ++ pushed)
  end.

Definition evaluate (marketData : gmap string MarketData)
  : M W t (list Signal) :=
  this <- get_obj ;;
  if negb (dataAggregator this) then
    log LogNoAggregator ;;;
    ret []
  else
    latestData <- ask aggregator_latest ;;
    match latestData ≫= ld_summary with
    | None =>
        log LogNoData ;;;
        ret []
    | Some summary =>
        (* Evaluate each symbol in our watchlist *)
        evaluate_loop summary marketData (watchlist this) []
    end.

End Methods.

(** [validate()]: the configuration errors it reports. *)
Definition validate (s : t) : list string :=
  (if Num.lt (sentimentThreshold (config s)) 0%float
      || Num.gt (sentimentThreshold (config s)) 1%float
   then ["Sentiment threshold must be between 0 and 1"] else [])
  ++ (if Num.lt (buzzThreshold (config s)) 0%float
      then ["Buzz threshold must be positive"] else [])
  ++ (if Num.le (positionSize (config s)) 0%float
      then ["Position size must be positive"] else [])
  ++ (if (length (watchlist s) =? 0)%nat
      then ["Watchlist cannot be empty"] else []).

End Strategy.

(** ** Brokers

    A broker adapter is known by its interface (src/brokers/base-broker.js):
    each call acts on the world and either returns or throws. *)
Record Broker (W : Type) := mkBroker {
  authenticate : W -> Res unit * W;
  getPositions : W -> Res (list Position) * W;
  placeOrder : Order -> W -> Res OrderResult * W;
  cancelOrder : string -> W -> Res unit * W;
  getMarketData : string -> W -> Res MarketData * W;
  getOrderHistory : W -> Res (list OrderResult) * W
}.
Arguments mkBroker {W}.
Arguments authenticate {W} _ _.
Arguments getPositions {W} _ _.
Arguments placeOrder {W} _ _ _.
Arguments cancelOrder {W} _ _ _.
Arguments getMarketData {W} _ _ _.
Arguments getOrderHistory {W} _ _.

(** ** The engine (src/trading/trading-engine.js) *)

(** The events the engine emits. *)
Inductive Event :=
| EvStarted
| EvError (error : Error)
| EvStrategyError (name : string) (error : Error)
| EvOrderPlaced (orderId : string) (order : OrderResult)
    (strategyName : string) (signal : Signal)
| EvOrderFailed (signal : Signal) (error : Error) (strategyName : string)
| EvOrderUpdated (orderId : string) (order : OrderResult).

Module Engine.

Record t (W : Type) := mkEngine {
  brokers : JsMap.t (Broker W);
  strategies : JsMap.t Strategy.t;
  positions : JsMap.t (list Position);
  orders : JsMap.t OrderInfo;
  running : bool;
  riskManager : option RiskManager.t;
  (** the events emitted so far, oldest first *)
  emitted : list Event
}.
Arguments mkEngine {W}.
Arguments brokers {W} _.
Arguments strategies {W} _.
Arguments positions {W} _.
Arguments orders {W} _.
Arguments running {W} _.
Arguments riskManager {W} _.
Arguments emitted {W} _.

(** [new TradingEngine(brokers, config)] *)
Definition constructor {W} (bs : JsMap.t (Broker W)) : t W :=
  mkEngine bs JsMap.empty JsMap.empty JsMap.empty false None [].

Section Updates.
Context {W : Type}.

Definition with_strategies (f : JsMap.t Strategy.t -> JsMap.t Strategy.t)
    (e : t W) : t W :=
  mkEngine (brokers e) (f (strategies e)) (positions e) (orders e)
           (running e) (riskManager e) (emitted e).

Definition with_positions
    (f : JsMap.t (list Position) -> JsMap.t (list Position))
    (e : t W) : t W :=
  mkEngine (brokers e) (strategies e) (f (positions e)) (orders e)
           (running e) (riskManager e) (emitted e).

Definition with_orders (f : JsMap.t OrderInfo -> JsMap.t OrderInfo)
    (e : t W) : t W :=
  mkEngine (brokers e) (strategies e) (positions e) (f (orders e))
           (running e) (riskManager e) (emitted e).

Definition with_running (b : bool) (e : t W) : t W :=
  mkEngine (brokers e) (strategies e) (positions e) (orders e)
           b (riskManager e) (emitted e).

Definition with_riskManager (r : option RiskManager.t) (e : t W) : t W :=
  mkEngine (brokers e) (strategies e) (positions e) (orders e)
           (running e) r (emitted e).

Definition with_emitted (f : list Event -> list Event) (e : t W) : t W :=
  mkEngine (brokers e) (strategies e) (positions e) (orders e)
           (running e) (riskManager e) (f (emitted e)).

Definition setRiskManager (r : RiskManager.t) (e : t W) : t W :=
  with_riskManager (Some r) e.

(** [addStrategy(name, strategy)] (its [strategy_added] event is left
    to the caller's trace). *)
Definition addStrategy (name : string) (s : Strategy.t) (e : t W) : t W :=
  with_strategies (JsMap.set name s) e.

End Updates.

(** [{...orderInfo, ...currentOrder}]: every key of the broker's snapshot
    overrides the entry's; the two fill fields stay when the snapshot
    lacks them. *)
Definition merge_order (orderInfo : OrderInfo) (currentOrder : OrderResult)
  : OrderInfo :=
  let old := oi_result orderInfo in
  {| oi_result :=
       {| or_orderId := or_orderId currentOrder;
          or_symbol := or_symbol currentOrder;
          or_qty := or_qty currentOrder;
          or_side := or_side currentOrder;
          or_type := or_type currentOrder;
          or_status := or_status currentOrder;
          or_timestamp := or_timestamp currentOrder;
          or_filledQty :=
            match or_filledQty currentOrder with
            | Some q => Some q
            | None => or_filledQty old
            end;
          or_avgFillPrice :=
            match or_avgFillPrice currentOrder with
            | Some p => Some p
            | None => or_avgFillPrice old
            end |};
     oi_strategyName := oi_strategyName orderInfo;
     oi_signal := oi_signal orderInfo |}.

(** The order [executeSignal] builds from a signal. *)
Definition order_of_signal (signal : Signal) : Order :=
  {| ord_symbol := sig_symbol signal;
     ord_qty := sig_quantity signal;
     ord_side := sig_action signal;
     ord_type := or_str (sig_orderType signal) "market";
     ord_limitPrice := sig_limitPrice signal;
     ord_stopPrice := sig_stopPrice signal;
     ord_timeInForce := Some (or_str (sig_timeInForce signal) "gtc") |}.

(** The order [validateSignal] shows to the risk gate: it carries no
    price. *)
Definition risk_order_of_signal (signal : Signal) : Order :=
  {| ord_symbol := sig_symbol signal;
     ord_qty := sig_quantity signal;
     ord_side := sig_action signal;
     ord_type := or_str (sig_orderType signal) "market";
     ord_limitPrice := None;
     ord_stopPrice := None;
     ord_timeInForce := None |}.

Section Methods.
Context {W : Type} `{World W}.

Definition emit (ev : Event) : M W (t W) unit :=
  modify_obj (with_emitted (fun l => l ++ [ev])).

(** A method call on what may be [undefined]. *)
Definition call_broker {A} (broker : option (Broker W))
    (method : Broker W -> W -> Res A * W) : M W (t W) A :=
  match broker with
  | Some b => call (method b)
  | None => throw (mkError "Cannot read properties of undefined")
  end.

Definition selectBroker (this : t W) (signal : Signal)
  : option (Broker W) :=
  let first := head (JsMap.values (brokers this)) in
  match sig_preferredBroker signal with
  | Some preferred =>
      if truthy_str preferred then
        match JsMap.get preferred (brokers this) with
        | Some b => Some b
        | None => first
        end
      else first
  | None => first
  end.

Definition start : M W (t W) unit :=
  this <- get_obj ;;
  if running this then
    throw (mkError "Trading engine is already running")
  else
    log LogStarting ;;;
    modify_obj (with_running true) ;;;
    (* Initialize brokers *)
    for_each (JsMap.entries (brokers this)) (fun entry =>
      try_catch
        (call (authenticate (snd entry)) ;;;
         log (LogBrokerConnected (fst entry)))
        (fun error =>
           log (LogBrokerConnectFailed (fst entry) error) ;;;
           throw error)) ;;;
    (* the execution loop is launched here and not awaited: its
       iterations are [tick] below *)
    emit EvStarted ;;;
    log LogStarted.

Definition updatePositions : M W (t W) unit :=
  this <- get_obj ;;
  for_each (JsMap.entries (brokers this)) (fun entry =>
    try_catch
      (ps <- call (getPositions (snd entry)) ;;
       modify_obj (with_positions (JsMap.set (fst entry) ps)))
      (fun error => log (LogPositionsError (fst entry) error))).

(** [getAllWatchedSymbols]: the watchlists gathered in a [Set]. *)
Definition getAllWatchedSymbols (this : t W) : list string :=
  fold_left
    (fun symbols symbol =>
       if existsb (String.eqb symbol) symbols then symbols
       else symbols ++ [symbol])
    (concat (map Strategy.watchlist (JsMap.values (strategies this))))
    [].

Fixpoint gather_loop (symbols : list string)
    (data : gmap string MarketData)
  : M W (t W) (gmap string MarketData) :=
  match symbols with
  | [] => ret data
  | symbol :: rest =>
      data' <-
        try_catch
          (this <- get_obj ;;
           (* Use first available broker for market data *)
           let broker := head (JsMap.values (brokers this)) in
           md <- call_broker broker (fun b => getMarketData b symbol) ;;
           ret (<[symbol := md]> data))
          (fun error =>
             log (LogMarketDataError symbol error) ;;;
             ret data) ;;
      gather_loop rest data'
  end.

Definition gatherMarketData : M W (t W) (gmap string MarketData) :=
  this <- get_obj ;;
  gather_loop (getAllWatchedSymbols this) ∅.

Definition validateSignal (signal : Signal) (strategyName : string)
  : M W (t W) (option Signal) :=
  (* Basic signal validation *)
  if negb (truthy_str (sig_symbol signal))
     || negb (truthy_str (sig_action signal))
     || negb (Num.truthy (sig_quantity signal)) then
    log (LogInvalidSignal strategyName signal) ;;;
    ret None
  else
    this <- get_obj ;;
    (* Risk management validation *)
    match riskManager this with
    | Some rm =>
        approved <-
          zoom (fun _ => rm) (fun rm' => with_riskManager (Some rm'))
            (RiskManager.validateOrder (risk_order_of_signal signal)
               (RiskManager.PosMap (positions this))) ;;
        if negb approved then
          log (LogSignalRejected signal) ;;;
          ret None
        else ret (Some signal)
    | None => ret (Some signal)
    end.

Definition executeSignal (signal : Signal) (strategyName : string)
  : M W (t W) unit :=
  this <- get_obj ;;
  let broker := selectBroker this signal in
  let order := order_of_signal signal in
  try_catch
    (result <- call_broker broker (fun b => placeOrder b order) ;;
     modify_obj (with_orders
       (JsMap.set (or_orderId result)
          {| oi_result := result;
             oi_strategyName := strategyName;
             oi_signal := signal |})) ;;;
     emit (EvOrderPlaced (or_orderId result) result strategyName signal) ;;;
     log (LogOrderPlaced (or_orderId result) signal))
    (fun error =>
       log (LogExecuteFailed error) ;;;
       emit (EvOrderFailed signal error strategyName)).

(** The body of the loop of [processSignals], for one signal. *)
Definition process_signal (strategyName : string) (signal : Signal)
  : M W (t W) unit :=
  try_catch
    (validatedSignal <- validateSignal signal strategyName ;;
     match validatedSignal with
     | Some validated => executeSignal validated strategyName
     | None => ret tt
     end)
    (fun error => log (LogSignalError strategyName error)).

Definition processSignals (signals : list Signal) (strategyName : string)
  : M W (t W) unit :=
  for_each signals (process_signal strategyName).

(** The body of the loop of [executeStrategies], for the strategy
    registered as [name]. The strategy is an object the engine holds by
    reference: [evaluate] runs on its current state and what it changes
    stays whatever the engine does with the signals. *)
Definition execute_strategy (marketData : gmap string MarketData)
    (name : string) : M W (t W) unit :=
  try_catch
    (this <- get_obj ;;
     match JsMap.get name (strategies this) with
     | None => ret tt
     | Some strategy =>
         if Strategy.enabled strategy then
           signals <-
             zoom (fun _ => strategy)
                  (fun s' => with_strategies (JsMap.set name s'))
                  (Strategy.evaluate marketData) ;;
           processSignals signals name
         else ret tt
     end)
    (fun error =>
       log (LogStrategyError name error) ;;;
       emit (EvStrategyError name error)).

Definition executeStrategies : M W (t W) unit :=
  marketData <- gatherMarketData ;;
  this <- get_obj ;;
  for_each (JsMap.keys (strategies this)) (execute_strategy marketData).

(** The body of the loop of [processOrders], for one registry entry. *)
Definition process_order (entry : string * OrderInfo) : M W (t W) unit :=
  let orderId := fst entry in
  let orderInfo := snd entry in
  try_catch
    (this <- get_obj ;;
     (* Check order status and update if needed *)
     let broker := selectBroker this (oi_signal orderInfo) in
     orderHistory <- call_broker broker getOrderHistory ;;
     match find (fun o => String.eqb (or_orderId o) orderId)
                orderHistory with
     | Some currentOrder =>
         if negb (String.eqb (or_status currentOrder)
                             (or_status (oi_result orderInfo))) then
           modify_obj (with_orders
             (JsMap.set orderId (merge_order orderInfo currentOrder))) ;;;
           emit (EvOrderUpdated orderId currentOrder)
         else ret tt
     | None => ret tt
     end)
    (fun error => log (LogOrderError orderId error)).

(** The registry is a [Map] iterated while its entries are replaced;
    replacing the entry under visit neither adds nor moves a key, so the
    loop visits the entries the registry had when it started. *)
Definition processOrders : M W (t W) unit :=
  this <- get_obj ;;
  for_each (JsMap.entries (orders this)) process_order.

(** One iteration of [executionLoop] (the wait between two iterations
    left out). *)
Definition tick : M W (t W) unit :=
  try_catch
    (updatePositions ;;;
     executeStrategies ;;;
     processOrders)
    (fun error => emit (EvError error)).

End Methods.

End Engine.

(** * Properties *)

(** Unfolding the computations down to their state transformers. *)
Ltac unfold_m :=
  unfold bind, ret, throw, try_catch, get_obj, put_obj, modify_obj, log,
    ask, call, zoom in *.

(** Case analysis on the condition of a conditional of the goal. *)
Ltac case_bool :=
  match goal with
  | |- context [if ?b then _ else _] =>
      match type of b with bool => destruct b eqn:? end
  end.

(** ** The risk gate *)

Module RiskFacts.
Import RiskManager.

(** The limits of the scenarios: [{maxPositionSize: 1000,
    maxDailyLoss: 500}], the other limits at their defaults. *)
Definition scenario_limits : RawConfig :=
  {| raw_maxPositionSize := Some 1000%float;
     raw_maxDailyLoss := Some 500%float;
     raw_maxPortfolioRisk := None;
     raw_stopLossPercentage := None;
     raw_maxOpenPositions := None;
     raw_blacklistedSymbols := None |}.

(** [{symbol: "AAPL", qty, side: "buy", limitPrice: 100}] *)
Definition aapl_buy (qty : num) : Order :=
  {| ord_symbol := "AAPL";
     ord_qty := qty;
     ord_side := "buy";
     ord_type := "limit";
     ord_limitPrice := Some 100%float;
     ord_stopPrice := None;
     ord_timeInForce := None |}.

Definition no_positions : PositionsArg := PosMap JsMap.empty.

(** A manager with zeroed counters dated [today]. *)
Definition zeroed (today : string) (rm : t) : t :=
  {| config := config rm;
     dailyPnl := 0%float;
     dailyTrades := 0%float;
     lastResetDate := today |}.

Section Facts.
Context {W : Type} `{World W}.

(** What the lazy reset does, by cases on the date. *)
Lemma reset_same_date (rm : t) (w : W) (c : list LogLine) :
  fst (date_today w) = lastResetDate rm ->
  resetDailyCountersIfNeeded (mkSt rm w c)
  = (Ok tt, mkSt rm (snd (date_today w)) c).
Proof.
  intros Hd. unfold resetDailyCountersIfNeeded. unfold_m. cbn.
  destruct (date_today w) as [today w'] eqn:E. cbn in *. subst today.
  now rewrite String.eqb_refl.
Qed.

Lemma reset_new_date (rm : t) (w : W) (c : list LogLine) :
  fst (date_today w) <> lastResetDate rm ->
  resetDailyCountersIfNeeded (mkSt rm w c)
  = (Ok tt, mkSt (zeroed (fst (date_today w)) rm) (snd (date_today w))
                 (c ++ [LogCountersReset])).
Proof.
  intros Hd. unfold resetDailyCountersIfNeeded. unfold_m. cbn.
  destruct (date_today w) as [today w'] eqn:E. cbn in *.
  destruct (String.eqb (lastResetDate rm) today) eqn:Eq; [|reflexivity].
  apply String.eqb_eq in Eq. congruence.
Qed.

(** The checks of [validateOrder] once the counters are up to date:
    the decision and the line logged with it. *)
Definition check_outcome (rm : t) (order : Order)
    (positions : PositionsArg) : bool * list LogLine :=
  let allPositions := flattenPositions positions in
  if existsb (String.eqb (ord_symbol order))
             (blacklistedSymbols (config rm)) then
    (false, [LogBlacklisted (ord_symbol order)])
  else if Num.le (dailyPnl rm) (Num.neg (maxDailyLoss (config rm))) then
    (false, [LogDailyLossLimit (dailyPnl rm)])
  else if Num.gt (orderValue order) (maxPositionSize (config rm)) then
    (false, [LogPositionSizeTooLarge (ord_qty order)])
  else if Num.ge (Num.of_nat (length allPositions))
                 (maxOpenPositions (config rm))
          && String.eqb (ord_side order) "buy" then
    (false, [LogTooManyOpenPositions (length allPositions)])
  else if negb (Num.seq (totalValue allPositions) 0%float)
          && Num.gt (orderValue order / totalValue allPositions)%float
                    (maxPortfolioRisk (config rm)) then
    (false, [LogPortfolioRiskTooHigh
               (orderValue order / totalValue allPositions)%float])
  else if Num.gt
            (totalValue
               (filter (fun pos =>
                          String.eqb (pos_symbol pos) (ord_symbol order))
                       allPositions)
             + orderValue order)%float
            (maxPositionSize (config rm)) then
    (false, [LogConcentrationTooHigh (ord_symbol order)])
  else (true, []).

Lemma validateOrder_outcome (order : Order) (positions : PositionsArg)
    (s : St W t) :
  let s1 := snd (resetDailyCountersIfNeeded s) in
  validateOrder order positions s
  = (Ok (fst (check_outcome (obj s1) order positions)),
     mkSt (obj s1) (world s1)
          (console s1 ++ snd (check_outcome (obj s1) order positions))).
Proof.
  destruct s as [rm w c]. cbn zeta.
  unfold validateOrder, bind at 1.
  destruct (date_today w) as [today w'] eqn:E.
  assert (Hr : exists rm1 c1,
             resetDailyCountersIfNeeded (mkSt rm w c)
             = (Ok tt, mkSt rm1 w' c1)).
  { unfold resetDailyCountersIfNeeded. unfold_m. cbn. rewrite E.
    destruct (negb _); cbn; eauto. }
  destruct Hr as (rm1 & c1 & ->). cbn [snd obj world console].
  unfold check_outcome, validatePortfolioRisk,
    validatePositionConcentration.
  unfold_m. cbv zeta. cbn [obj world console].
  repeat (case_bool; cbn [negb andb fst snd obj world console];
          try reflexivity).
  all: now rewrite app_nil_r.
Qed.

(** The reset leaves the configuration alone and the checks do not
    look at the reset date. *)
Lemma reset_obj_cases (rm : t) (w : W) (c : list LogLine) :
  let s1 := snd (resetDailyCountersIfNeeded (mkSt rm w c)) in
  (fst (date_today w) = lastResetDate rm /\ obj s1 = rm)
  \/ (fst (date_today w) <> lastResetDate rm
      /\ obj s1 = zeroed (fst (date_today w)) rm).
Proof.
  cbn zeta.
  destruct (String.string_dec (fst (date_today w)) (lastResetDate rm)) as [e|n].
  - left. split; [exact e|]. now rewrite reset_same_date.
  - right. split; [exact n|]. now rewrite reset_new_date.
Qed.

Definition with_side (side : string) (o : Order) : Order :=
  {| ord_symbol := ord_symbol o;
     ord_qty := ord_qty o;
     ord_side := side;
     ord_type := ord_type o;
     ord_limitPrice := ord_limitPrice o;
     ord_stopPrice := ord_stopPrice o;
     ord_timeInForce := ord_timeInForce o |}.

(** The positions held in the order's symbol. *)
Definition symbol_positions (order : Order) (positions : PositionsArg)
  : list Position :=
  filter (fun pos => String.eqb (pos_symbol pos) (ord_symbol order))
         (flattenPositions positions).

(** C3. With limits [{maxPositionSize: 1000, maxDailyLoss: 500}], fresh
    counters and no positions, a buy of 10 AAPL at limit 100 (notional
    exactly 1000) is accepted, and a buy of 11 (notional 1100) is
    rejected, the line logged being "Position size too large". *)
Theorem position_size_boundary (w : W) (c : list LogLine) (day : string) :
  let rm := constructor scenario_limits day in
  let reject := validateOrder (aapl_buy 11%float) no_positions (mkSt rm w c) in
  fst (validateOrder (aapl_buy 10%float) no_positions (mkSt rm w c)) = Ok true
  /\ fst reject = Ok false
  /\ (exists c', console (snd reject)
                 = c' ++ [LogPositionSizeTooLarge 11%float])
  /\ rejection_text (LogPositionSizeTooLarge 11%float)
     = Some "Position size too large".
Proof.
  cbn zeta. rewrite !validateOrder_outcome. cbn [fst snd console].
  destruct (reset_obj_cases (constructor scenario_limits day) w c)
    as [[_ ->]|[_ ->]];
    (split; [reflexivity|]; split; [reflexivity|];
     split; [eexists; reflexivity|reflexivity]).
Qed.

(** C2. While the date read equals the last reset date, a manager whose
    daily P&L is at or below [-maxDailyLoss] rejects every order. On the
    first call read on another date the counters are zeroed and dated
    before any check, so that the order is decided as by a manager with
    zeroed counters: accepted when nothing else speaks against it. *)
Theorem daily_loss_stop_lazy_reset (rm : t) (w : W) (c : list LogLine)
    (order : Order) (positions : PositionsArg) :
  (fst (date_today w) = lastResetDate rm ->
   Num.le (dailyPnl rm) (Num.neg (maxDailyLoss (config rm))) = true ->
   fst (validateOrder order positions (mkSt rm w c)) = Ok false)
  /\
  (fst (date_today w) <> lastResetDate rm ->
   let today := fst (date_today w) in
   let after := snd (validateOrder order positions (mkSt rm w c)) in
   obj after = zeroed today rm
   /\ dailyPnl (obj after) = 0%float
   /\ dailyTrades (obj after) = 0%float
   /\ fst (validateOrder order positions (mkSt rm w c))
      = fst (validateOrder order positions (mkSt (zeroed today rm) w c))).
Proof.
  split.
  - intros Hd Hl. rewrite validateOrder_outcome.
    rewrite reset_same_date by exact Hd. cbn [fst snd obj].
    unfold check_outcome. rewrite Hl.
    now destruct (existsb _ _).
  - intros Hd. cbn zeta. rewrite !validateOrder_outcome.
    rewrite reset_new_date by exact Hd.
    rewrite reset_same_date by reflexivity.
    cbn [fst snd obj]. repeat split; reflexivity.
Qed.

(** C9. The side of an order matters to the open-positions check
    only: below the open-positions limit an order of any side is
    decided as the same order on the buy side. In particular a sell
    order is rejected when its notional (its quantity times its limit
    price, or times 100 without one) exceeds [maxPositionSize], and
    when the value held in its symbol plus its notional does. *)
Theorem sell_orders_face_size_checks (rm : t) (w : W) (c : list LogLine)
    (order : Order) (positions : PositionsArg) :
  (Num.ge (Num.of_nat (length (flattenPositions positions)))
          (maxOpenPositions (config rm)) = false ->
   forall side,
     fst (validateOrder (with_side side order) positions (mkSt rm w c))
     = fst (validateOrder (with_side "buy" order) positions (mkSt rm w c)))
  /\
  (ord_limitPrice order = None ->
   orderValue order = (ord_qty order * 100)%float)
  /\
  (ord_side order = "sell" ->
   Num.gt (orderValue order) (maxPositionSize (config rm)) = true ->
   fst (validateOrder order positions (mkSt rm w c)) = Ok false)
  /\
  (ord_side order = "sell" ->
   Num.gt (totalValue (symbol_positions order positions)
           + orderValue order)%float
          (maxPositionSize (config rm)) = true ->
   fst (validateOrder order positions (mkSt rm w c)) = Ok false).
Proof.
  assert (Hcfg : config (obj (snd (resetDailyCountersIfNeeded
                                     (mkSt rm w c)))) = config rm).
  { destruct (reset_obj_cases rm w c) as [[_ ->]|[_ ->]]; reflexivity. }
  split; [|split; [|split]].
  - intros Hn side. rewrite !validateOrder_outcome. cbn [fst].
    unfold check_outcome. rewrite Hcfg, Hn. reflexivity.
  - intros Hp. unfold orderValue. now rewrite Hp.
  - intros _ Hv. rewrite validateOrder_outcome. cbn [fst].
    unfold check_outcome. rewrite Hcfg, Hv.
    repeat (case_bool; try reflexivity).
  - intros Hs Hv. rewrite validateOrder_outcome. cbn [fst].
    unfold check_outcome. unfold symbol_positions in Hv.
    rewrite Hcfg, Hv.
    repeat (case_bool; try reflexivity).
Qed.

End Facts.

(** Scenario E: the counters were last reset on 2024-01-01 and show a
    daily P&L of -500. *)
Definition stale_manager : t :=
  {| config := config (constructor scenario_limits "Mon Jan 01 2024");
     dailyPnl := (-500)%float;
     dailyTrades := 3%float;
     lastResetDate := "Mon Jan 01 2024" |}.

Definition world_on (today : string) : SimWorld :=
  {| sim_now := 0; sim_today := today; sim_latest := None |}.

(** Scenario E: the same order is rejected on 2024-01-01 and accepted by
    the first validation of 2024-01-02. *)
Lemma daily_loss_stop_lazy_reset_witness :
  fst (validateOrder (aapl_buy 10%float) no_positions
         (mkSt stale_manager (world_on "Mon Jan 01 2024") [])) = Ok false
  /\ fst (validateOrder (aapl_buy 10%float) no_positions
            (mkSt stale_manager (world_on "Tue Jan 02 2024") [])) = Ok true.
Proof.
  split.
  - apply (daily_loss_stop_lazy_reset stale_manager
             (world_on "Mon Jan 01 2024") [] (aapl_buy 10%float) no_positions);
      reflexivity.
  - destruct (daily_loss_stop_lazy_reset stale_manager
                (world_on "Tue Jan 02 2024") [] (aapl_buy 10%float) no_positions)
      as [_ Hnew].
    destruct Hnew as (_ & _ & _ & ->); [discriminate|reflexivity].
Defined.

(** A sell of 11 AAPL without a limit price (notional 11 * 100). *)
Definition aapl_sell_market : Order :=
  {| ord_symbol := "AAPL";
     ord_qty := 11%float;
     ord_side := "sell";
     ord_type := "market";
     ord_limitPrice := None;
     ord_stopPrice := None;
     ord_timeInForce := None |}.

Lemma sell_orders_face_size_checks_witness :
  let s := mkSt (constructor scenario_limits "Mon Jan 01 2024")
                (world_on "Mon Jan 01 2024") [] in
  fst (validateOrder aapl_sell_market no_positions s)
  = fst (validateOrder (with_side "buy" aapl_sell_market) no_positions s)
  /\ orderValue aapl_sell_market = 1100%float
  /\ fst (validateOrder aapl_sell_market no_positions s) = Ok false.
Proof.
  destruct (sell_orders_face_size_checks
              (constructor scenario_limits "Mon Jan 01 2024")
              (world_on "Mon Jan 01 2024") [] aapl_sell_market no_positions)
    as (Hside & Hprice & Hsize & Hconc).
  split; [exact (Hside eq_refl "sell")|].
  split; [exact (Hprice eq_refl)|].
  pose proof (Hconc eq_refl eq_refl) as _.
  exact (Hsize eq_refl eq_refl).
Defined.

End RiskFacts.

(** ** The sentiment strategy *)

Module StrategyFacts.
Import Strategy.

Section Facts.
Context {W : Type} `{World W}.

(** [createSignal] builds the signal it is asked for and touches
    nothing of the strategy but [lastSignals]. *)
Lemma createSignal_spec (symbol action : string) (quantity : num)
    (options : Options) (st : St W t) :
  exists signal st',
    createSignal symbol action quantity options st = (Ok signal, st')
    /\ sig_symbol signal = symbol
    /\ sig_action signal = action
    /\ sig_quantity signal = quantity
    /\ sig_reason signal = opt_reason options
    /\ activePositions (obj st') = activePositions (obj st)
    /\ config (obj st') = config (obj st)
    /\ console st' = console st.
Proof.
  destruct st as [s w c]. unfold createSignal. unfold_m.
  cbn [obj world console].
  destruct (date_now w) as [now w'].
  cbn [obj world console with_lastSignals lastSignals].
  case_bool; eexists; eexists; (split; [reflexivity|]);
    cbn; repeat split; reflexivity.
Qed.

(** C4. For a symbol the strategy holds active, when any of the four
    conditions holds (the holding time read from the clock is at least
    the holding period; the sentiment is at most minus the threshold;
    the return on the entry price is at most -0.05; it is at least
    0.10), [evaluateSellSignal] returns a sell signal for the configured
    quantity, whose reason code is that of the first condition that
    holds in this order, and the symbol is no longer active. *)
Theorem sell_rule_priority (s : t) (w : W) (c : list LogLine)
    (symbol : string) (analysis : Analysis) (currentPrice : num)
    (position : ActivePosition) :
  activePositions s !! symbol = Some position ->
  let change := ((currentPrice - entryPrice position)
                 / entryPrice position)%float in
  let elapsed :=
    (holdingPeriod (config s) <=? fst (date_now w) - entryTime position)%Z in
  let negative :=
    Num.le (an_sentimentScore analysis)
           (Num.neg (sentimentThreshold (config s))) in
  let loss := Num.le change (-0.05)%float in
  let profit := Num.ge change 0.10%float in
  elapsed || negative || loss || profit = true ->
  exists signal st',
    evaluateSellSignal symbol analysis currentPrice (mkSt s w c)
    = (Ok (Some signal), st')
    /\ sig_symbol signal = symbol
    /\ sig_action signal = "sell"
    /\ sig_quantity signal = positionSize (config s)
    /\ sig_reason signal
       = SellReason
           (if elapsed then "holding_period_exceeded"
            else if negative then "negative_sentiment"
            else if loss then "stop_loss"
            else "take_profit")
           change
    /\ activePositions (obj st') !! symbol = None.
Proof.
  intros Hpos change elapsed negative loss profit Hany.
  unfold evaluateSellSignal, bind at 1, get_obj at 1.
  cbn [obj]. rewrite Hpos.
  unfold bind at 1, ask at 1. cbn [world obj console].
  destruct (date_now w) as [now w'] eqn:Enow. cbn [fst] in *.
  assert (Hc : sell_conditions (config s) position analysis
                 currentPrice now
               = mkSellConditions elapsed negative loss profit)
    by reflexivity.
  rewrite Hc. unfold any_condition.
  cbn [holdingPeriodExceeded strongNegativeSentiment stopLoss takeProfit].
  rewrite Hany.
  unfold bind at 1, log at 1. cbn [obj world console].
  unfold bind at 1, modify_obj at 1. cbn [obj world console].
  unfold bind, ret.
  match goal with
  | |- context [createSignal ?a ?b ?q ?o ?st] =>
      destruct (createSignal_spec a b q o st)
        as (signal & st' & Hrun & Hsym & Hact & Hqty & Hrsn & Hap & _)
  end.
  rewrite Hrun.
  exists signal, st'. split; [reflexivity|].
  split; [exact Hsym|]. split; [exact Hact|]. split; [exact Hqty|].
  split.
  - rewrite Hrsn. cbn [marketOptions opt_reason]. f_equal.
    unfold reason_code.
    cbn [holdingPeriodExceeded strongNegativeSentiment stopLoss takeProfit].
    destruct elapsed, negative, loss, profit;
      try reflexivity; discriminate.
  - rewrite Hap. cbn [obj with_activePositions activePositions].
    apply lookup_delete_eq.
Qed.

(** What [evaluateBuySignal] and [evaluateSellSignal] leave behind when
    they return a signal: the transition is made by the time the signal
    exists. *)
Lemma buy_signal_marks_active (symbol : string) (analysis : Analysis)
    (currentPrice : num) (st st' : St W t) (signal : Signal) :
  evaluateBuySignal symbol analysis currentPrice st
  = (Ok (Some signal), st') ->
  activePositions (obj st) !! symbol = None
  /\ (exists now, activePositions (obj st') !! symbol
                  = Some {| entryTime := now;
                            entryPrice := currentPrice;
                            reason := "positive_sentiment_buzz" |})
  /\ sig_symbol signal = symbol /\ sig_action signal = "buy".
Proof.
  destruct st as [s w c].
  unfold evaluateBuySignal, bind at 1, get_obj at 1. cbn [obj].
  destruct (activePositions s !! symbol) as [p|] eqn:Hpos;
    [intros [=]|].
  case_bool; [|intros [=]].
  unfold bind at 1, log at 1. cbn [obj world console].
  unfold bind at 1, ask at 1. cbn [obj world console].
  destruct (date_now w) as [now w'].
  unfold bind at 1, modify_obj at 1. cbn [obj world console].
  unfold bind, ret.
  match goal with
  | |- context [createSignal ?a ?b ?q ?o ?st] =>
      destruct (createSignal_spec a b q o st)
        as (sg & st1 & Hrun & Hsym & Hact & _ & _ & Hap & _)
  end.
  rewrite Hrun. intros [= <- <-].
  split; [reflexivity|]. split; [|split; assumption].
  exists now. rewrite Hap.
  cbn [obj with_activePositions activePositions].
  apply lookup_insert_eq.
Qed.

Lemma sell_signal_marks_flat (symbol : string) (analysis : Analysis)
    (currentPrice : num) (st st' : St W t) (signal : Signal) :
  evaluateSellSignal symbol analysis currentPrice st
  = (Ok (Some signal), st') ->
  is_Some (activePositions (obj st) !! symbol)
  /\ activePositions (obj st') !! symbol = None
  /\ sig_symbol signal = symbol /\ sig_action signal = "sell".
Proof.
  destruct st as [s w c].
  unfold evaluateSellSignal, bind at 1, get_obj at 1. cbn [obj].
  destruct (activePositions s !! symbol) as [p|] eqn:Hpos;
    [|intros [=]].
  unfold bind at 1, ask at 1. cbn [obj world console].
  destruct (date_now w) as [now w'].
  case_bool; [|intros [=]].
  unfold bind at 1, log at 1. cbn [obj world console].
  unfold bind at 1, modify_obj at 1. cbn [obj world console].
  unfold bind, ret.
  match goal with
  | |- context [createSignal ?a ?b ?q ?o ?st] =>
      destruct (createSignal_spec a b q o st)
        as (sg & st1 & Hrun & Hsym & Hact & _ & _ & Hap & _)
  end.
  rewrite Hrun. intros [= <- <-].
  split; [eauto|]. split; [|split; assumption].
  rewrite Hap. cbn [obj with_activePositions activePositions].
  apply lookup_delete_eq.
Qed.

End Facts.

(** Scenario D: the default configuration; AAPL was bought at 150, ten
    minutes before the clock's reading; the sentiment is mildly
    positive. *)
Definition holding_aapl : t :=
  with_activePositions
    (insert "AAPL" {| entryTime := 1000000;
                      entryPrice := 150%float;
                      reason := "positive_sentiment_buzz" |})
    (setDataAggregator (constructor defaultConfig ["AAPL"])).

Definition ten_minutes_later : SimWorld :=
  {| sim_now := 1600000; sim_today := "Mon Jan 01 2024";
     sim_latest := None |}.

Definition mild_sentiment : Analysis :=
  {| an_sentimentScore := 0.1%float;
     an_buzzScore := 60%float;
     an_newsMentions := 2%float |}.

(** Scenario D: at price 142.5 the sell signal carries "stop_loss". *)
Lemma sell_rule_priority_witness :
  exists signal st',
    evaluateSellSignal "AAPL" mild_sentiment 142.5%float
      (mkSt holding_aapl ten_minutes_later [])
    = (Ok (Some signal), st')
    /\ sig_symbol signal = "AAPL"
    /\ sig_action signal = "sell"
    /\ sig_quantity signal = 100%float
    /\ sig_reason signal = SellReason "stop_loss" (-0.05)%float
    /\ activePositions (obj st') !! "AAPL" = None.
Proof.
  exact (sell_rule_priority holding_aapl ten_minutes_later [] "AAPL"
           mild_sentiment 142.5%float
           {| entryTime := 1000000; entryPrice := 150%float;
              reason := "positive_sentiment_buzz" |}
           eq_refl eq_refl).
Defined.

End StrategyFacts.

(** ** Insertion-ordered maps *)

Module JsMapFacts.
Import JsMap.

Section Facts.
Context {V : Type}.
Implicit Types (m : JsMap.t V) (k : string) (v : V).

Lemma get_set_eq k v m : get k (set k v m) = Some v.
Proof.
  induction m as [|[k' v'] m IH]; cbn.
  - now rewrite String.eqb_refl.
  - destruct (String.eqb k' k) eqn:E; cbn.
    + now rewrite String.eqb_refl.
    + now rewrite E.
Qed.

Lemma get_set_ne k k' v m : k <> k' -> get k' (set k v m) = get k' m.
Proof.
  intros Hne. induction m as [|[k0 v0] m IH]; cbn.
  - destruct (String.eqb k k') eqn:E; [|reflexivity].
    apply String.eqb_eq in E. contradiction.
  - destruct (String.eqb k0 k) eqn:E; cbn.
    + apply String.eqb_eq in E. subst k0.
      destruct (String.eqb k k') eqn:E'; [|reflexivity].
      apply String.eqb_eq in E'. contradiction.
    + now rewrite IH.
Qed.

Lemma get_In k v m : get k m = Some v -> In v (values m).
Proof.
  induction m as [|[k' v'] m IH]; cbn; [discriminate|].
  destruct (String.eqb k' k); [intros [= ->]; now left|].
  intros Hg. right. now apply IH.
Qed.

Lemma get_None_notin k m : get k m = None <-> ~ In k (keys m).
Proof.
  unfold keys.
  induction m as [|[k' v'] m IH]; cbn; [tauto|].
  destruct (String.eqb k' k) eqn:E.
  - apply String.eqb_eq in E. split; [discriminate|]. intros Hn.
    exfalso. apply Hn. now left.
  - apply String.eqb_neq in E. rewrite IH. tauto.
Qed.

(** Setting a present key keeps every key where it stands. *)
Lemma keys_set_present k v m :
  In k (keys m) -> keys (set k v m) = keys m.
Proof.
  unfold keys.
  induction m as [|[k' v'] m IH]; cbn; [tauto|].
  destruct (String.eqb k' k) eqn:E; cbn.
  - apply String.eqb_eq in E. now subst.
  - apply String.eqb_neq in E. intros [Hk|Hk]; [contradiction|].
    now rewrite IH.
Qed.

Lemma keys_set_fresh k v m :
  ~ In k (keys m) -> keys (set k v m) = keys m ++ [k].
Proof.
  unfold keys.
  induction m as [|[k' v'] m IH]; cbn; [reflexivity|].
  intros Hn. destruct (String.eqb k' k) eqn:E.
  - apply String.eqb_eq in E. tauto.
  - cbn. rewrite IH; tauto.
Qed.

Lemma set_wf k v m : wf m -> wf (set k v m).
Proof.
  unfold wf. intros Hwf.
  destruct (in_dec String.string_dec k (keys m)) as [Hin|Hn].
  - now rewrite keys_set_present.
  - rewrite keys_set_fresh by exact Hn.
    apply NoDup_app; repeat split; try assumption.
    + intros x Hx. rewrite list_elem_of_In in Hx.
      intros Hx'. apply list_elem_of_singleton in Hx'. now subst.
    + apply NoDup_singleton.
Qed.

(** Replacing the value of a key that stands once, in place. *)
Lemma set_middle k v v' (pre post : JsMap.t V) :
  ~ In k (keys pre) ->
  set k v' (pre ++ (k, v) :: post) = pre ++ (k, v') :: post.
Proof.
  unfold keys.
  induction pre as [|[k0 v0] pre IH]; cbn.
  - now rewrite String.eqb_refl.
  - intros Hn. destruct (String.eqb k0 k) eqn:E.
    + apply String.eqb_eq in E. tauto.
    + rewrite IH; tauto.
Qed.

Lemma get_middle k v (pre post : JsMap.t V) :
  ~ In k (keys pre) -> get k (pre ++ (k, v) :: post) = Some v.
Proof.
  unfold keys.
  induction pre as [|[k0 v0] pre IH]; cbn.
  - now rewrite String.eqb_refl.
  - intros Hn. destruct (String.eqb k0 k) eqn:E.
    + apply String.eqb_eq in E. tauto.
    + apply IH. tauto.
Qed.

End Facts.

End JsMapFacts.

(** ** The engine *)

Module EngineFacts.
Import Engine.

Section Facts.
Context {W : Type} `{World W}.

(** Everything of the engine but its risk manager is as before. *)
Definition same_registry (e e' : t W) : Prop :=
  brokers e' = brokers e
  /\ strategies e' = strategies e
  /\ positions e' = positions e
  /\ orders e' = orders e
  /\ running e' = running e
  /\ emitted e' = emitted e.

Lemma same_registry_refl (e : t W) : same_registry e e.
Proof. repeat split. Qed.

(** The entry [executeSignal] records for a broker's result. *)
Definition entry_of (result : OrderResult) (strategyName : string)
    (signal : Signal) : OrderInfo :=
  {| oi_result := result;
     oi_strategyName := strategyName;
     oi_signal := signal |}.

(** [validateSignal] returns, and changes nothing but the risk
    manager's counters. *)
Lemma validateSignal_frame (signal : Signal) (strategyName : string)
    (s : St W (t W)) :
  exists v s',
    validateSignal signal strategyName s = (Ok v, s')
    /\ same_registry (obj s) (obj s').
Proof.
  destruct s as [e w c]. unfold validateSignal.
  case_bool.
  - unfold_m. cbn. eexists _, _. split; [reflexivity|].
    apply same_registry_refl.
  - unfold bind at 1, get_obj at 1. cbn [obj].
    destruct (riskManager e) as [rm|] eqn:Hrm.
    + unfold bind at 1, zoom at 1.
      rewrite RiskFacts.validateOrder_outcome.
      cbn [obj world console fst snd].
      case_bool; unfold_m; cbn; eexists _, _;
        (split; [reflexivity|]); repeat split.
    + unfold ret. eexists _, _. split; [reflexivity|].
      apply same_registry_refl.
Qed.

(** [executeSignal], run: by cases on the broker selected and on what
    its [placeOrder] does. *)
Lemma executeSignal_run (signal : Signal) (strategyName : string)
    (e : t W) (w : W) (c : list LogLine) :
  executeSignal signal strategyName (mkSt e w c)
  = match selectBroker e signal with
    | Some broker =>
        match placeOrder broker (order_of_signal signal) w with
        | (Ok result, w') =>
            (Ok tt,
             mkSt (with_emitted
                     (fun l => l ++ [EvOrderPlaced (or_orderId result)
                                       result strategyName signal])
                     (with_orders
                        (JsMap.set (or_orderId result)
                           (entry_of result strategyName signal)) e))
                  w' (c ++ [LogOrderPlaced (or_orderId result) signal]))
        | (Throw error, w') =>
            (Ok tt,
             mkSt (with_emitted
                     (fun l => l ++ [EvOrderFailed signal error
                                       strategyName]) e)
                  w' (c ++ [LogExecuteFailed error]))
        end
    | None =>
        let error := mkError "Cannot read properties of undefined" in
        (Ok tt,
         mkSt (with_emitted
                 (fun l => l ++ [EvOrderFailed signal error strategyName])
                 e)
              w (c ++ [LogExecuteFailed error]))
    end.
Proof.
  unfold executeSignal, call_broker, emit. unfold_m.
  cbn [obj world console].
  destruct (selectBroker e signal) as [broker|];
    cbn beta iota; cbn [obj world console]; [|reflexivity].
  destruct (placeOrder broker (order_of_signal signal) w)
    as [[result|error] w']; reflexivity.
Qed.

Lemma executeSignal_returns (signal : Signal) (strategyName : string)
    (s : St W (t W)) :
  fst (executeSignal signal strategyName s) = Ok tt.
Proof.
  destruct s as [e w c]. rewrite executeSignal_run.
  destruct (selectBroker e signal) as [broker|]; [|reflexivity].
  destruct (placeOrder broker (order_of_signal signal) w)
    as [[result|error] w']; reflexivity.
Qed.

(** The loop body of [processSignals] catches whatever is thrown. *)
Lemma process_signal_run (strategyName : string) (signal : Signal)
    (s : St W (t W)) :
  process_signal strategyName signal s
  = match validateSignal signal strategyName s with
    | (Ok (Some validated), s1) => executeSignal validated strategyName s1
    | (_, s1) => (Ok tt, s1)
    end.
Proof.
  unfold process_signal, try_catch, bind.
  destruct (validateSignal_frame signal strategyName s)
    as (v & s1 & -> & _).
  destruct v as [validated|]; [|reflexivity].
  pose proof (executeSignal_returns validated strategyName s1) as Hr.
  destruct (executeSignal validated strategyName s1) as [r s2].
  cbn in Hr. now subst r.
Qed.

Lemma process_signal_returns (strategyName : string) (signal : Signal)
    (s : St W (t W)) :
  fst (process_signal strategyName signal s) = Ok tt.
Proof.
  rewrite process_signal_run.
  destruct (validateSignal_frame signal strategyName s)
    as (v & s1 & -> & _).
  destruct v as [validated|]; [|reflexivity].
  apply executeSignal_returns.
Qed.

Lemma processSignals_cons (signal : Signal) (signals : list Signal)
    (strategyName : string) (s : St W (t W)) :
  processSignals (signal :: signals) strategyName s
  = processSignals signals strategyName
      (snd (process_signal strategyName signal s)).
Proof.
  unfold processSignals. cbn [for_each]. unfold bind.
  pose proof (process_signal_returns strategyName signal s) as Hr.
  destruct (process_signal strategyName signal s) as [r s1].
  cbn in Hr. now subst r.
Qed.

Lemma processSignals_returns (signals : list Signal)
    (strategyName : string) (s : St W (t W)) :
  fst (processSignals signals strategyName s) = Ok tt.
Proof.
  revert s. induction signals as [|signal signals IH]; intros s.
  - reflexivity.
  - rewrite processSignals_cons. apply IH.
Qed.

(** C1. [executeSignal] returns whatever the broker does, and the
    registry receives an entry exactly when [placeOrder] returned: it is
    then the registry with the broker's order set under its id; when
    [placeOrder] throws (or no broker is there to call) the registry is
    as before. The loop body of [processSignals] never throws, leaves
    the registry as it was unless the signal was validated and executed,
    and the loop goes on with the next signal. *)
Theorem order_submission_atomicity (e : t W) (w : W) (c : list LogLine)
    (signal : Signal) (signals : list Signal) (strategyName : string) :
  let s := mkSt e w c in
  let after := snd (executeSignal signal strategyName s) in
  fst (executeSignal signal strategyName s) = Ok tt
  /\ match selectBroker e signal with
     | Some broker =>
         match fst (placeOrder broker (order_of_signal signal) w) with
         | Ok result =>
             orders (obj after)
             = JsMap.set (or_orderId result)
                 (entry_of result strategyName signal) (orders e)
             /\ JsMap.get (or_orderId result) (orders (obj after))
                = Some (entry_of result strategyName signal)
         | Throw _ => orders (obj after) = orders e
         end
     | None => orders (obj after) = orders e
     end
  /\ fst (process_signal strategyName signal s) = Ok tt
  /\ match validateSignal signal strategyName s with
     | (Ok (Some validated), s1) =>
         orders (obj s1) = orders e
         /\ orders (obj (snd (process_signal strategyName signal s)))
            = orders (obj (snd (executeSignal validated strategyName s1)))
     | _ =>
         orders (obj (snd (process_signal strategyName signal s)))
         = orders e
     end
  /\ processSignals (signal :: signals) strategyName s
     = processSignals signals strategyName
         (snd (process_signal strategyName signal s))
  /\ fst (processSignals (signal :: signals) strategyName s) = Ok tt.
Proof.
  cbn zeta. split; [apply executeSignal_returns|]. split.
  { rewrite executeSignal_run.
    destruct (selectBroker e signal) as [broker|]; [|reflexivity].
    destruct (placeOrder broker (order_of_signal signal) w)
      as [[result|error] w']; cbn; [|reflexivity].
    split; [reflexivity|]. apply JsMapFacts.get_set_eq. }
  split; [apply process_signal_returns|]. split.
  { rewrite process_signal_run.
    destruct (validateSignal_frame signal strategyName (mkSt e w c))
      as (v & s1 & -> & Hframe).
    destruct Hframe as (_ & _ & _ & Hord & _). cbn [obj] in Hord.
    destruct v as [validated|]; [split|]; auto. }
  split; [apply processSignals_cons|apply processSignals_returns].
Qed.

(** C7, as the code has it. When the broker returns an order whose id
    the registry already holds, [executeSignal] returns normally, the
    entry under that id is the new order, every other entry and the
    order of the keys are as before, and [order_placed] is emitted. *)
Theorem duplicate_id_replaces_entry (e : t W) (w w' : W)
    (c : list LogLine) (signal : Signal) (strategyName : string)
    (broker : Broker W) (result : OrderResult) (old : OrderInfo) :
  selectBroker e signal = Some broker ->
  placeOrder broker (order_of_signal signal) w = (Ok result, w') ->
  JsMap.get (or_orderId result) (orders e) = Some old ->
  let r := executeSignal signal strategyName (mkSt e w c) in
  fst r = Ok tt
  /\ JsMap.get (or_orderId result) (orders (obj (snd r)))
     = Some (entry_of result strategyName signal)
  /\ (forall k, k <> or_orderId result ->
        JsMap.get k (orders (obj (snd r))) = JsMap.get k (orders e))
  /\ JsMap.keys (orders (obj (snd r))) = JsMap.keys (orders e)
  /\ emitted (obj (snd r))
     = emitted e ++ [EvOrderPlaced (or_orderId result) result
                       strategyName signal].
Proof.
  intros Hb Hp Hold. cbn zeta. rewrite executeSignal_run, Hb, Hp.
  cbn [fst snd obj with_emitted with_orders orders emitted].
  split; [reflexivity|].
  split; [apply JsMapFacts.get_set_eq|].
  split; [intros k Hk; apply JsMapFacts.get_set_ne; congruence|].
  split; [|reflexivity].
  apply JsMapFacts.keys_set_present.
  destruct (in_dec String.string_dec (or_orderId result)
                   (JsMap.keys (orders e))) as [Hin|Hn]; [exact Hin|].
  apply JsMapFacts.get_None_notin in Hn. congruence.
Qed.

(** C8, as the code has it. [start()] on a running engine throws
    "Trading engine is already running"; the engine, the world and the
    console are as before. *)
Theorem start_while_running_throws (e : t W) (w : W) (c : list LogLine) :
  running e = true ->
  start (mkSt e w c)
  = (Throw (mkError "Trading engine is already running"), mkSt e w c).
Proof.
  intros Hr. unfold start, bind at 1, get_obj at 1. cbn [obj].
  now rewrite Hr.
Qed.

(** *** What the engine does with signals leaves the strategies alone *)

Lemma executeSignal_strategies (signal : Signal) (strategyName : string)
    (s : St W (t W)) :
  strategies (obj (snd (executeSignal signal strategyName s)))
  = strategies (obj s).
Proof.
  destruct s as [e w c]. rewrite executeSignal_run.
  destruct (selectBroker e signal) as [broker|]; [|reflexivity].
  destruct (placeOrder broker (order_of_signal signal) w)
    as [[result|error] w']; reflexivity.
Qed.

Lemma process_signal_strategies (strategyName : string) (signal : Signal)
    (s : St W (t W)) :
  strategies (obj (snd (process_signal strategyName signal s)))
  = strategies (obj s).
Proof.
  rewrite process_signal_run.
  destruct (validateSignal_frame signal strategyName s)
    as (v & s1 & -> & Hframe).
  destruct Hframe as (_ & Hst & _).
  destruct v as [validated|]; [|exact Hst].
  now rewrite executeSignal_strategies.
Qed.

Lemma processSignals_strategies (signals : list Signal)
    (strategyName : string) (s : St W (t W)) :
  strategies (obj (snd (processSignals signals strategyName s)))
  = strategies (obj s).
Proof.
  revert s. induction signals as [|signal signals IH]; intros s.
  - reflexivity.
  - rewrite processSignals_cons, IH. apply process_signal_strategies.
Qed.

(** C10. A buy signal exists only once its symbol is marked active and
    a sell signal only once its symbol's entry is deleted;
    [processSignals] leaves the strategies as they are; so after the
    engine has run a strategy and dealt with its signals, whatever the
    risk gate and the brokers did with them, the strategy is in the
    state its [evaluate] left it in. *)
Theorem strategy_state_committed_at_signal_creation :
  (forall symbol analysis currentPrice (st st' : St W Strategy.t) signal,
      Strategy.evaluateBuySignal symbol analysis currentPrice st
      = (Ok (Some signal), st') ->
      is_Some (Strategy.activePositions (obj st') !! symbol))
  /\ (forall symbol analysis currentPrice (st st' : St W Strategy.t) signal,
         Strategy.evaluateSellSignal symbol analysis currentPrice st
         = (Ok (Some signal), st') ->
         Strategy.activePositions (obj st') !! symbol = None)
  /\ (forall signals strategyName (s : St W (t W)),
         strategies (obj (snd (processSignals signals strategyName s)))
         = strategies (obj s))
  /\ (forall marketData name (e : t W) (w : W) (c : list LogLine) strategy,
         JsMap.get name (strategies e) = Some strategy ->
         Strategy.enabled strategy = true ->
         JsMap.get name
           (strategies
              (obj (snd (execute_strategy marketData name (mkSt e w c)))))
         = Some (obj (snd (Strategy.evaluate marketData
                             (mkSt strategy w c))))).
Proof.
  split; [|split; [|split]].
  - intros symbol analysis currentPrice st st' signal Hrun.
    destruct (StrategyFacts.buy_signal_marks_active _ _ _ _ _ _ Hrun)
      as (_ & (now & ->) & _). eauto.
  - intros symbol analysis currentPrice st st' signal Hrun.
    now destruct (StrategyFacts.sell_signal_marks_flat _ _ _ _ _ _ Hrun)
      as (_ & -> & _).
  - apply processSignals_strategies.
  - intros marketData name e w c strategy Hget Hen.
    unfold execute_strategy, try_catch, bind at 1, get_obj at 1.
    cbn [obj]. rewrite Hget, Hen.
    unfold bind at 1, zoom at 1. cbn [obj world console].
    destruct (Strategy.evaluate marketData (mkSt strategy w c))
      as [[signals|error] st1]; cbn [snd].
    + match goal with
      | |- context [processSignals signals name ?s] =>
          pose proof (processSignals_strategies signals name s) as Hfr;
          pose proof (processSignals_returns signals name s) as Hok;
          destruct (processSignals signals name s) as [r s2]
      end.
      cbn [fst snd obj] in *. subst r. cbn [snd]. rewrite Hfr.
      cbn [with_strategies strategies]. apply JsMapFacts.get_set_eq.
    + unfold emit. unfold_m. cbn.
      apply JsMapFacts.get_set_eq.
Qed.

(** *** Reconciliation *)

(** Every broker answers [getOrderHistory] the same way on every call:
    with the snapshot (or the failure) [snap] gives for it. *)
Definition stable_history (e : t W)
    (snap : Broker W -> Res (list OrderResult)) : Prop :=
  forall b, In b (JsMap.values (brokers e)) ->
  forall w, fst (getOrderHistory b w) = snap b.

(** What the snapshot of the order's broker reports under its id. *)
Definition reported (e : t W) (snap : Broker W -> Res (list OrderResult))
    (orderId : string) (orderInfo : OrderInfo) : option OrderResult :=
  match selectBroker e (oi_signal orderInfo) with
  | Some b =>
      match snap b with
      | Ok orderHistory =>
          find (fun o => String.eqb (or_orderId o) orderId) orderHistory
      | Throw _ => None
      end
  | None => None
  end.

(** The reported order when its status is not the entry's. *)
Definition status_change (e : t W)
    (snap : Broker W -> Res (list OrderResult))
    (entry : string * OrderInfo) : option OrderResult :=
  match reported e snap (fst entry) (snd entry) with
  | Some currentOrder =>
      if negb (String.eqb (or_status currentOrder)
                          (or_status (oi_result (snd entry))))
      then Some currentOrder else None
  | None => None
  end.

Definition reconciled (e : t W)
    (snap : Broker W -> Res (list OrderResult))
    (entry : string * OrderInfo) : string * OrderInfo :=
  match status_change e snap entry with
  | Some currentOrder => (fst entry, merge_order (snd entry) currentOrder)
  | None => entry
  end.

Definition updates (e : t W)
    (snap : Broker W -> Res (list OrderResult))
    (entry : string * OrderInfo) : list Event :=
  match status_change e snap entry with
  | Some currentOrder => [EvOrderUpdated (fst entry) currentOrder]
  | None => []
  end.

Lemma selectBroker_In (e : t W) (signal : Signal) (b : Broker W) :
  selectBroker e signal = Some b -> In b (JsMap.values (brokers e)).
Proof.
  unfold selectBroker.
  assert (Hhd : head (JsMap.values (brokers e)) = Some b ->
                In b (JsMap.values (brokers e))).
  { destruct (JsMap.values (brokers e)); [discriminate|].
    intros [= ->]. now left. }
  destruct (sig_preferredBroker signal) as [preferred|]; [|exact Hhd].
  destruct (truthy_str preferred); [|exact Hhd].
  destruct (JsMap.get preferred (brokers e)) as [b'|] eqn:Hg;
    [|exact Hhd].
  intros [= ->]. eapply JsMapFacts.get_In, Hg.
Qed.

Lemma status_change_brokers (e e' : t W) snap entry :
  brokers e' = brokers e ->
  status_change e' snap entry = status_change e snap entry.
Proof.
  intros Hb. unfold status_change, reported, selectBroker.
  now rewrite Hb.
Qed.

(** One entry of the loop of [processOrders]. *)
Lemma process_order_run (snap : Broker W -> Res (list OrderResult))
    (entry : string * OrderInfo) (s : St W (t W)) :
  stable_history (obj s) snap ->
  let r := process_order entry s in
  fst r = Ok tt
  /\ brokers (obj (snd r)) = brokers (obj s)
  /\ orders (obj (snd r))
     = match status_change (obj s) snap entry with
       | Some _ =>
           JsMap.set (fst entry) (snd (reconciled (obj s) snap entry))
                     (orders (obj s))
       | None => orders (obj s)
       end
  /\ emitted (obj (snd r)) = emitted (obj s) ++ updates (obj s) snap entry.
Proof.
  destruct s as [e w c]. destruct entry as [orderId orderInfo].
  intros Hst. cbn [obj] in *. cbn zeta.
  unfold updates, reconciled, status_change, reported.
  unfold process_order, call_broker, emit. unfold_m.
  cbn [obj world console fst snd].
  destruct (selectBroker e (oi_signal orderInfo)) as [b|] eqn:Hsel;
    cbn beta iota; cbn [obj world console fst snd].
  2: { cbn. now rewrite app_nil_r. }
  specialize (Hst b (selectBroker_In _ _ _ Hsel) w).
  destruct (getOrderHistory b w) as [r w'] eqn:Hh.
  cbn [fst] in Hst. subst r.
  destruct (snap b) as [orderHistory|error];
    cbn beta iota; cbn [obj world console fst snd].
  2: { cbn. now rewrite app_nil_r. }
  destruct (find _ orderHistory) as [currentOrder|];
    cbn beta iota; cbn [obj world console fst snd].
  2: { cbn. now rewrite app_nil_r. }
  case_bool; cbn.
  - repeat split; reflexivity.
  - now rewrite app_nil_r.
Qed.

Lemma reconciled_key e snap entry :
  fst (reconciled e snap entry) = fst entry.
Proof. unfold reconciled. now destruct (status_change e snap entry). Qed.

(** The loop over the entries [l] that stand after [pre] in the
    registry. *)
Lemma process_orders_loop (snap : Broker W -> Res (list OrderResult))
    (l : list (string * OrderInfo)) :
  forall (pre : list (string * OrderInfo)) (s : St W (t W)),
    stable_history (obj s) snap ->
    orders (obj s) = pre ++ l ->
    NoDup (JsMap.keys (pre ++ l)) ->
    let r := for_each l process_order s in
    fst r = Ok tt
    /\ brokers (obj (snd r)) = brokers (obj s)
    /\ orders (obj (snd r)) = pre ++ map (reconciled (obj s) snap) l
    /\ emitted (obj (snd r))
       = emitted (obj s) ++ concat (map (updates (obj s) snap) l).
Proof.
  induction l as [|entry l IH]; intros pre s Hst Hord Hnd; cbn zeta.
  - cbn. rewrite !app_nil_r in *. auto.
  - cbn [for_each]. unfold bind.
    destruct (process_order_run snap entry s Hst)
      as (Hok & Hbr & Hord1 & Hem1).
    destruct (process_order entry s) as [r s1]. cbn [fst snd] in *.
    subst r.
    assert (Hpre : ~ In (fst entry) (JsMap.keys pre)).
    { unfold JsMap.keys in *. rewrite map_app in Hnd. cbn in Hnd.
      apply NoDup_app in Hnd as (_ & Hdisj & _).
      intros Hin. apply (Hdisj (fst entry)).
      - now apply list_elem_of_In.
      - left. }
    assert (Hord1' : orders (obj s1)
                     = (pre ++ [reconciled (obj s) snap entry]) ++ l).
    { rewrite Hord1, Hord, <- app_assoc. cbn [app].
      unfold reconciled.
      destruct (status_change (obj s) snap entry) as [cur|];
        [|reflexivity].
      cbn [snd]. destruct entry as [k v]. cbn [fst snd] in *.
      now apply JsMapFacts.set_middle. }
    assert (Hst1 : stable_history (obj s1) snap).
    { intros b Hb. apply Hst. now rewrite <- Hbr. }
    assert (Hnd1 : NoDup (JsMap.keys
                            ((pre ++ [reconciled (obj s) snap entry])
                             ++ l))).
    { unfold JsMap.keys in *. rewrite <- app_assoc. cbn [app].
      rewrite map_app in *. cbn [map] in *.
      now rewrite reconciled_key. }
    destruct (IH _ s1 Hst1 Hord1' Hnd1) as (Hok2 & Hbr2 & Hord2 & Hem2).
    split; [exact Hok2|]. split; [congruence|].
    assert (Hext : forall en, status_change (obj s1) snap en
                              = status_change (obj s) snap en)
      by (intros en; now apply status_change_brokers).
    split.
    + rewrite Hord2, <- app_assoc. cbn [app map]. do 2 f_equal.
      apply map_ext. intros en. unfold reconciled. now rewrite Hext.
    + rewrite Hem2, Hem1, <- app_assoc. cbn [map concat]. do 3 f_equal.
      apply map_ext. intros en. unfold updates. now rewrite Hext.
Qed.

(** Once reconciled, an entry has the status the snapshot reports. *)
Lemma status_change_reconciled e snap entry :
  status_change e snap (reconciled e snap entry) = None.
Proof.
  unfold reconciled.
  destruct (status_change e snap entry) as [cur|] eqn:Hc;
    [|exact Hc].
  unfold status_change in *. cbn [fst snd].
  unfold reported in *. cbn [merge_order oi_signal oi_result or_status].
  destruct (selectBroker e (oi_signal (snd entry))) as [b|];
    [|discriminate].
  destruct (snap b) as [orderHistory|]; [|discriminate].
  destruct (find _ orderHistory) as [cur'|]; [|discriminate].
  destruct (negb _); [|discriminate].
  injection Hc as ->. now rewrite String.eqb_refl.
Qed.

Lemma get_reconciled e snap (m : JsMap.t OrderInfo) id oi :
  JsMap.get id m = Some oi ->
  JsMap.get id (map (reconciled e snap) m)
  = Some (snd (reconciled e snap (id, oi))).
Proof.
  induction m as [|[k v] m IH]; cbn [JsMap.get map]; [discriminate|].
  pose proof (reconciled_key e snap (k, v)) as Hk.
  destruct (reconciled e snap (k, v)) as [k' v'] eqn:Hr.
  cbn [fst] in Hk. subst k'.
  destruct (String.eqb k id) eqn:E.
  - apply String.eqb_eq in E. subst k. intros [= ->].
    now rewrite Hr.
  - exact IH.
Qed.

(** C6. Let every broker answer [getOrderHistory] with the same
    snapshot on every call. Running [processOrders] a second time emits
    no event and changes no entry; and an entry whose id the snapshot
    of its broker does not report is, after the first run, as it was. *)
Theorem reconciliation_idempotent (e : t W) (w : W) (c : list LogLine)
    (snap : Broker W -> Res (list OrderResult)) :
  JsMap.wf (orders e) ->
  stable_history e snap ->
  let s1 := snd (processOrders (mkSt e w c)) in
  let s2 := snd (processOrders s1) in
  emitted (obj s2) = emitted (obj s1)
  /\ orders (obj s2) = orders (obj s1)
  /\ (forall orderId orderInfo,
        JsMap.get orderId (orders e) = Some orderInfo ->
        reported e snap orderId orderInfo = None ->
        JsMap.get orderId (orders (obj s1)) = Some orderInfo).
Proof.
  intros Hwf Hst. cbn zeta.
  assert (Hrun : forall s : St W (t W),
             processOrders s = for_each (orders (obj s)) process_order s)
    by reflexivity.
  rewrite (Hrun (mkSt e w c)). cbn [obj].
  destruct (process_orders_loop snap (orders e) [] (mkSt e w c)
              Hst eq_refl Hwf) as (_ & Hbr & Hord & Hem).
  destruct (for_each (orders e) process_order (mkSt e w c)) as [r1 s1].
  cbn [fst snd obj app] in *. rewrite (Hrun s1).
  assert (Hst1 : stable_history (obj s1) snap).
  { intros b Hb. apply Hst. now rewrite <- Hbr. }
  assert (Hwf1 : NoDup (JsMap.keys ([] ++ orders (obj s1)))).
  { cbn [app]. rewrite Hord. unfold JsMap.wf, JsMap.keys in *.
    rewrite map_map.
    erewrite map_ext; [exact Hwf|].
    intros en. apply reconciled_key. }
  destruct (process_orders_loop snap (orders (obj s1)) [] s1
              Hst1 eq_refl Hwf1) as (_ & _ & Hord2 & Hem2).
  destruct (for_each (orders (obj s1)) process_order s1) as [r2 s2].
  cbn [fst snd obj app] in *.
  assert (Hext : forall en, status_change (obj s1) snap en
                            = status_change e snap en)
    by (intros en; now apply status_change_brokers).
  split; [|split].
  - assert (Hnone : forall m : JsMap.t OrderInfo,
               concat (map (fun en => updates (obj s1) snap
                                        (reconciled e snap en)) m) = []).
    { induction m as [|en m IHm]; [reflexivity|].
      cbn [map concat]. rewrite IHm, app_nil_r.
      unfold updates. now rewrite Hext, status_change_reconciled. }
    rewrite Hem2, Hord, map_map, Hnone. apply app_nil_r.
  - rewrite Hord2, Hord at 1. rewrite Hord, map_map.
    apply map_ext. intros en. unfold reconciled at 1.
    now rewrite Hext, status_change_reconciled.
  - intros orderId orderInfo Hget Hrep. rewrite Hord.
    rewrite (get_reconciled e snap _ _ _ Hget).
    unfold reconciled, status_change. cbn [fst snd].
    now rewrite Hrep.
Qed.

End Facts.

End EngineFacts.

(** ** Scenarios on the simulated world *)

Module Scenarios.
Import Engine EngineFacts.

(** A broker that answers [placeOrder] and [getOrderHistory] as
    scripted. *)
Definition scripted_broker (placed : Res OrderResult)
    (history : Res (list OrderResult)) : Broker SimWorld :=
  {| authenticate := fun w => (Ok tt, w);
     getPositions := fun w => (Ok [], w);
     placeOrder := fun _ w => (placed, w);
     cancelOrder := fun _ w => (Ok tt, w);
     getMarketData := fun _ w =>
       (Ok {| md_price := Some 150%float; md_volume := None |}, w);
     getOrderHistory := fun w => (history, w) |}.

Definition broker_down : Res OrderResult :=
  Throw (mkError "Failed to place Alpaca order: 503").

Definition signal_for (action : string) (reason : SignalReason) : Signal :=
  {| sig_symbol := "AAPL";
     sig_action := action;
     sig_quantity := 100%float;
     sig_orderType := "market";
     sig_limitPrice := None;
     sig_stopPrice := None;
     sig_timeInForce := "gtc";
     sig_strategyName := "NewsBasedStrategy";
     sig_timestamp := 1600000;
     sig_reason := reason;
     sig_preferredBroker := None |}.

Definition buy_signal : Signal :=
  signal_for "buy" (BuyReason 0.7%float 60%float).

Definition sell_signal : Signal :=
  signal_for "sell" (SellReason "take_profit" 0.125%float).

Definition broker_order (orderId side status : string) : OrderResult :=
  {| or_orderId := orderId;
     or_symbol := "AAPL";
     or_qty := 100%float;
     or_side := side;
     or_type := "market";
     or_status := status;
     or_timestamp := 1600000;
     or_filledQty := None;
     or_avgFillPrice := None |}.

Definition today_world (latest : option LatestData) : SimWorld :=
  {| sim_now := 1600000;
     sim_today := "Mon Jan 01 2024";
     sim_latest := latest |}.

(** *** A broker that hands out an id twice *)

(** The registry holds the filled sell "o1"; the broker answers the next
    order with the id "o1" again. *)
Definition filled_sell : OrderInfo :=
  entry_of (broker_order "o1" "sell" "filled") "NewsBasedStrategy"
           sell_signal.

Definition reusing_ids : t SimWorld :=
  with_orders (JsMap.set "o1" filled_sell)
    (constructor
       [("alpaca",
         scripted_broker (Ok (broker_order "o1" "buy" "new")) (Ok []))]).

(** C7, as stated, fails: [executeSignal] returns normally and the
    entry "o1" is now the buy; the sell that stood there is gone. *)
Lemma duplicate_order_id_overwrites :
  let r := executeSignal buy_signal "NewsBasedStrategy"
             (mkSt reusing_ids (today_world None) []) in
  fst r = Ok tt
  /\ JsMap.get "o1" (orders reusing_ids) = Some filled_sell
  /\ JsMap.get "o1" (orders (obj (snd r)))
     = Some (entry_of (broker_order "o1" "buy" "new") "NewsBasedStrategy"
                      buy_signal)
  /\ JsMap.get "o1" (orders (obj (snd r))) <> Some filled_sell.
Proof.
  cbn zeta. repeat split; try reflexivity.
  vm_compute. discriminate.
Qed.

Lemma duplicate_id_replaces_entry_witness :
  let r := executeSignal buy_signal "NewsBasedStrategy"
             (mkSt reusing_ids (today_world None) []) in
  fst r = Ok tt
  /\ JsMap.get "o1" (orders (obj (snd r)))
     = Some (entry_of (broker_order "o1" "buy" "new") "NewsBasedStrategy"
                      buy_signal)
  /\ (forall k, k <> "o1" ->
        JsMap.get k (orders (obj (snd r)))
        = JsMap.get k (orders reusing_ids))
  /\ JsMap.keys (orders (obj (snd r))) = JsMap.keys (orders reusing_ids)
  /\ emitted (obj (snd r))
     = [EvOrderPlaced "o1" (broker_order "o1" "buy" "new")
          "NewsBasedStrategy" buy_signal].
Proof.
  exact (duplicate_id_replaces_entry reusing_ids (today_world None)
           (today_world None) [] buy_signal "NewsBasedStrategy"
           (scripted_broker (Ok (broker_order "o1" "buy" "new")) (Ok []))
           (broker_order "o1" "buy" "new") filled_sell
           eq_refl eq_refl eq_refl).
Defined.

(** *** Starting twice *)

Definition running_engine : t SimWorld :=
  with_running true
    (constructor [("alpaca", scripted_broker broker_down (Ok []))]).

(** C8, as stated, fails: the second [start()] throws, and nothing is
    logged. *)
Lemma start_while_running_raises :
  start (mkSt running_engine (today_world None) [])
  = (Throw (mkError "Trading engine is already running"),
     mkSt running_engine (today_world None) []).
Proof. reflexivity. Qed.

Lemma start_while_running_throws_witness :
  running running_engine = true
  /\ fst (start (mkSt running_engine (today_world None) []))
     = Throw (mkError "Trading engine is already running")
  /\ obj (snd (start (mkSt running_engine (today_world None) [])))
     = running_engine.
Proof.
  split; [reflexivity|].
  rewrite (start_while_running_throws running_engine (today_world None) []
             eq_refl).
  split; reflexivity.
Defined.

(** *** Reconciling twice *)

(** Two orders are tracked as "new"; the broker's history reports the
    first as filled and does not list the second. *)
Definition tracked (orderId : string) : OrderInfo :=
  entry_of (broker_order orderId "buy" "new") "NewsBasedStrategy"
           buy_signal.

Definition filled_o1 : OrderResult :=
  {| or_orderId := "o1";
     or_symbol := "AAPL";
     or_qty := 100%float;
     or_side := "buy";
     or_type := "market";
     or_status := "filled";
     or_timestamp := 1600000;
     or_filledQty := Some 100%float;
     or_avgFillPrice := Some 150.25%float |}.

Definition two_tracked : t SimWorld :=
  with_orders (fun m => JsMap.set "o2" (tracked "o2")
                          (JsMap.set "o1" (tracked "o1") m))
    (constructor
       [("alpaca", scripted_broker broker_down (Ok [filled_o1]))]).

Lemma reconciliation_idempotent_witness :
  let s1 := snd (processOrders (mkSt two_tracked (today_world None) [])) in
  let s2 := snd (processOrders s1) in
  emitted (obj s1) = [EvOrderUpdated "o1" filled_o1]
  /\ emitted (obj s2) = emitted (obj s1)
  /\ orders (obj s2) = orders (obj s1)
  /\ JsMap.get "o2" (orders (obj s1)) = Some (tracked "o2").
Proof.
  assert (Hwf : JsMap.wf (orders two_tracked)).
  { unfold JsMap.wf. apply (bool_decide_unpack _). vm_compute. exact I. }
  assert (Hst : stable_history two_tracked (fun _ => Ok [filled_o1])).
  { intros b [<-|[]] w. reflexivity. }
  destruct (reconciliation_idempotent two_tracked (today_world None) []
              (fun _ => Ok [filled_o1]) Hwf Hst) as (Hev & Hord & Hgap).
  split; [reflexivity|]. split; [exact Hev|]. split; [exact Hord|].
  apply Hgap; reflexivity.
Defined.

(** *** A strategy whose signals come to nothing *)

(** Scenario C: thresholds 0.6 and 50, AAPL flat, the aggregator reports
    sentiment 0.7, buzz 60 and two news mentions, the price is 150. *)
Definition strong_analysis : Analysis :=
  {| an_sentimentScore := 0.7%float;
     an_buzzScore := 60%float;
     an_newsMentions := 2%float |}.

Definition strong_news : gmap string Analysis :=
  {[ "AAPL" := strong_analysis ]}.

Definition quotes (price : num) : gmap string MarketData :=
  {[ "AAPL" := {| md_price := Some price; md_volume := None |} ]}.

Definition flat_strategy : Strategy.t :=
  Strategy.setDataAggregator
    (Strategy.constructor Strategy.defaultConfig ["AAPL"]).

(** The gate of the scenarios rejects the buy: 100 shares at the
    placeholder price 100 are worth more than 1000. *)
Definition gated_engine : t SimWorld :=
  setRiskManager
    (RiskManager.constructor RiskFacts.scenario_limits "Mon Jan 01 2024")
    (addStrategy "news" flat_strategy
       (constructor
          [("alpaca",
            scripted_broker (Ok (broker_order "o1" "buy" "new")) (Ok []))])).

(** No gate, but the broker is down; the strategy holds AAPL, bought at
    150, and the price is now 142.5. *)
Definition broker_down_engine : t SimWorld :=
  addStrategy "news" StrategyFacts.holding_aapl
    (constructor [("alpaca", scripted_broker broker_down (Ok []))]).

Definition with_news : SimWorld :=
  today_world (Some {| ld_summary := Some strong_news |}).

Lemma strategy_state_committed_at_signal_creation_witness :
  (let after := snd (execute_strategy (quotes 150%float) "news"
                       (mkSt gated_engine with_news [])) in
   orders (obj after) = []
   /\ exists strategy,
        JsMap.get "news" (strategies (obj after)) = Some strategy
        /\ is_Some (Strategy.activePositions strategy !! "AAPL"))
  /\
  (let after := snd (execute_strategy (quotes 142.5%float) "news"
                       (mkSt broker_down_engine with_news [])) in
   orders (obj after) = []
   /\ exists strategy,
        JsMap.get "news" (strategies (obj after)) = Some strategy
        /\ Strategy.activePositions strategy !! "AAPL" = None).
Proof.
  destruct (@strategy_state_committed_at_signal_creation SimWorld _)
    as (Hbuy & Hsell & _ & Hrun).
  split; cbn zeta.
  - split; [reflexivity|]. eexists. split.
    + exact (Hrun (quotes 150%float) "news" gated_engine with_news []
               flat_strategy eq_refl eq_refl).
    + assert (Hsame :
                obj (snd (Strategy.evaluate (quotes 150%float)
                            (mkSt flat_strategy with_news [])))
                = obj (snd (Strategy.evaluateBuySignal "AAPL"
                              strong_analysis 150%float
                              (mkSt flat_strategy with_news []))))
        by (vm_compute; reflexivity).
      rewrite Hsame.
      destruct (Strategy.evaluateBuySignal "AAPL" strong_analysis
                  150%float (mkSt flat_strategy with_news []))
        as [[[signal|]|error] st'] eqn:Hb;
        [exact (Hbuy _ _ _ _ _ _ Hb) | vm_compute in Hb; discriminate ..].
  - split; [reflexivity|]. eexists. split.
    + exact (Hrun (quotes 142.5%float) "news" broker_down_engine with_news
               [] StrategyFacts.holding_aapl eq_refl eq_refl).
    + assert (Hsame :
                obj (snd (Strategy.evaluate (quotes 142.5%float)
                            (mkSt StrategyFacts.holding_aapl with_news [])))
                = obj (snd (Strategy.evaluateSellSignal "AAPL"
                              strong_analysis 142.5%float
                              (mkSt StrategyFacts.holding_aapl with_news
                                    []))))
        by (vm_compute; reflexivity).
      rewrite Hsame.
      destruct (Strategy.evaluateSellSignal "AAPL" strong_analysis
                  142.5%float
                  (mkSt StrategyFacts.holding_aapl with_news []))
        as [[[signal|]|error] st'] eqn:Hs;
        [exact (Hsell _ _ _ _ _ _ Hs) | vm_compute in Hs; discriminate ..].
Defined.

(** *** A threshold of zero *)

(** The sentiment threshold is 0, which [validate()] accepts; AAPL is
    flat and the news are neutral. *)
Definition zero_threshold : Strategy.Config :=
  {| Strategy.description := Strategy.description Strategy.defaultConfig;
     Strategy.sentimentThreshold := 0%float;
     Strategy.buzzThreshold := 50%float;
     Strategy.positionSize := 100%float;
     Strategy.holdingPeriod := 3600000;
     Strategy.maxPositionsPerSymbol := 1%float |}.

Definition zero_threshold_strategy : Strategy.t :=
  Strategy.setDataAggregator (Strategy.constructor zero_threshold ["AAPL"]).

Definition neutral_news : gmap string Analysis :=
  {[ "AAPL" := {| an_sentimentScore := 0%float;
                  an_buzzScore := 60%float;
                  an_newsMentions := 1%float |} ]}.

(** C5, at the failing input: one call of [evaluate] returns a buy and
    a sell for AAPL. *)
Theorem evaluate_emits_buy_and_sell :
  Strategy.validate zero_threshold_strategy = []
  /\ exists buy sell,
       fst (Strategy.evaluate (quotes 150%float)
              (mkSt zero_threshold_strategy
                    (today_world (Some {| ld_summary := Some neutral_news |}))
                    []))
       = Ok [buy; sell]
       /\ sig_symbol buy = "AAPL" /\ sig_action buy = "buy"
       /\ sig_symbol sell = "AAPL" /\ sig_action sell = "sell"
       /\ sig_reason sell = SellReason "negative_sentiment" 0%float.
Proof.
  split; [reflexivity|]. eexists _, _.
  split; [vm_compute; reflexivity|]. repeat split.
Qed.

End Scenarios.


(** * More of the risk gate: the blacklist and the daily counters *)

Module RiskGate.
Import RiskManager RiskFacts.

(** [array.includes(x)] *)
Definition includes (x : string) (l : list string) : bool :=
  existsb (String.eqb x) l.

(** [const index = array.indexOf(x); array.splice(index, 1)] for an [x]
    that is there: the first occurrence goes. *)
Fixpoint remove_first (x : string) (l : list string) : list string :=
  match l with
  | [] => []
  | y :: l' => if String.eqb y x then l' else y :: remove_first x l'
  end.

Definition with_blacklist (f : list string -> list string) (rm : t) : t :=
  {| config :=
       {| maxPositionSize := maxPositionSize (config rm);
          maxDailyLoss := maxDailyLoss (config rm);
          maxPortfolioRisk := maxPortfolioRisk (config rm);
          stopLossPercentage := stopLossPercentage (config rm);
          maxOpenPositions := maxOpenPositions (config rm);
          blacklistedSymbols := f (blacklistedSymbols (config rm)) |};
     dailyPnl := dailyPnl rm;
     dailyTrades := dailyTrades rm;
     lastResetDate := lastResetDate rm |}.

(** [addToBlacklist(symbol)] (the line it logs is not kept). *)
Definition addToBlacklist (symbol : string) (rm : t) : t :=
  if negb (includes symbol (blacklistedSymbols (config rm))) then
    with_blacklist (fun l => l ++ [symbol]) rm
  else rm.

(** [removeFromBlacklist(symbol)] (the line it logs is not kept). *)
Definition removeFromBlacklist (symbol : string) (rm : t) : t :=
  if includes symbol (blacklistedSymbols (config rm)) then
    with_blacklist (remove_first symbol) rm
  else rm.

Lemma includes_In (x : string) (l : list string) :
  includes x l = true <-> In x l.
Proof.
  unfold includes. rewrite existsb_exists. split.
  - intros (y & Hy & E). apply String.eqb_eq in E. now subst.
  - intros Hx. exists x. split; [exact Hx|apply String.eqb_refl].
Qed.

Lemma includes_app (x : string) (l l' : list string) :
  includes x (l ++ l') = includes x l || includes x l'.
Proof. unfold includes. apply existsb_app. Qed.

Lemma remove_first_app_fresh (x : string) (l : list string) :
  includes x l = false -> remove_first x (l ++ [x]) = l.
Proof.
  unfold includes. induction l as [|y l IH]; cbn.
  - now rewrite String.eqb_refl.
  - rewrite (String.eqb_sym y x).
    destruct (String.eqb x y); cbn; [discriminate|].
    intros Hl. now rewrite IH.
Qed.

Lemma includes_remove_first_other (x y : string) (l : list string) :
  x <> y -> includes y (remove_first x l) = includes y l.
Proof.
  intros Hne. unfold includes. induction l as [|z l IH]; cbn; [reflexivity|].
  destruct (String.eqb z x) eqn:E; cbn.
  - apply String.eqb_eq in E. subst z.
    destruct (String.eqb y x) eqn:E'; [|reflexivity].
    apply String.eqb_eq in E'. congruence.
  - now rewrite IH.
Qed.

Lemma count_remove_first (x : string) (l : list string) :
  count_occ String.string_dec (remove_first x l) x
  = Nat.pred (count_occ String.string_dec l x).
Proof.
  induction l as [|y l IH]; cbn; [reflexivity|].
  destruct (String.eqb y x) eqn:E.
  - apply String.eqb_eq in E. subst y.
    now destruct (String.string_dec x x).
  - apply String.eqb_neq in E. cbn.
    now destruct (String.string_dec y x).
Qed.

Section Facts.
Context {W : Type} `{World W}.

(** The lazy reset keeps the limits, the blacklist among them. *)
Lemma reset_keeps_config (rm : t) (w : W) (c : list LogLine) :
  config (obj (snd (resetDailyCountersIfNeeded (mkSt rm w c)))) = config rm.
Proof. destruct (reset_obj_cases rm w c) as [[_ ->]|[_ ->]]; reflexivity. Qed.

(** A listed symbol does not get past the first check. *)
Lemma includes_rejected (rm : t) (w : W) (c : list LogLine)
    (order : Order) (positions : PositionsArg) :
  includes (ord_symbol order) (blacklistedSymbols (config rm)) = true ->
  fst (validateOrder order positions (mkSt rm w c)) = Ok false.
Proof.
  intros Hb. rewrite validateOrder_outcome. cbn [fst].
  unfold check_outcome. rewrite reset_keeps_config.
  unfold includes in Hb. now rewrite Hb.
Qed.

(** X1. An order for a blacklisted symbol is rejected whatever the
    counters, the date, the positions and its other fields are, and the
    line logged for it is the blacklist one. *)
Theorem blacklisted_symbol_rejected (rm : t) (w : W) (c : list LogLine)
    (order : Order) (positions : PositionsArg) :
  includes (ord_symbol order) (blacklistedSymbols (config rm)) = true ->
  let r := validateOrder order positions (mkSt rm w c) in
  fst r = Ok false
  /\ console (snd r)
     = console (snd (resetDailyCountersIfNeeded (mkSt rm w c)))
       ++ [LogBlacklisted (ord_symbol order)].
Proof.
  intros Hb. cbn zeta. rewrite validateOrder_outcome. cbn [fst snd console].
  unfold check_outcome. rewrite reset_keeps_config.
  unfold includes in Hb. rewrite Hb.
  split; reflexivity.
Qed.

(** X2. [validateOrder] accepts an order exactly when, on the counters
    as the lazy reset leaves them, the symbol is not blacklisted, the
    daily P&L is not at or below [-maxDailyLoss], the notional does not
    exceed [maxPositionSize], the open positions are below the limit or
    the order is not a buy, the notional over the portfolio value does not
    exceed [maxPortfolioRisk] (or the portfolio value is 0), and the value
    held in the symbol plus the notional does not exceed
    [maxPositionSize]; an accepted order logs nothing. *)
Theorem accepted_iff_all_checks_pass (rm : t) (w : W) (c : list LogLine)
    (order : Order) (positions : PositionsArg) :
  let r := validateOrder order positions (mkSt rm w c) in
  let counters := obj (snd (resetDailyCountersIfNeeded (mkSt rm w c))) in
  let all := flattenPositions positions in
  (fst r = Ok true <->
   includes (ord_symbol order) (blacklistedSymbols (config rm)) = false
   /\ Num.le (dailyPnl counters) (Num.neg (maxDailyLoss (config rm))) = false
   /\ Num.gt (orderValue order) (maxPositionSize (config rm)) = false
   /\ (Num.ge (Num.of_nat (length all)) (maxOpenPositions (config rm))
       && String.eqb (ord_side order) "buy") = false
   /\ (Num.seq (totalValue all) 0%float
       || negb (Num.gt (orderValue order / totalValue all)%float
                       (maxPortfolioRisk (config rm)))) = true
   /\ Num.gt (totalValue (symbol_positions order positions)
              + orderValue order)%float
             (maxPositionSize (config rm)) = false)
  /\ (fst r = Ok true ->
      console (snd r)
      = console (snd (resetDailyCountersIfNeeded (mkSt rm w c)))).
Proof.
  cbn zeta. rewrite validateOrder_outcome. cbn [fst snd console].
  assert (Hcfg : config (obj (snd (resetDailyCountersIfNeeded
                                     (mkSt rm w c)))) = config rm).
  { destruct (reset_obj_cases rm w c) as [[_ ->]|[_ ->]]; reflexivity. }
  unfold check_outcome, symbol_positions, includes. rewrite Hcfg.
  destruct (existsb _ (blacklistedSymbols (config rm))); cbn [fst snd];
    [split; [split; [discriminate|intros (? & _); discriminate]
            |discriminate]|].
  destruct (Num.le _ _); cbn [fst snd];
    [split; [split; [discriminate|intros (_ & ? & _); discriminate]
            |discriminate]|].
  destruct (Num.gt (orderValue order) _); cbn [fst snd];
    [split; [split; [discriminate|intros (_ & _ & ? & _); discriminate]
            |discriminate]|].
  destruct (_ && String.eqb (ord_side order) "buy"); cbn [fst snd];
    [split; [split; [discriminate|intros (_ & _ & _ & ? & _); discriminate]
            |discriminate]|].
  destruct (Num.seq _ _); cbn [negb andb orb fst snd].
  - destruct (Num.gt _ _); cbn [fst snd].
    + split; [split; [discriminate|intros (_ & _ & _ & _ & _ & ?);
                                    discriminate]|discriminate].
    + split; [split; [intros _; repeat split|reflexivity]|].
      intros _. apply app_nil_r.
  - destruct (Num.gt (_ / _)%float _); cbn [negb fst snd].
    + split; [split; [discriminate|intros (_ & _ & _ & _ & ? & _);
                                    discriminate]|discriminate].
    + destruct (Num.gt _ _); cbn [fst snd].
      * split; [split; [discriminate|intros (_ & _ & _ & _ & _ & ?);
                                      discriminate]|discriminate].
      * split; [split; [intros _; repeat split|reflexivity]|].
        intros _. apply app_nil_r.
Qed.

(** [validateOrder] touches the manager through the lazy reset only:
    it leaves the manager as it was or with zeroed counters, and the world
    as one reading of the calendar leaves it. *)
Lemma validateOrder_frame (rm : t) (w : W) (c : list LogLine)
    (order : Order) (positions : PositionsArg) :
  let after := snd (validateOrder order positions (mkSt rm w c)) in
  world after = snd (date_today w)
  /\ (obj after = rm \/ obj after = zeroed (fst (date_today w)) rm).
Proof.
  cbn zeta. rewrite validateOrder_outcome. cbn [snd obj world].
  destruct (String.string_dec (fst (date_today w)) (lastResetDate rm))
    as [e|n].
  - rewrite reset_same_date by exact e. auto.
  - rewrite reset_new_date by exact n. auto.
Qed.

(** X3. Validating an order counts nothing: the configuration is as
    before, the calendar is read once and nothing else of the world is
    touched, and the counters are as before when that date is the last
    reset date, zeroed and dated otherwise. *)
Theorem validation_counts_nothing (rm : t) (w : W) (c : list LogLine)
    (order : Order) (positions : PositionsArg) :
  let after := snd (validateOrder order positions (mkSt rm w c)) in
  config (obj after) = config rm
  /\ world after = snd (date_today w)
  /\ (fst (date_today w) = lastResetDate rm -> obj after = rm)
  /\ (fst (date_today w) <> lastResetDate rm ->
      obj after = zeroed (fst (date_today w)) rm).
Proof.
  cbn zeta. rewrite validateOrder_outcome. cbn [snd obj world].
  split; [apply reset_keeps_config|].
  split.
  { destruct (String.string_dec (fst (date_today w)) (lastResetDate rm))
      as [e|n].
    - now rewrite reset_same_date.
    - now rewrite reset_new_date. }
  split; intros Hd.
  - now rewrite reset_same_date.
  - now rewrite reset_new_date.
Qed.

(** X4. [updateDailyPnl] adds to the counters of the day: on the day of
    the last reset the P&L is added and the trade count goes up by one; on
    another day the old counters are dropped first. Once the sum is at or
    below [-maxDailyLoss], every order validated on that day is
    rejected. *)
Theorem realized_loss_stops_trading (rm : t) (w : W) (c : list LogLine)
    (pnl : num) (order : Order) (positions : PositionsArg) :
  let s1 := snd (updateDailyPnl pnl (mkSt rm w c)) in
  fst (updateDailyPnl pnl (mkSt rm w c)) = Ok tt
  /\ config (obj s1) = config rm
  /\ lastResetDate (obj s1) = fst (date_today w)
  /\ (fst (date_today w) = lastResetDate rm ->
      dailyPnl (obj s1) = (dailyPnl rm + pnl)%float
      /\ dailyTrades (obj s1) = (dailyTrades rm + 1)%float)
  /\ (fst (date_today w) <> lastResetDate rm ->
      dailyPnl (obj s1) = (0 + pnl)%float
      /\ dailyTrades (obj s1) = (0 + 1)%float)
  /\ (fst (date_today (world s1)) = fst (date_today w) ->
      Num.le (dailyPnl (obj s1)) (Num.neg (maxDailyLoss (config rm))) = true ->
      fst (validateOrder order positions s1) = Ok false).
Proof.
  cbn zeta. unfold updateDailyPnl, bind, modify_obj.
  destruct (String.string_dec (fst (date_today w)) (lastResetDate rm))
    as [e|n].
  - rewrite reset_same_date by exact e. cbn [fst snd obj world console].
    split; [reflexivity|]. split; [reflexivity|].
    split; [symmetry; exact e|].
    split; [intros _; split; reflexivity|].
    split; [intros Hn; contradiction|].
    intros Hd Hl. rewrite validateOrder_outcome.
    rewrite reset_same_date by (cbn [obj world lastResetDate]; congruence).
    cbn [fst snd obj]. unfold check_outcome.
    cbn [config dailyPnl] in *. rewrite Hl. now destruct (existsb _ _).
  - rewrite reset_new_date by exact n. cbn [fst snd obj world console].
    split; [reflexivity|]. split; [reflexivity|].
    split; [reflexivity|].
    split; [intros He; contradiction|].
    split; [intros _; split; reflexivity|].
    intros Hd Hl. rewrite validateOrder_outcome.
    rewrite reset_same_date by (cbn [obj world lastResetDate zeroed];
                                congruence).
    cbn [fst snd obj]. unfold check_outcome.
    cbn [config dailyPnl zeroed] in *. rewrite Hl.
    now destruct (existsb _ _).
Qed.

(** X5. After [addToBlacklist(symbol)] the symbol is on the blacklist,
    once: adding it again changes nothing, a list without repetition
    stays so, the limits and the counters are untouched, and every order
    for the symbol is rejected. *)
Theorem blacklist_add (rm : t) (symbol : string) (w : W) (c : list LogLine)
    (order : Order) (positions : PositionsArg) :
  let rm' := addToBlacklist symbol rm in
  includes symbol (blacklistedSymbols (config rm')) = true
  /\ addToBlacklist symbol rm' = rm'
  /\ (NoDup (blacklistedSymbols (config rm)) ->
      NoDup (blacklistedSymbols (config rm')))
  /\ (forall x, includes x (blacklistedSymbols (config rm)) = true ->
                includes x (blacklistedSymbols (config rm')) = true)
  /\ maxPositionSize (config rm') = maxPositionSize (config rm)
  /\ maxDailyLoss (config rm') = maxDailyLoss (config rm)
  /\ dailyPnl rm' = dailyPnl rm
  /\ (ord_symbol order = symbol ->
      fst (validateOrder order positions (mkSt rm' w c)) = Ok false).
Proof.
  cbn zeta.
  assert (Hin : includes symbol
                  (blacklistedSymbols (config (addToBlacklist symbol rm)))
                = true).
  { unfold addToBlacklist.
    destruct (includes symbol (blacklistedSymbols (config rm))) eqn:E;
      cbn [negb]; [exact E|].
    cbn [with_blacklist config blacklistedSymbols].
    rewrite includes_app. unfold includes at 2. cbn [existsb].
    rewrite String.eqb_refl. now rewrite !orb_true_r. }
  split; [exact Hin|]. split.
  { unfold addToBlacklist at 1. now rewrite Hin. }
  unfold addToBlacklist.
  destruct (includes symbol (blacklistedSymbols (config rm))) eqn:E;
    cbn [negb].
  - repeat split; try tauto.
    intros <-. now apply includes_rejected.
  - split.
    { cbn [with_blacklist config blacklistedSymbols].
      intros Hnd. apply NoDup_app. repeat split; try assumption.
      - intros x Hx Hx'. apply list_elem_of_singleton in Hx'. subst x.
        apply list_elem_of_In, includes_In in Hx. congruence.
      - apply NoDup_singleton. }
    split.
    { intros x Hx. cbn [with_blacklist config blacklistedSymbols].
      rewrite includes_app, Hx. reflexivity. }
    repeat split.
    intros <-. apply includes_rejected.
    cbn [with_blacklist config blacklistedSymbols].
    rewrite includes_app. unfold includes at 2. cbn [existsb].
    rewrite String.eqb_refl. now rewrite !orb_true_r.
Qed.

(** X6. [removeFromBlacklist(symbol)] takes the first occurrence of the
    symbol off the list and leaves every other symbol as it was: it
    undoes an [addToBlacklist] that added the symbol, it is without effect
    on a manager that does not list the symbol, and a symbol listed
    several times (by a configuration) is still blacklisted after one
    removal. *)
Theorem blacklist_remove (rm : t) (symbol : string) :
  let rm' := removeFromBlacklist symbol rm in
  (includes symbol (blacklistedSymbols (config rm)) = false ->
   rm' = rm
   /\ blacklistedSymbols (config (removeFromBlacklist symbol
                                   (addToBlacklist symbol rm)))
      = blacklistedSymbols (config rm))
  /\ (forall x, x <> symbol ->
        includes x (blacklistedSymbols (config rm'))
        = includes x (blacklistedSymbols (config rm)))
  /\ count_occ String.string_dec (blacklistedSymbols (config rm')) symbol
     = Nat.pred (count_occ String.string_dec
                   (blacklistedSymbols (config rm)) symbol)
  /\ (NoDup (blacklistedSymbols (config rm)) ->
      includes symbol (blacklistedSymbols (config rm')) = false)
  /\ ((2 <= count_occ String.string_dec
              (blacklistedSymbols (config rm)) symbol)%nat ->
      includes symbol (blacklistedSymbols (config rm')) = true).
Proof.
  cbn zeta.
  assert (Hcount :
            count_occ String.string_dec
              (blacklistedSymbols (config (removeFromBlacklist symbol rm)))
              symbol
            = Nat.pred (count_occ String.string_dec
                          (blacklistedSymbols (config rm)) symbol)).
  { unfold removeFromBlacklist.
    destruct (includes symbol (blacklistedSymbols (config rm))) eqn:E.
    - cbn [with_blacklist config blacklistedSymbols].
      apply count_remove_first.
    - assert (Hn : ~ In symbol (blacklistedSymbols (config rm))).
      { intros Hin. apply includes_In in Hin. congruence. }
      apply (count_occ_not_In String.string_dec) in Hn. now rewrite Hn. }
  split; [|split; [|split; [exact Hcount|split]]].
  - intros Hn. split.
    + unfold removeFromBlacklist. now rewrite Hn.
    + unfold addToBlacklist. rewrite Hn. cbn [negb].
      unfold removeFromBlacklist.
      cbn [with_blacklist config blacklistedSymbols].
      rewrite includes_app. unfold includes at 2. cbn [existsb].
      rewrite String.eqb_refl, !orb_true_r.
      cbn [with_blacklist config blacklistedSymbols].
      now apply remove_first_app_fresh.
  - intros x Hx. unfold removeFromBlacklist.
    destruct (includes symbol (blacklistedSymbols (config rm)));
      [|reflexivity].
    cbn [with_blacklist config blacklistedSymbols].
    apply includes_remove_first_other. congruence.
  - intros Hnd.
    destruct (includes symbol
                (blacklistedSymbols
                   (config (removeFromBlacklist symbol rm)))) eqn:E;
      [|reflexivity].
    apply includes_In in E.
    apply (count_occ_In String.string_dec) in E.
    rewrite Hcount in E.
    apply NoDup_ListNoDup in Hnd.
    pose proof (proj1 (NoDup_count_occ String.string_dec _) Hnd symbol).
    lia.
  - intros Htwice. apply includes_In.
    apply (count_occ_In String.string_dec). rewrite Hcount. lia.
Qed.

End Facts.

(** The gate of the scenarios with AAPL listed twice, as a configuration
    file may have it. *)
Definition listed_twice : t :=
  with_blacklist (fun _ => ["AAPL"; "TSLA"; "AAPL"])
    (constructor scenario_limits "Mon Jan 01 2024").

Lemma blacklisted_symbol_rejected_witness :
  fst (validateOrder (aapl_buy 1%float) no_positions
         (mkSt listed_twice (world_on "Mon Jan 01 2024") [])) = Ok false.
Proof.
  apply (blacklisted_symbol_rejected listed_twice
           (world_on "Mon Jan 01 2024") [] (aapl_buy 1%float) no_positions
           eq_refl).
Defined.

Lemma accepted_iff_all_checks_pass_witness :
  fst (validateOrder (aapl_buy 10%float) no_positions
         (mkSt (constructor scenario_limits "Mon Jan 01 2024")
               (world_on "Mon Jan 01 2024") [])) = Ok true
  /\ console (snd (validateOrder (aapl_buy 10%float) no_positions
                     (mkSt (constructor scenario_limits "Mon Jan 01 2024")
                           (world_on "Mon Jan 01 2024") []))) = [].
Proof.
  destruct (accepted_iff_all_checks_pass
              (constructor scenario_limits "Mon Jan 01 2024")
              (world_on "Mon Jan 01 2024") [] (aapl_buy 10%float)
              no_positions) as [Hiff Hlog].
  assert (Hok : fst (validateOrder (aapl_buy 10%float) no_positions
                       (mkSt (constructor scenario_limits "Mon Jan 01 2024")
                             (world_on "Mon Jan 01 2024") [])) = Ok true)
    by (apply Hiff; repeat split; reflexivity).
  split; [exact Hok|exact (Hlog Hok)].
Defined.

Lemma validation_counts_nothing_witness :
  obj (snd (validateOrder (aapl_buy 10%float) no_positions
              (mkSt stale_manager (world_on "Mon Jan 01 2024") [])))
  = stale_manager
  /\ obj (snd (validateOrder (aapl_buy 10%float) no_positions
                 (mkSt stale_manager (world_on "Tue Jan 02 2024") [])))
     = zeroed "Tue Jan 02 2024" stale_manager.
Proof.
  split.
  - destruct (validation_counts_nothing stale_manager
                (world_on "Mon Jan 01 2024") [] (aapl_buy 10%float)
                no_positions) as (_ & _ & Hsame & _).
    exact (Hsame eq_refl).
  - destruct (validation_counts_nothing stale_manager
                (world_on "Tue Jan 02 2024") [] (aapl_buy 10%float)
                no_positions) as (_ & _ & _ & Hnew).
    apply Hnew. discriminate.
Defined.

(** A loss of 500 is booked on a fresh manager whose limit is 500. *)
Lemma realized_loss_stops_trading_witness :
  let fresh := constructor scenario_limits "Mon Jan 01 2024" in
  let s1 := snd (updateDailyPnl (-500)%float
                   (mkSt fresh (world_on "Mon Jan 01 2024") [])) in
  dailyPnl (obj s1) = (-500)%float
  /\ dailyTrades (obj s1) = 1%float
  /\ fst (validateOrder (aapl_buy 1%float) no_positions s1) = Ok false
  /\ dailyPnl (obj (snd (updateDailyPnl (-20)%float
                           (mkSt stale_manager
                                 (world_on "Tue Jan 02 2024") []))))
     = (-20)%float.
Proof.
  cbn zeta.
  destruct (realized_loss_stops_trading
              (constructor scenario_limits "Mon Jan 01 2024")
              (world_on "Mon Jan 01 2024") [] (-500)%float
              (aapl_buy 1%float) no_positions)
    as (_ & _ & _ & Hsame & _ & Hstop).
  destruct (Hsame eq_refl) as [Hp Ht].
  split; [exact Hp|]. split; [exact Ht|]. split; [exact (Hstop eq_refl eq_refl)|].
  destruct (realized_loss_stops_trading stale_manager
              (world_on "Tue Jan 02 2024") [] (-20)%float
              (aapl_buy 1%float) no_positions)
    as (_ & _ & _ & _ & Hnew & _).
  destruct Hnew as [Hp' _]; [discriminate|exact Hp'].
Defined.

(** A sell of one GME share. *)
Definition gme_sell : Order :=
  {| ord_symbol := "GME";
     ord_qty := 1%float;
     ord_side := "sell";
     ord_type := "market";
     ord_limitPrice := None;
     ord_stopPrice := None;
     ord_timeInForce := None |}.

Lemma blacklist_add_witness :
  let rm := constructor scenario_limits "Mon Jan 01 2024" in
  blacklistedSymbols (config (addToBlacklist "GME" rm)) = ["GME"]
  /\ NoDup (blacklistedSymbols (config (addToBlacklist "GME" rm)))
  /\ fst (validateOrder
            gme_sell no_positions
            (mkSt (addToBlacklist "GME" rm) (world_on "Mon Jan 01 2024") []))
     = Ok false.
Proof.
  cbn zeta.
  destruct (blacklist_add (constructor scenario_limits "Mon Jan 01 2024")
              "GME" (world_on "Mon Jan 01 2024") [] gme_sell no_positions)
    as (_ & _ & Hnd & _ & _ & _ & _ & Hrej).
  split; [reflexivity|]. split; [apply Hnd; apply NoDup_nil_2|].
  exact (Hrej eq_refl).
Defined.

Lemma blacklist_remove_witness :
  removeFromBlacklist "GME" (constructor scenario_limits "Mon Jan 01 2024")
  = constructor scenario_limits "Mon Jan 01 2024"
  /\ includes "AAPL"
       (blacklistedSymbols (config (removeFromBlacklist "AAPL" listed_twice)))
     = true
  /\ includes "TSLA"
       (blacklistedSymbols
          (config (removeFromBlacklist "TSLA" listed_twice)))
     = false.
Proof.
  split; [|split].
  - apply (blacklist_remove (constructor scenario_limits "Mon Jan 01 2024")
             "GME"). reflexivity.
  - apply (blacklist_remove listed_twice "AAPL"). cbn. lia.
  - destruct (blacklist_remove listed_twice "TSLA")
      as (_ & Hother & Hcount & _ & _).
    destruct (includes "TSLA"
                (blacklistedSymbols
                   (config (removeFromBlacklist "TSLA" listed_twice))))
      eqn:E; [|reflexivity].
    apply includes_In, (count_occ_In String.string_dec) in E.
    rewrite Hcount in E. cbn in E. lia.
Defined.

End RiskGate.


(** * More of the strategies: the signal log, the buy rule, [evaluate] *)

Module StrategyRules.
Import Strategy.

(** [this.lastSignals = this.lastSignals.slice(-100)] once the log is
    longer than 100. *)
Definition trim_signals (l : list Signal) : list Signal :=
  if (100 <? length l)%nat then slice_last 100 l else l.

(** The signal [createSignal] builds on a strategy [s] at the clock
    reading [timestamp]. *)
Definition signal_of (s : t) (symbol action : string) (quantity : num)
    (options : Options) (timestamp : Z) : Signal :=
  {| sig_symbol := symbol;
     sig_action := action;
     sig_quantity := quantity;
     sig_orderType := spread_default (opt_orderType options) "market";
     sig_limitPrice := opt_limitPrice options;
     sig_stopPrice := opt_stopPrice options;
     sig_timeInForce := spread_default (opt_timeInForce options) "gtc";
     sig_strategyName := name s;
     sig_timestamp := timestamp;
     sig_reason := opt_reason options;
     sig_preferredBroker := opt_preferredBroker options |}.

(** The three conditions of the buy rule. *)
Definition buy_conditions (c : Config) (analysis : Analysis) : bool :=
  Num.ge (an_sentimentScore analysis) (sentimentThreshold c)
  && Num.ge (an_buzzScore analysis) (buzzThreshold c)
  && Num.gt (an_newsMentions analysis) 0%float.

(** [addToWatchlist(symbol)] of the base class *)
Definition addToWatchlist (symbol : string) (s : t) : t :=
  if negb (RiskGate.includes symbol (watchlist s)) then
    {| name := name s; config := config s; enabled := enabled s;
       watchlist := watchlist s ++ [symbol]; lastSignals := lastSignals s;
       activePositions := activePositions s;
       dataAggregator := dataAggregator s |}
  else s.

(** [removeFromWatchlist(symbol)] of the base class *)
Definition removeFromWatchlist (symbol : string) (s : t) : t :=
  if RiskGate.includes symbol (watchlist s) then
    {| name := name s; config := config s; enabled := enabled s;
       watchlist := RiskGate.remove_first symbol (watchlist s);
       lastSignals := lastSignals s;
       activePositions := activePositions s;
       dataAggregator := dataAggregator s |}
  else s.

(** What a call leaves of the strategy's set-up. *)
Definition same_setup (s s' : t) : Prop :=
  name s' = name s /\ config s' = config s /\ enabled s' = enabled s
  /\ watchlist s' = watchlist s /\ dataAggregator s' = dataAggregator s.

(** The entries of all symbols but [symbol] are as before. *)
Definition only_touches (symbol : string) (s s' : t) : Prop :=
  forall k, k <> symbol -> activePositions s' !! k = activePositions s !! k.

(** A market signal of the strategy [s] for [symbol]. *)
Definition market_signal (s : t) (symbol action : string) (signal : Signal)
  : Prop :=
  sig_symbol signal = symbol
  /\ sig_action signal = action
  /\ sig_quantity signal = positionSize (config s)
  /\ sig_orderType signal = "market"
  /\ sig_timeInForce signal = "gtc"
  /\ sig_strategyName signal = name s
  /\ sig_limitPrice signal = None
  /\ sig_preferredBroker signal = None.

Lemma same_setup_refl (s : t) : same_setup s s.
Proof. repeat split. Qed.

Lemma same_setup_trans (s1 s2 s3 : t) :
  same_setup s1 s2 -> same_setup s2 s3 -> same_setup s1 s3.
Proof.
  intros (? & ? & ? & ? & ?) (? & ? & ? & ? & ?).
  repeat split; congruence.
Qed.

Lemma slice_last_length {A} (n : nat) (l : list A) :
  length (slice_last n l) = Nat.min n (length l).
Proof. unfold slice_last. rewrite length_skipn. lia. Qed.

Lemma trim_signals_bound (l : list Signal) :
  (length (trim_signals l) <= 100)%nat.
Proof.
  unfold trim_signals. destruct (100 <? length l)%nat eqn:E.
  - rewrite slice_last_length. lia.
  - apply Nat.ltb_ge in E. exact E.
Qed.

Section Facts.
Context {W : Type} `{World W}.

(** [createSignal], run. *)
Lemma createSignal_run (symbol action : string) (quantity : num)
    (options : Options) (s : t) (w : W) (c : list LogLine) :
  createSignal symbol action quantity options (mkSt s w c)
  = let signal := signal_of s symbol action quantity options
                    (fst (date_now w)) in
    (Ok signal,
     mkSt (with_lastSignals (fun l => trim_signals (l ++ [signal])) s)
          (snd (date_now w)) c).
Proof.
  unfold createSignal. unfold_m. cbn [obj world console].
  destruct (date_now w) as [now w']. cbn [fst snd].
  unfold trim_signals, signal_of, with_lastSignals.
  cbn [obj world console lastSignals].
  case_bool; reflexivity.
Qed.

(** X7. The log of a strategy's signals never outgrows 100 entries:
    [createSignal] returns the signal it appends, which is then the last
    of the log; a log of fewer than 100 entries grows by one, and from a
    log of 100 the oldest entry is dropped. *)
Theorem signal_log_bounded (symbol action : string) (quantity : num)
    (options : Options) (s : t) (w : W) (c : list LogLine) :
  let r := createSignal symbol action quantity options (mkSt s w c) in
  exists signal,
    fst r = Ok signal
    /\ sig_symbol signal = symbol
    /\ sig_timestamp signal = fst (date_now w)
    /\ (length (lastSignals (obj (snd r))) <= 100)%nat
    /\ last (lastSignals (obj (snd r))) = Some signal
    /\ ((length (lastSignals s) < 100)%nat ->
        lastSignals (obj (snd r)) = lastSignals s ++ [signal])
    /\ (length (lastSignals s) = 100%nat ->
        lastSignals (obj (snd r)) = tl (lastSignals s) ++ [signal]).
Proof.
  cbn zeta. rewrite createSignal_run. cbn zeta.
  set (signal := signal_of s symbol action quantity options _).
  exists signal. cbn [fst snd obj with_lastSignals lastSignals].
  split; [reflexivity|]. split; [reflexivity|]. split; [reflexivity|].
  split; [apply trim_signals_bound|].
  assert (Hlast : forall l : list Signal,
             last (trim_signals (l ++ [signal])) = Some signal).
  { intros l. unfold trim_signals.
    destruct (100 <? length (l ++ [signal]))%nat eqn:E;
      [|apply last_snoc].
    unfold slice_last. rewrite length_app in *. cbn [length] in *.
    apply Nat.ltb_lt in E.
    rewrite skipn_app.
    replace (length l + 1 - 100 - length l)%nat with 0%nat by lia.
    cbn [skipn]. apply last_snoc. }
  split; [apply Hlast|]. split.
  - intros Hlt. unfold trim_signals. rewrite length_app. cbn [length].
    destruct (100 <? length (lastSignals s) + 1)%nat eqn:E; [|reflexivity].
    apply Nat.ltb_lt in E. lia.
  - intros Heq. unfold trim_signals, slice_last.
    rewrite length_app. cbn [length]. rewrite Heq. cbn [Nat.ltb Nat.leb].
    destruct (lastSignals s) as [|x l]; [discriminate|reflexivity].
Qed.

(** [evaluateBuySignal] and [evaluateSellSignal], run. *)
Lemma evaluateBuySignal_run (symbol : string) (analysis : Analysis)
    (currentPrice : num) (s : t) (w : W) (c : list LogLine) :
  evaluateBuySignal symbol analysis currentPrice (mkSt s w c)
  = match activePositions s !! symbol with
    | Some _ => (Ok None, mkSt s w c)
    | None =>
        if buy_conditions (config s) analysis then
          let w1 := snd (date_now w) in
          let s1 :=
            with_activePositions
              (insert symbol {| entryTime := fst (date_now w);
                                entryPrice := currentPrice;
                                reason := "positive_sentiment_buzz" |}) s in
          let signal :=
            signal_of s1 symbol "buy" (positionSize (config s))
              (marketOptions (BuyReason (an_sentimentScore analysis)
                                        (an_buzzScore analysis)))
              (fst (date_now w1)) in
          (Ok (Some signal),
           mkSt (with_lastSignals (fun l => trim_signals (l ++ [signal])) s1)
                (snd (date_now w1))
                (c ++ [LogBuySignal symbol (an_sentimentScore analysis)
                                    (an_buzzScore analysis)]))
        else (Ok None, mkSt s w c)
    end.
Proof.
  unfold evaluateBuySignal, bind at 1, get_obj at 1. cbn [obj].
  destruct (activePositions s !! symbol) as [p|]; [reflexivity|].
  unfold buy_conditions.
  destruct (_ && _ && _); [|reflexivity].
  unfold bind at 1, log at 1. cbn [obj world console].
  unfold bind at 1, ask at 1. cbn [obj world console].
  destruct (date_now w) as [now w1]. cbn [fst snd].
  unfold bind at 1, modify_obj at 1. cbn [obj world console].
  unfold bind, ret. rewrite createSignal_run. reflexivity.
Qed.

Lemma evaluateSellSignal_run (symbol : string) (analysis : Analysis)
    (currentPrice : num) (s : t) (w : W) (c : list LogLine) :
  evaluateSellSignal symbol analysis currentPrice (mkSt s w c)
  = match activePositions s !! symbol with
    | None => (Ok None, mkSt s w c)
    | Some position =>
        let w1 := snd (date_now w) in
        let conds := sell_conditions (config s) position analysis
                       currentPrice (fst (date_now w)) in
        if any_condition conds then
          let s1 := with_activePositions (delete symbol) s in
          let signal :=
            signal_of s1 symbol "sell" (positionSize (config s))
              (marketOptions
                 (SellReason (reason_code conds)
                             (priceChange currentPrice position)))
              (fst (date_now w1)) in
          (Ok (Some signal),
           mkSt (with_lastSignals (fun l => trim_signals (l ++ [signal])) s1)
                (snd (date_now w1))
                (c ++ [LogSellSignal symbol (reason_code conds)
                                     (priceChange currentPrice position)]))
        else (Ok None, mkSt s w1 c)
    end.
Proof.
  unfold evaluateSellSignal, bind at 1, get_obj at 1. cbn [obj].
  destruct (activePositions s !! symbol) as [position|]; [|reflexivity].
  unfold bind at 1, ask at 1. cbn [obj world console].
  destruct (date_now w) as [now w1]. cbn [fst snd]. cbn zeta.
  destruct (any_condition _); [|reflexivity].
  unfold bind at 1, log at 1. cbn [obj world console].
  unfold bind at 1, modify_obj at 1. cbn [obj world console].
  unfold bind, ret. rewrite createSignal_run. reflexivity.
Qed.

(** X8. The buy rule. For a symbol the strategy does not hold, when
    the sentiment and the buzz reach their thresholds and there is at
    least one news mention, [evaluateBuySignal] returns a market buy for
    the configured quantity and the symbol becomes active, with the
    current price as entry price and the clock's reading as entry time;
    the entries of the other symbols are as before. *)
Theorem buy_rule (symbol : string) (analysis : Analysis)
    (currentPrice : num) (s : t) (w : W) (c : list LogLine) :
  activePositions s !! symbol = None ->
  Num.ge (an_sentimentScore analysis) (sentimentThreshold (config s)) = true ->
  Num.ge (an_buzzScore analysis) (buzzThreshold (config s)) = true ->
  Num.gt (an_newsMentions analysis) 0%float = true ->
  let r := evaluateBuySignal symbol analysis currentPrice (mkSt s w c) in
  exists signal,
    fst r = Ok (Some signal)
    /\ market_signal s symbol "buy" signal
    /\ sig_reason signal = BuyReason (an_sentimentScore analysis)
                                     (an_buzzScore analysis)
    /\ activePositions (obj (snd r)) !! symbol
       = Some {| entryTime := fst (date_now w);
                 entryPrice := currentPrice;
                 reason := "positive_sentiment_buzz" |}
    /\ only_touches symbol s (obj (snd r))
    /\ same_setup s (obj (snd r)).
Proof.
  intros Hflat Hs Hb Hn. cbn zeta. rewrite evaluateBuySignal_run, Hflat.
  unfold buy_conditions. rewrite Hs, Hb, Hn. cbn [andb]. cbn zeta.
  eexists. split; [reflexivity|]. cbn [fst snd obj].
  split; [repeat split|]. split; [reflexivity|].
  split; [apply lookup_insert_eq|].
  split; [intros k Hk; apply lookup_insert_ne; congruence|].
  repeat split.
Qed.

(** X9. When no signal is due the strategy stays as it is. While a
    symbol is active [evaluateBuySignal] returns nothing and changes
    nothing, whatever the analysis; so it does for a flat symbol when one
    of the three buy conditions fails. For a flat symbol
    [evaluateSellSignal] returns nothing and changes nothing; for an
    active one, when none of the four sell conditions holds, it returns
    nothing and only the clock has been read. *)
Theorem no_signal_no_change (symbol : string) (analysis : Analysis)
    (currentPrice : num) (s : t) (w : W) (c : list LogLine) :
  (is_Some (activePositions s !! symbol) ->
   evaluateBuySignal symbol analysis currentPrice (mkSt s w c)
   = (Ok None, mkSt s w c))
  /\ (buy_conditions (config s) analysis = false ->
      evaluateBuySignal symbol analysis currentPrice (mkSt s w c)
      = (Ok None, mkSt s w c))
  /\ (activePositions s !! symbol = None ->
      evaluateSellSignal symbol analysis currentPrice (mkSt s w c)
      = (Ok None, mkSt s w c))
  /\ (forall position,
        activePositions s !! symbol = Some position ->
        any_condition (sell_conditions (config s) position analysis
                         currentPrice (fst (date_now w))) = false ->
        evaluateSellSignal symbol analysis currentPrice (mkSt s w c)
        = (Ok None, mkSt s (snd (date_now w)) c)).
Proof.
  split; [|split; [|split]].
  - intros [p Hp]. now rewrite evaluateBuySignal_run, Hp.
  - intros Hc. rewrite evaluateBuySignal_run, Hc.
    now destruct (activePositions s !! symbol).
  - intros Hflat. now rewrite evaluateSellSignal_run, Hflat.
  - intros position Hp Hc. rewrite evaluateSellSignal_run, Hp.
    cbn zeta. now rewrite Hc.
Qed.

(** The price [evaluate] reads for a symbol, when it is one it goes on
    with. *)
Definition quoted (marketData : gmap string MarketData) (symbol : string)
  : option num :=
  match marketData !! symbol ≫= md_price with
  | Some price => if Num.truthy price then Some price else None
  | None => None
  end.

(** What one turn of the watchlist loop can do with a symbol. *)
Inductive Outcome (s s' : t) (symbol : string) : list Signal -> Prop :=
| NoSignal :
    activePositions s' !! symbol = activePositions s !! symbol ->
    Outcome s s' symbol []
| Bought (buy : Signal) :
    market_signal s symbol "buy" buy ->
    activePositions s !! symbol = None ->
    is_Some (activePositions s' !! symbol) ->
    Outcome s s' symbol [buy]
| Sold (sell : Signal) :
    market_signal s symbol "sell" sell ->
    is_Some (activePositions s !! symbol) ->
    activePositions s' !! symbol = None ->
    Outcome s s' symbol [sell]
| BoughtAndSold (buy sell : Signal) :
    market_signal s symbol "buy" buy ->
    market_signal s symbol "sell" sell ->
    activePositions s !! symbol = None ->
    activePositions s' !! symbol = None ->
    Outcome s s' symbol [buy; sell].

Lemma evaluate_symbol_spec (summary : gmap string Analysis)
    (marketData : gmap string MarketData) (symbol : string)
    (s : t) (w : W) (c : list LogLine) :
  exists pushed st',
    evaluate_symbol summary marketData symbol (mkSt s w c) = (Ok pushed, st')
    /\ same_setup s (obj st')
    /\ only_touches symbol s (obj st')
    /\ Outcome s (obj st') symbol pushed
    /\ (pushed <> [] ->
        is_Some (summary !! symbol)
        /\ is_Some (quoted marketData symbol)).
Proof.
  unfold evaluate_symbol, quoted.
  destruct (summary !! symbol) as [analysis|] eqn:Han.
  2: { exists [], (mkSt s w c). unfold ret.
       repeat split; try tauto. now constructor. }
  destruct (marketData !! symbol ≫= md_price) as [price|] eqn:Hmd.
  2: { exists [], (mkSt s w c). unfold ret.
       repeat split; try tauto. now constructor. }
  destruct (Num.truthy price) eqn:Htr; cbn [negb].
  2: { exists [], (mkSt s w c). unfold ret.
       repeat split; try tauto. now constructor. }
  assert (Hdata : is_Some (Some analysis) /\ is_Some (Some price)) by eauto.
  unfold bind at 1. rewrite evaluateBuySignal_run.
  destruct (activePositions s !! symbol) as [position|] eqn:Hpos.
  - (* active: no buy *)
    unfold bind at 1. rewrite evaluateSellSignal_run, Hpos. cbn zeta.
    destruct (any_condition _); unfold ret; cbn [option_list app].
    + eexists _, _. split; [reflexivity|]. cbn [obj].
      split; [repeat split|].
      split; [intros k Hk; apply lookup_delete_ne; congruence|].
      split; [|intros _; exact Hdata].
      apply Sold; [repeat split|rewrite Hpos; eauto|apply lookup_delete_eq].
    + eexists _, _. split; [reflexivity|]. cbn [obj].
      split; [repeat split|]. split; [intros k Hk; reflexivity|].
      split; [now constructor|tauto].
  - (* flat *)
    destruct (buy_conditions (config s) analysis); cbn zeta.
    + unfold bind at 1. rewrite evaluateSellSignal_run.
      cbn [with_lastSignals with_activePositions activePositions].
      rewrite lookup_insert_eq. cbn zeta.
      destruct (any_condition _); unfold ret; cbn [option_list app].
      * eexists _, _. split; [reflexivity|]. cbn [obj].
        split; [repeat split|].
        split.
        { intros k Hk. cbn.
          rewrite lookup_delete_ne, lookup_insert_ne; congruence. }
        split; [|intros _; exact Hdata].
        apply BoughtAndSold;
          [repeat split|repeat split|exact Hpos|apply lookup_delete_eq].
      * eexists _, _. split; [reflexivity|]. cbn [obj].
        split; [repeat split|].
        split; [intros k Hk; apply lookup_insert_ne; congruence|].
        split; [|intros _; exact Hdata].
        apply Bought; [repeat split|exact Hpos|].
        cbn. rewrite lookup_insert_eq. eauto.
    + unfold bind at 1. rewrite evaluateSellSignal_run, Hpos.
      unfold ret; cbn [option_list app].
      eexists _, _. split; [reflexivity|]. cbn [obj].
      split; [repeat split|]. split; [intros k Hk; reflexivity|].
      split; [now constructor|tauto].
Qed.

(** X10. One turn of the watchlist loop of [evaluate] pushes nothing, a
    buy, a sell, or a buy followed by a sell, all for the symbol of the
    turn and for the configured quantity: never a sell before a buy and
    never two of a kind. A lone buy is pushed for a flat symbol and leaves
    it active; a lone sell is pushed for an active symbol and leaves it
    flat; a buy and a sell are pushed for a flat symbol and leave it flat;
    when nothing is pushed the symbol's entry is as before. Signals are
    only pushed for a symbol that has an analysis and a price. *)
Theorem evaluate_symbol_outcomes (summary : gmap string Analysis)
    (marketData : gmap string MarketData) (symbol : string)
    (s : t) (w : W) (c : list LogLine) :
  let r := evaluate_symbol summary marketData symbol (mkSt s w c) in
  exists pushed,
    fst r = Ok pushed
    /\ Outcome s (obj (snd r)) symbol pushed
    /\ (pushed = [] \/ (is_Some (summary !! symbol)
                         /\ is_Some (quoted marketData symbol))).
Proof.
  cbn zeta.
  destruct (evaluate_symbol_spec summary marketData symbol s w c)
    as (pushed & st' & -> & _ & _ & Hout & Hdata).
  exists pushed. cbn [fst snd]. split; [reflexivity|]. split; [exact Hout|].
  destruct pushed; [now left|right]. now apply Hdata.
Qed.

(** A signal of [s] for one of the symbols [symbols], which has an
    analysis and a price. *)
Definition watched_signal (s : t) (summary : gmap string Analysis)
    (marketData : gmap string MarketData) (symbols : list string)
    (signal : Signal) : Prop :=
  In (sig_symbol signal) symbols
  /\ is_Some (summary !! sig_symbol signal)
  /\ is_Some (quoted marketData (sig_symbol signal))
  /\ (sig_action signal = "buy" \/ sig_action signal = "sell")
  /\ sig_quantity signal = positionSize (config s)
  /\ sig_orderType signal = "market"
  /\ sig_strategyName signal = name s.

Lemma Outcome_signals (s s' : t) (symbol : string) (pushed : list Signal) :
  Outcome s s' symbol pushed ->
  (length pushed <= 2)%nat
  /\ Forall (fun signal =>
               sig_symbol signal = symbol
               /\ (sig_action signal = "buy" \/ sig_action signal = "sell")
               /\ sig_quantity signal = positionSize (config s)
               /\ sig_orderType signal = "market"
               /\ sig_strategyName signal = name s) pushed.
Proof.
  intros Hout. destruct Hout;
    repeat match goal with
           | Hm : market_signal _ _ _ _ |- _ =>
               destruct Hm as (? & ? & ? & ? & _ & ? & _)
           end;
    (split; [cbn; lia|]);
    repeat (apply Forall_cons_2; [repeat split; auto|]); apply Forall_nil_2.
Qed.

Lemma evaluate_loop_spec (summary : gmap string Analysis)
    (marketData : gmap string MarketData) (symbols : list string) :
  forall (acc : list Signal) (s : t) (w : W) (c : list LogLine),
  exists new st',
    evaluate_loop summary marketData symbols acc (mkSt s w c)
    = (Ok (acc ++ new), st')
    /\ same_setup s (obj st')
    /\ (forall k, ~ In k symbols ->
                  activePositions (obj st') !! k = activePositions s !! k)
    /\ (length new <= 2 * length symbols)%nat
    /\ Forall (watched_signal s summary marketData symbols) new.
Proof.
  induction symbols as [|symbol rest IH]; intros acc s w c.
  - exists [], (mkSt s w c). cbn. rewrite app_nil_r.
    repeat split; auto.
  - cbn [evaluate_loop]. unfold bind.
    destruct (evaluate_symbol_spec summary marketData symbol s w c)
      as (pushed & [s1 w1 c1] & -> & Hset & Htouch & Hout & Hdata).
    cbn [obj] in *.
    destruct (IH (acc ++ pushed) s1 w1 c1)
      as (new & st' & -> & Hset' & Hrest & Hlen & Hall).
    destruct (Outcome_signals _ _ _ _ Hout) as [Hlen1 Hall1].
    exists (pushed ++ new), st'. rewrite app_assoc.
    split; [reflexivity|].
    split; [eapply same_setup_trans; eassumption|].
    split.
    { intros k Hk. rewrite Hrest by (intros Hin; apply Hk; now right).
      apply Htouch. intros ->. apply Hk. now left. }
    split; [rewrite length_app; cbn [length]; lia|].
    destruct Hset as (Hname & Hcfg & _).
    apply Forall_app. split.
    + destruct pushed as [|x l]; [apply Forall_nil_2|].
      destruct Hdata as [Ha Hp]; [discriminate|].
      eapply Forall_impl; [exact Hall1|].
      intros signal (Hsym & Hact & Hq & Ht & Hn).
      unfold watched_signal. rewrite Hsym.
      repeat split; auto. now left.
    + eapply Forall_impl; [exact Hall|].
      intros signal (Hin & Ha & Hp & Hact & Hq & Ht & Hn).
      unfold watched_signal. repeat split; auto; try congruence.
      now right.
Qed.

Lemma evaluate_run (marketData : gmap string MarketData)
    (s : t) (w : W) (c : list LogLine) :
  evaluate marketData (mkSt s w c)
  = if negb (dataAggregator s) then
      (Ok [], mkSt s w (c ++ [LogNoAggregator]))
    else
      match fst (aggregator_latest w) ≫= ld_summary with
      | None =>
          (Ok [], mkSt s (snd (aggregator_latest w)) (c ++ [LogNoData]))
      | Some summary =>
          evaluate_loop summary marketData (watchlist s) []
            (mkSt s (snd (aggregator_latest w)) c)
      end.
Proof.
  unfold evaluate, bind at 1, get_obj at 1. cbn [obj].
  destruct (dataAggregator s); cbn [negb]; [|reflexivity].
  unfold bind at 1, ask at 1. cbn [obj world console].
  destruct (aggregator_latest w) as [latest w1]. cbn [fst snd].
  destruct (latest ≫= ld_summary); reflexivity.
Qed.

(** X11. Every signal [evaluate] returns is a market order of the
    strategy, a buy or a sell for the configured quantity, for a symbol of
    the watchlist that the aggregator's summary analyses and that has a
    price in the market data; there are at most two signals per entry of
    the watchlist. *)
Theorem evaluate_signals_are_watched (marketData : gmap string MarketData)
    (s : t) (w : W) (c : list LogLine) :
  let r := evaluate marketData (mkSt s w c) in
  exists signals,
    fst r = Ok signals
    /\ (length signals <= 2 * length (watchlist s))%nat
    /\ same_setup s (obj (snd r))
    /\ (signals = []
        \/ exists summary,
             dataAggregator s = true
             /\ fst (aggregator_latest w) ≫= ld_summary = Some summary
             /\ Forall (watched_signal s summary marketData (watchlist s))
                       signals).
Proof.
  cbn zeta. rewrite evaluate_run.
  destruct (dataAggregator s) eqn:Hagg; cbn [negb].
  2: { exists []. cbn. repeat split; auto using Nat.le_0_l. }
  destruct (fst (aggregator_latest w) ≫= ld_summary) as [summary|] eqn:Hsum.
  2: { exists []. cbn. repeat split; auto using Nat.le_0_l. }
  destruct (evaluate_loop_spec summary marketData (watchlist s) [] s
              (snd (aggregator_latest w)) c)
    as (new & st' & -> & Hset & _ & Hlen & Hall).
  exists new. cbn [fst snd app].
  split; [reflexivity|]. split; [exact Hlen|]. split; [exact Hset|].
  right. exists summary. auto.
Qed.

(** What [evaluate] does for a symbol off the watchlist. *)
Lemma evaluate_unwatched (marketData : gmap string MarketData)
    (s : t) (w : W) (c : list LogLine) (symbol : string) :
  ~ In symbol (watchlist s) ->
  let r := evaluate marketData (mkSt s w c) in
  activePositions (obj (snd r)) !! symbol = activePositions s !! symbol
  /\ forall signals signal,
       fst r = Ok signals -> In signal signals ->
       sig_symbol signal <> symbol.
Proof.
  intros Hnot. cbn zeta. rewrite evaluate_run.
  destruct (dataAggregator s); cbn [negb];
    [|split; [reflexivity|intros ? ? [= <-] []]].
  destruct (fst (aggregator_latest w) ≫= ld_summary) as [summary|];
    [|split; [reflexivity|intros ? ? [= <-] []]].
  destruct (evaluate_loop_spec summary marketData (watchlist s) [] s
              (snd (aggregator_latest w)) c)
    as (new & st' & -> & _ & Hrest & _ & Hall).
  cbn [fst snd app]. split; [now apply Hrest|].
  intros signals signal [= <-] Hin Hsym.
  rewrite Forall_forall in Hall.
  destruct (Hall signal) as (Hw & _).
  { now apply list_elem_of_In. }
  apply Hnot. now rewrite <- Hsym.
Qed.

(** X12. [evaluate] leaves alone what is not on the watchlist: the
    entry of a symbol the watchlist does not name is after the call what
    it was before and no signal is for it, so a position in a symbol
    taken off the watchlist is never sold by the strategy. Without a data
    aggregator the call returns no signal and changes nothing, and so it
    does when the aggregator has no summary yet. *)
Theorem evaluate_ignores_unwatched (marketData : gmap string MarketData)
    (s : t) (w : W) (c : list LogLine) :
  let r := evaluate marketData (mkSt s w c) in
  (forall symbol,
      ~ In symbol (watchlist s) ->
      activePositions (obj (snd r)) !! symbol = activePositions s !! symbol
      /\ forall signals signal,
           fst r = Ok signals -> In signal signals ->
           sig_symbol signal <> symbol)
  /\ (dataAggregator s = false ->
      fst r = Ok [] /\ obj (snd r) = s /\ world (snd r) = w)
  /\ (fst (aggregator_latest w) ≫= ld_summary = None ->
      fst r = Ok [] /\ obj (snd r) = s).
Proof.
  cbn zeta. split; [|split].
  - intros symbol Hnot. now apply evaluate_unwatched.
  - intros Hagg. rewrite evaluate_run, Hagg. cbn. auto.
  - intros Hnone. rewrite evaluate_run, Hnone.
    destruct (dataAggregator s); cbn; auto.
Qed.

(** X13. [addToWatchlist] lists a symbol once: the symbol is on the
    watchlist afterwards, a second call changes nothing and a watchlist
    without repetition stays so. [removeFromWatchlist] on such a watchlist
    takes the symbol off and keeps the other symbols and every active
    entry; from then on [evaluate] returns no signal for the symbol and
    leaves its entry as it is, so a position the strategy holds in it is
    not sold. *)
Theorem watchlist_edits (symbol : string)
    (marketData : gmap string MarketData)
    (s : t) (w : W) (c : list LogLine) :
  (In symbol (watchlist (addToWatchlist symbol s))
   /\ addToWatchlist symbol (addToWatchlist symbol s)
      = addToWatchlist symbol s
   /\ (NoDup (watchlist s) -> NoDup (watchlist (addToWatchlist symbol s))))
  /\ (NoDup (watchlist s) ->
      let s' := removeFromWatchlist symbol s in
      let r := evaluate marketData (mkSt s' w c) in
      ~ In symbol (watchlist s')
      /\ (forall x, x <> symbol ->
                    (In x (watchlist s') <-> In x (watchlist s)))
      /\ activePositions s' = activePositions s
      /\ activePositions (obj (snd r)) !! symbol
         = activePositions s !! symbol
      /\ (forall signals signal,
            fst r = Ok signals -> In signal signals ->
            sig_symbol signal <> symbol)).
Proof.
  split.
  - assert (Hin : RiskGate.includes symbol
                    (watchlist (addToWatchlist symbol s)) = true).
    { unfold addToWatchlist.
      destruct (RiskGate.includes symbol (watchlist s)) eqn:E;
        cbn [negb]; [exact E|].
      cbn [watchlist]. rewrite RiskGate.includes_app.
      unfold RiskGate.includes at 2. cbn [existsb].
      rewrite String.eqb_refl. now rewrite !orb_true_r. }
    split; [now apply RiskGate.includes_In|].
    split; [unfold addToWatchlist at 1; now rewrite Hin|].
    intros Hnd. unfold addToWatchlist.
    destruct (RiskGate.includes symbol (watchlist s)) eqn:E;
      cbn [negb]; [exact Hnd|].
    cbn [watchlist]. apply NoDup_app. repeat split; try assumption.
    + intros x Hx Hx'. apply list_elem_of_singleton in Hx'. subst x.
      apply list_elem_of_In, RiskGate.includes_In in Hx. congruence.
    + apply NoDup_singleton.
  - intros Hnd. cbn zeta.
    assert (Hcount : forall l : list string,
               count_occ String.string_dec (RiskGate.remove_first symbol l)
                         symbol
               = Nat.pred (count_occ String.string_dec l symbol))
      by (intros l; apply RiskGate.count_remove_first).
    assert (Hoff : ~ In symbol (watchlist (removeFromWatchlist symbol s))).
    { unfold removeFromWatchlist.
      destruct (RiskGate.includes symbol (watchlist s)) eqn:E.
      - cbn [watchlist]. intros Hin.
        apply (count_occ_In String.string_dec) in Hin.
        rewrite Hcount in Hin. apply NoDup_ListNoDup in Hnd.
        pose proof (proj1 (NoDup_count_occ String.string_dec _) Hnd symbol).
        lia.
      - intros Hin. apply RiskGate.includes_In in Hin. congruence. }
    assert (Hact : activePositions (removeFromWatchlist symbol s)
                   = activePositions s).
    { unfold removeFromWatchlist.
      now destruct (RiskGate.includes symbol (watchlist s)). }
    split; [exact Hoff|]. split.
    { intros x Hx. rewrite <- !RiskGate.includes_In.
      unfold removeFromWatchlist.
      destruct (RiskGate.includes symbol (watchlist s)); [|reflexivity].
      cbn [watchlist].
      rewrite RiskGate.includes_remove_first_other by congruence.
      reflexivity. }
    split; [exact Hact|].
    destruct (evaluate_unwatched marketData
                (removeFromWatchlist symbol s) w c symbol Hoff)
      as [Hkeep Hsilent].
    split; [now rewrite Hkeep, Hact|exact Hsilent].
Qed.

End Facts.

(** Scenario C: the default thresholds (0.6 and 50), AAPL flat, sentiment
    0.7, buzz 60, two news mentions, price 150. *)
Definition flat : t := setDataAggregator (constructor defaultConfig ["AAPL"]).

Definition strong : Analysis :=
  {| an_sentimentScore := 0.7%float;
     an_buzzScore := 60%float;
     an_newsMentions := 2%float |}.

Definition frozen_clock (latest : option LatestData) : SimWorld :=
  {| sim_now := 1600000; sim_today := "Mon Jan 01 2024";
     sim_latest := latest |}.

Lemma signal_log_bounded_witness :
  exists signal,
    fst (createSignal "AAPL" "buy" 100%float (marketOptions NoReason)
           (mkSt flat (frozen_clock None) [])) = Ok signal
    /\ lastSignals
         (obj (snd (createSignal "AAPL" "buy" 100%float
                      (marketOptions NoReason)
                      (mkSt flat (frozen_clock None) []))))
       = [signal].
Proof.
  destruct (signal_log_bounded "AAPL" "buy" 100%float
              (marketOptions NoReason) flat (frozen_clock None) [])
    as (signal & Hr & _ & _ & _ & _ & Hgrow & _).
  exists signal. split; [exact Hr|]. apply Hgrow. cbn. lia.
Defined.

Lemma buy_rule_witness :
  exists signal,
    fst (evaluateBuySignal "AAPL" strong 150%float
           (mkSt flat (frozen_clock None) [])) = Ok (Some signal)
    /\ sig_action signal = "buy"
    /\ sig_quantity signal = 100%float
    /\ activePositions
         (obj (snd (evaluateBuySignal "AAPL" strong 150%float
                      (mkSt flat (frozen_clock None) [])))) !! "AAPL"
       = Some {| entryTime := 1600000; entryPrice := 150%float;
                 reason := "positive_sentiment_buzz" |}.
Proof.
  destruct (buy_rule "AAPL" strong 150%float flat (frozen_clock None) []
              eq_refl eq_refl eq_refl eq_refl)
    as (signal & Hr & Hm & _ & Hact & _).
  exists signal. destruct Hm as (_ & Hb & Hq & _).
  split; [exact Hr|]. split; [exact Hb|]. split; [exact Hq|exact Hact].
Defined.

(** The strategy holds AAPL, bought at 150 ten minutes ago; the news are
    weak and the price has not moved. *)
Definition weak : Analysis :=
  {| an_sentimentScore := 0.1%float;
     an_buzzScore := 10%float;
     an_newsMentions := 0%float |}.

Lemma no_signal_no_change_witness :
  evaluateBuySignal "AAPL" strong 150%float
    (mkSt StrategyFacts.holding_aapl (frozen_clock None) [])
  = (Ok None, mkSt StrategyFacts.holding_aapl (frozen_clock None) [])
  /\ evaluateBuySignal "AAPL" weak 150%float
       (mkSt flat (frozen_clock None) [])
     = (Ok None, mkSt flat (frozen_clock None) [])
  /\ evaluateSellSignal "AAPL" strong 150%float
       (mkSt flat (frozen_clock None) [])
     = (Ok None, mkSt flat (frozen_clock None) [])
  /\ evaluateSellSignal "AAPL" weak 150%float
       (mkSt StrategyFacts.holding_aapl (frozen_clock None) [])
     = (Ok None, mkSt StrategyFacts.holding_aapl (frozen_clock None) []).
Proof.
  split; [|split; [|split]].
  - destruct (no_signal_no_change "AAPL" strong 150%float
                StrategyFacts.holding_aapl (frozen_clock None) [])
      as (Hactive & _).
    apply Hactive. eexists. reflexivity.
  - destruct (no_signal_no_change "AAPL" weak 150%float flat
                (frozen_clock None) []) as (_ & Hweak & _).
    exact (Hweak eq_refl).
  - destruct (no_signal_no_change "AAPL" strong 150%float flat
                (frozen_clock None) []) as (_ & _ & Hflat & _).
    exact (Hflat eq_refl).
  - destruct (no_signal_no_change "AAPL" weak 150%float
                StrategyFacts.holding_aapl (frozen_clock None) [])
      as (_ & _ & _ & Hkeep).
    exact (Hkeep {| entryTime := 1000000; entryPrice := 150%float;
                    reason := "positive_sentiment_buzz" |}
             eq_refl eq_refl).
Defined.

(** The strategy holds AAPL but watches only MSFT; the aggregator
    reports strong AAPL news and AAPL has fallen to 100. *)
Definition holding_unwatched : t :=
  with_activePositions
    (insert "AAPL" {| entryTime := 1000000; entryPrice := 150%float;
                      reason := "positive_sentiment_buzz" |})
    (setDataAggregator (constructor defaultConfig ["MSFT"])).

Definition aapl_news : SimWorld :=
  frozen_clock (Some {| ld_summary := Some {[ "AAPL" := strong ]} |}).

Definition aapl_at (price : num) : gmap string MarketData :=
  {[ "AAPL" := {| md_price := Some price; md_volume := None |} ]}.

Lemma evaluate_ignores_unwatched_witness :
  fst (evaluate (aapl_at 100%float) (mkSt holding_unwatched aapl_news []))
  = Ok []
  /\ is_Some (activePositions
                (obj (snd (evaluate (aapl_at 100%float)
                             (mkSt holding_unwatched aapl_news []))))
              !! "AAPL")
  /\ fst (evaluate (aapl_at 100%float)
            (mkSt (constructor defaultConfig ["AAPL"]) aapl_news []))
     = Ok []
  /\ fst (evaluate (aapl_at 100%float) (mkSt flat (frozen_clock None) []))
     = Ok [].
Proof.
  split; [vm_compute; reflexivity|]. split; [|split].
  - destruct (evaluate_ignores_unwatched (aapl_at 100%float)
                holding_unwatched aapl_news []) as (Hun & _).
    destruct (Hun "AAPL") as [-> _].
    + cbn. intros [[=]|[]].
    + eexists. reflexivity.
  - destruct (evaluate_ignores_unwatched (aapl_at 100%float)
                (constructor defaultConfig ["AAPL"]) aapl_news [])
      as (_ & Hnoagg & _).
    now destruct (Hnoagg eq_refl).
  - destruct (evaluate_ignores_unwatched (aapl_at 100%float) flat
                (frozen_clock None) []) as (_ & _ & Hnodata).
    now destruct (Hnodata eq_refl).
Defined.

(** AAPL is taken off the watchlist of a strategy that holds it. *)
Lemma watchlist_edits_witness :
  watchlist (addToWatchlist "MSFT" StrategyFacts.holding_aapl)
  = ["AAPL"; "MSFT"]
  /\ watchlist (removeFromWatchlist "AAPL" StrategyFacts.holding_aapl) = []
  /\ is_Some (activePositions
                (obj (snd (evaluate (aapl_at 100%float)
                             (mkSt (removeFromWatchlist "AAPL"
                                      StrategyFacts.holding_aapl)
                                   aapl_news []))))
              !! "AAPL").
Proof.
  split; [reflexivity|]. split; [reflexivity|].
  destruct (watchlist_edits "AAPL" (aapl_at 100%float)
              StrategyFacts.holding_aapl aapl_news []) as (_ & Hoff).
  destruct Hoff as (_ & _ & _ & -> & _).
  - apply (bool_decide_unpack _). vm_compute. exact I.
  - eexists. reflexivity.
Defined.

End StrategyRules.


(** * More of the engine: what happens to a signal, the tick, start-up *)

Module EngineRules.
Import Engine EngineFacts.

(** [!signal.symbol || !signal.action || !signal.quantity] *)
Definition malformed (signal : Signal) : bool :=
  negb (truthy_str (sig_symbol signal))
  || negb (truthy_str (sig_action signal))
  || negb (Num.truthy (sig_quantity signal)).


(** An [order_updated] event. *)
Definition is_update (ev : Event) : Prop :=
  match ev with EvOrderUpdated _ _ => True | _ => False end.

(** A loop whose body returns and keeps [I] returns and keeps [I]. *)
Lemma for_each_keeps {W S A} (I : St W S -> Prop) (l : list A)
    (body : A -> M W S unit) :
  (forall x s, In x l -> I s ->
               fst (body x s) = Ok tt /\ I (snd (body x s))) ->
  forall s, I s ->
            fst (for_each l body s) = Ok tt /\ I (snd (for_each l body s)).
Proof.
  induction l as [|x l IH]; intros Hbody s Hs.
  - split; [reflexivity|exact Hs].
  - cbn [for_each]. unfold bind.
    destruct (Hbody x s (or_introl eq_refl) Hs) as [Hok Hi].
    destruct (body x s) as [r s1]. cbn [fst snd] in *. subst r.
    apply IH; [|exact Hi].
    intros y s' Hy. apply Hbody. now right.
Qed.

Section Facts.
Context {W : Type} `{World W}.

(** [validateSignal], run. *)
Lemma validateSignal_run (signal : Signal) (strategyName : string)
    (e : t W) (w : W) (c : list LogLine) :
  validateSignal signal strategyName (mkSt e w c)
  = if malformed signal then
      (Ok None, mkSt e w (c ++ [LogInvalidSignal strategyName signal]))
    else
      match riskManager e with
      | None => (Ok (Some signal), mkSt e w c)
      | Some rm =>
          let r := RiskManager.validateOrder (risk_order_of_signal signal)
                     (RiskManager.PosMap (positions e)) (mkSt rm w c) in
          let e' := with_riskManager (Some (obj (snd r))) e in
          match fst r with
          | Ok true => (Ok (Some signal),
                        mkSt e' (world (snd r)) (console (snd r)))
          | Ok false => (Ok None,
                         mkSt e' (world (snd r))
                              (console (snd r) ++ [LogSignalRejected signal]))
          | Throw error => (Throw error,
                            mkSt e' (world (snd r)) (console (snd r)))
          end
      end.
Proof.
  unfold validateSignal, malformed.
  destruct (_ || _ || _); [reflexivity|].
  unfold bind at 1, get_obj at 1. cbn [obj].
  destruct (riskManager e) as [rm|]; [|reflexivity].
  unfold bind at 1, zoom at 1. cbn [obj world console]. cbn zeta.
  destruct (RiskManager.validateOrder _ _ _) as [[[|]|error] s1];
    reflexivity.
Qed.

(** X14. A signal without a symbol, without an action or with a
    quantity of zero (or NaN) is dropped on the spot: the loop body of
    [processSignals] leaves the engine, its risk manager and the world as
    they are (neither the gate nor a broker is called) and only writes a
    warning. *)
Theorem malformed_signal_dropped (signal : Signal) (strategyName : string)
    (e : t W) (w : W) (c : list LogLine) :
  malformed signal = true ->
  process_signal strategyName signal (mkSt e w c)
  = (Ok tt, mkSt e w (c ++ [LogInvalidSignal strategyName signal])).
Proof.
  intros Hm. rewrite process_signal_run, validateSignal_run, Hm.
  reflexivity.
Qed.

(** X15. No order without the gate's consent: when the engine has a
    risk manager and it rejects the order made of a well-formed signal,
    the loop body of [processSignals] records no order and emits no event;
    the world is as the gate's reading of the calendar left it, so no
    broker was called. *)
Theorem rejected_signal_places_no_order (signal : Signal)
    (strategyName : string) (e : t W) (rm : RiskManager.t) (w : W)
    (c : list LogLine) :
  malformed signal = false ->
  riskManager e = Some rm ->
  fst (RiskManager.validateOrder (risk_order_of_signal signal)
         (RiskManager.PosMap (positions e)) (mkSt rm w c)) = Ok false ->
  let r := process_signal strategyName signal (mkSt e w c) in
  fst r = Ok tt
  /\ orders (obj (snd r)) = orders e
  /\ emitted (obj (snd r)) = emitted e
  /\ strategies (obj (snd r)) = strategies e
  /\ positions (obj (snd r)) = positions e
  /\ world (snd r) = snd (date_today w).
Proof.
  intros Hm Hrm Hrej. cbn zeta.
  rewrite process_signal_run, validateSignal_run, Hm, Hrm. cbn zeta.
  rewrite Hrej. cbn [fst snd obj world].
  repeat split.
  destruct (RiskGate.validateOrder_frame rm w c
              (risk_order_of_signal signal)
              (RiskManager.PosMap (positions e))) as [Hw _].
  exact Hw.
Qed.

(** X16. The gate is optional: in an engine without a risk manager
    every well-formed signal goes to the broker as it is, the loop body of
    [processSignals] being [executeSignal]. *)
Theorem no_risk_manager_no_check (signal : Signal) (strategyName : string)
    (e : t W) (w : W) (c : list LogLine) :
  malformed signal = false ->
  riskManager e = None ->
  process_signal strategyName signal (mkSt e w c)
  = executeSignal signal strategyName (mkSt e w c).
Proof.
  intros Hm Hrm. now rewrite process_signal_run, validateSignal_run, Hm, Hrm.
Qed.

(** Whether [validateSignal] lets the signal through. *)
Definition approved (signal : Signal) (strategyName : string)
    (s : St W (t W)) : Res bool :=
  match fst (validateSignal signal strategyName s) with
  | Ok (Some _) => Ok true
  | Ok None => Ok false
  | Throw error => Throw error
  end.

(** X17. The gate does not see the prices of a signal: the order
    shown to it has no limit price, so it is valued at the quantity times
    100, and two signals that agree on symbol, action and quantity are
    approved or rejected alike, whatever their limit and stop prices,
    order types and reasons are. *)
Theorem gate_does_not_see_prices (signal signal' : Signal)
    (strategyName : string) (s : St W (t W)) :
  RiskManager.orderValue (risk_order_of_signal signal)
  = (sig_quantity signal * 100)%float
  /\ (sig_symbol signal' = sig_symbol signal ->
      sig_action signal' = sig_action signal ->
      sig_quantity signal' = sig_quantity signal ->
      approved signal' strategyName s = approved signal strategyName s).
Proof.
  split; [reflexivity|].
  intros Hsym Hact Hq. destruct s as [e w c]. unfold approved.
  rewrite !validateSignal_run. unfold malformed. rewrite Hsym, Hact, Hq.
  destruct (_ || _ || _); [reflexivity|].
  destruct (riskManager e) as [rm|]; [|reflexivity].
  cbn zeta. rewrite !RiskFacts.validateOrder_outcome. cbn [fst].
  assert (Hsame : forall rm1,
             fst (RiskFacts.check_outcome rm1 (risk_order_of_signal signal')
                    (RiskManager.PosMap (positions e)))
             = fst (RiskFacts.check_outcome rm1 (risk_order_of_signal signal)
                      (RiskManager.PosMap (positions e)))).
  { intros rm1. unfold RiskFacts.check_outcome, RiskManager.orderValue.
    cbn [risk_order_of_signal ord_symbol ord_qty ord_side ord_limitPrice].
    now rewrite Hsym, Hact, Hq. }
  rewrite Hsame.
  now destruct (fst (RiskFacts.check_outcome _ _ _)).
Qed.

(** *** The tick *)

(** The engine has a risk manager with the limits [limits] whose
    counters are at zero. *)
Definition counters_at_zero (limits : RiskManager.Config) (e : t W) : Prop :=
  exists rm, riskManager e = Some rm
             /\ RiskManager.config rm = limits
             /\ RiskManager.dailyPnl rm = 0%float
             /\ RiskManager.dailyTrades rm = 0%float.

Lemma executeSignal_riskManager (signal : Signal) (strategyName : string)
    (s : St W (t W)) :
  riskManager (obj (snd (executeSignal signal strategyName s)))
  = riskManager (obj s).
Proof.
  destruct s as [e w c]. rewrite executeSignal_run.
  destruct (selectBroker e signal) as [broker|]; [|reflexivity].
  destruct (placeOrder broker (order_of_signal signal) w)
    as [[result|error] w']; reflexivity.
Qed.

Lemma process_signal_counters (limits : RiskManager.Config)
    (strategyName : string) (signal : Signal) (s : St W (t W)) :
  counters_at_zero limits (obj s) ->
  counters_at_zero limits (obj (snd (process_signal strategyName signal s))).
Proof.
  destruct s as [e w c]. intros (rm & Hrm & Hcfg & Hp & Ht). cbn [obj] in *.
  rewrite process_signal_run, validateSignal_run.
  destruct (malformed signal); [exists rm; auto|].
  rewrite Hrm. cbn zeta.
  pose proof (RiskGate.validateOrder_frame rm w c
                (risk_order_of_signal signal)
                (RiskManager.PosMap (positions e)))
    as [_ Hleft].
  assert (Hzero : exists rm',
             obj (snd (RiskManager.validateOrder
                         (risk_order_of_signal signal)
                         (RiskManager.PosMap (positions e)) (mkSt rm w c)))
             = rm'
             /\ RiskManager.config rm' = limits
             /\ RiskManager.dailyPnl rm' = 0%float
             /\ RiskManager.dailyTrades rm' = 0%float).
  { eexists. split; [reflexivity|].
    destruct Hleft as [-> | ->]; auto. }
  destruct Hzero as (rm' & Hobj & Hcfg' & Hp' & Ht').
  destruct (RiskManager.validateOrder _ _ _) as [[[|]|error] s1];
    cbn [fst snd obj] in *; subst.
  - unfold counters_at_zero. rewrite executeSignal_riskManager. cbn.
    exists (obj s1). auto.
  - exists (obj s1). auto.
  - exists (obj s1). auto.
Qed.

Lemma processSignals_counters (limits : RiskManager.Config)
    (signals : list Signal) (strategyName : string) (s : St W (t W)) :
  counters_at_zero limits (obj s) ->
  counters_at_zero limits (obj (snd (processSignals signals strategyName s))).
Proof.
  revert s. induction signals as [|signal signals IH]; intros s Hs.
  - exact Hs.
  - rewrite processSignals_cons. apply IH.
    now apply process_signal_counters.
Qed.

(** The steps of the tick return, and leave the risk manager alone. *)
Lemma updatePositions_safe (s : St W (t W)) :
  fst (updatePositions s) = Ok tt
  /\ riskManager (obj (snd (updatePositions s))) = riskManager (obj s)
  /\ orders (obj (snd (updatePositions s))) = orders (obj s)
  /\ strategies (obj (snd (updatePositions s))) = strategies (obj s)
  /\ emitted (obj (snd (updatePositions s))) = emitted (obj s).
Proof.
  unfold updatePositions, bind, get_obj. cbn [obj].
  apply (for_each_keeps
           (fun s' => riskManager (obj s') = riskManager (obj s)
                      /\ orders (obj s') = orders (obj s)
                      /\ strategies (obj s') = strategies (obj s)
                      /\ emitted (obj s') = emitted (obj s)));
    [|auto].
  intros [name broker] [e w c] _ Hs. unfold_m. cbn [obj world console fst snd].
  destruct (getPositions broker w) as [[ps|error] w']; cbn; auto.
Qed.

Lemma process_order_safe (entry : string * OrderInfo) (s : St W (t W)) :
  fst (process_order entry s) = Ok tt
  /\ riskManager (obj (snd (process_order entry s))) = riskManager (obj s)
  /\ strategies (obj (snd (process_order entry s))) = strategies (obj s)
  /\ positions (obj (snd (process_order entry s))) = positions (obj s)
  /\ brokers (obj (snd (process_order entry s))) = brokers (obj s).
Proof.
  destruct s as [e w c]. destruct entry as [orderId orderInfo].
  unfold process_order, call_broker, emit. unfold_m.
  cbn [obj world console fst snd].
  destruct (selectBroker e (oi_signal orderInfo)) as [b|];
    cbn beta iota; cbn [obj world console fst snd]; [|cbn; auto].
  destruct (getOrderHistory b w) as [[orderHistory|error] w'];
    cbn beta iota; cbn [obj world console fst snd]; [|cbn; auto].
  destruct (find _ orderHistory) as [currentOrder|];
    cbn beta iota; cbn [obj world console fst snd]; [|cbn; auto].
  case_bool; cbn; auto.
Qed.

Lemma processOrders_safe (s : St W (t W)) :
  fst (processOrders s) = Ok tt
  /\ riskManager (obj (snd (processOrders s))) = riskManager (obj s)
  /\ strategies (obj (snd (processOrders s))) = strategies (obj s)
  /\ positions (obj (snd (processOrders s))) = positions (obj s)
  /\ brokers (obj (snd (processOrders s))) = brokers (obj s).
Proof.
  unfold processOrders, bind, get_obj. cbn [obj].
  apply (for_each_keeps
           (fun s' => riskManager (obj s') = riskManager (obj s)
                      /\ strategies (obj s') = strategies (obj s)
                      /\ positions (obj s') = positions (obj s)
                      /\ brokers (obj s') = brokers (obj s)));
    [|auto].
  intros entry s' _ (Hr & Hst & Hp & Hb).
  destruct (process_order_safe entry s') as (Hok & Hr' & Hst' & Hp' & Hb').
  repeat split; congruence.
Qed.

Lemma gather_loop_safe (symbols : list string) :
  forall (data : gmap string MarketData) (s : St W (t W)),
  exists data' w' c',
    gather_loop symbols data s = (Ok data', mkSt (obj s) w' c')
    /\ (forall symbol, is_Some (data' !! symbol) ->
                       is_Some (data !! symbol) \/ In symbol symbols)
    /\ (brokers (obj s) = [] -> data' = data /\ w' = world s).
Proof.
  induction symbols as [|symbol rest IH]; intros data [e w c].
  - exists data, w, c. cbn. repeat split; auto.
  - cbn [gather_loop]. unfold bind at 1, try_catch, bind at 1, get_obj at 1.
    cbn [obj]. unfold call_broker.
    destruct (head (JsMap.values (brokers e))) as [broker|] eqn:Hhd.
    + unfold bind, call, ret, log. cbn [obj world console].
      destruct (getMarketData broker symbol w) as [[md|error] w1];
        cbn [obj world console];
        match goal with
        | |- context [gather_loop rest ?d ?s1] =>
            destruct (IH d s1) as (data' & w' & c' & -> & Hdom & Hnone)
        end;
        cbn [obj world console] in *;
        exists data', w', c'; (split; [reflexivity|]); split.
      * intros k Hk. destruct (Hdom k Hk) as [Hin|Hin]; [|right; now right].
        destruct (String.string_dec symbol k) as [->|Hne];
          [right; now left|].
        left. now rewrite lookup_insert_ne in Hin.
      * intros Hb. rewrite Hb in Hhd. discriminate.
      * intros k Hk. destruct (Hdom k Hk); auto. right. now right.
      * intros Hb. rewrite Hb in Hhd. discriminate.
    + unfold bind, throw, ret, log. cbn [obj world console].
      match goal with
      | |- context [gather_loop rest ?d ?s1] =>
          destruct (IH d s1) as (data' & w' & c' & -> & Hdom & Hnone)
      end.
      cbn [obj world console] in *.
      exists data', w', c'. split; [reflexivity|]. split.
      { intros k Hk. destruct (Hdom k Hk); auto. right. now right. }
      intros Hb. now apply Hnone.
Qed.

Lemma execute_strategy_safe (limits : RiskManager.Config)
    (marketData : gmap string MarketData) (name : string)
    (s : St W (t W)) :
  exists s',
    execute_strategy marketData name s = (Ok tt, s')
    /\ (counters_at_zero limits (obj s) -> counters_at_zero limits (obj s')).
Proof.
  destruct s as [e w c].
  unfold execute_strategy, try_catch, bind at 1, get_obj at 1. cbn [obj].
  destruct (JsMap.get name (strategies e)) as [strategy|];
    [|eexists; split; [reflexivity|auto]].
  destruct (Strategy.enabled strategy);
    [|eexists; split; [reflexivity|auto]].
  unfold bind at 1, zoom at 1. cbn [obj world console].
  destruct (Strategy.evaluate marketData (mkSt strategy w c))
    as [[signals|error] st1]; cbn [snd].
  - match goal with
    | |- context [processSignals signals name ?s1] =>
        pose proof (processSignals_returns signals name s1) as Hok;
        pose proof (processSignals_counters limits signals name s1) as Hc;
        destruct (processSignals signals name s1) as [r s2]
    end.
    cbn [fst snd obj] in *. subst r. eexists. split; [reflexivity|].
    intros Hz. apply Hc. exact Hz.
  - unfold emit. unfold_m. cbn. eexists. split; [reflexivity|auto].
Qed.

Lemma executeStrategies_safe (limits : RiskManager.Config)
    (s : St W (t W)) :
  exists s',
    executeStrategies s = (Ok tt, s')
    /\ (counters_at_zero limits (obj s) -> counters_at_zero limits (obj s')).
Proof.
  unfold executeStrategies, gatherMarketData, bind at 1, bind at 1,
    get_obj at 1.
  destruct (gather_loop_safe (getAllWatchedSymbols (obj s)) ∅ s)
    as (data & w' & c' & -> & _).
  unfold bind, get_obj. cbn [obj].
  destruct (for_each_keeps
              (fun s' => counters_at_zero limits (obj s) ->
                         counters_at_zero limits (obj s'))
              (JsMap.keys (strategies (obj s)))
              (execute_strategy data)) with (s := mkSt (obj s) w' c')
    as [Hok Hkeep].
  - intros name s' _ Hs'.
    destruct (execute_strategy_safe limits data name s') as (s2 & -> & Hc).
    split; [reflexivity|auto].
  - auto.
  - destruct (for_each _ _ _) as [r s2]. cbn [fst snd] in *. subst r.
    exists s2. auto.
Qed.


(** X19. The engine never tells the gate about a fill: through a tick
    the risk manager keeps its limits, and counters that are at zero stay
    at zero, whatever orders are placed and filled, so that the daily-loss
    stop cannot be reached by the engine's own doing. *)
Theorem tick_books_no_pnl (limits : RiskManager.Config) (s : St W (t W)) :
  counters_at_zero limits (obj s) ->
  counters_at_zero limits (obj (snd (tick s))).
Proof.
  intros Hz. unfold tick, try_catch, bind at 1.
  destruct (updatePositions_safe s) as (Hok & Hrm & _).
  destruct (updatePositions s) as [r s1]. cbn [fst snd] in *. subst r.
  assert (Hz1 : counters_at_zero limits (obj s1)).
  { destruct Hz as (rm & ? & ?). exists rm. split; [congruence|auto]. }
  unfold bind at 1.
  destruct (executeStrategies_safe limits s1) as (s2 & -> & Hkeep).
  specialize (Hkeep Hz1).
  destruct (processOrders_safe s2) as (Hok & Hrm2 & _).
  destruct (processOrders s2) as [r s3]. cbn [fst snd] in *. subst r.
  cbn beta iota. cbn [snd].
  destruct Hkeep as (rm & ? & ?). exists rm. split; [congruence|auto].
Qed.

(** *** Reconciliation and the position refresh *)

Lemma get_is_In {V} (k : string) (v : V) (m : JsMap.t V) :
  JsMap.get k m = Some v -> In (k, v) m.
Proof.
  induction m as [|[k' v'] m IH]; cbn; [discriminate|].
  destruct (String.eqb k' k) eqn:E.
  - apply String.eqb_eq in E. intros [= ->]. left. now subst.
  - intros Hg. right. now apply IH.
Qed.

(** The two things the loop body of [processOrders] can do. *)
Lemma process_order_cases (entry : string * OrderInfo) (s : St W (t W)) :
  (exists w' c', process_order entry s = (Ok tt, mkSt (obj s) w' c'))
  \/ (exists currentOrder w' c',
        process_order entry s
        = (Ok tt,
           mkSt (with_emitted
                   (fun l => l ++ [EvOrderUpdated (fst entry) currentOrder])
                   (with_orders
                      (JsMap.set (fst entry)
                         (merge_order (snd entry) currentOrder))
                      (obj s)))
                w' c')).
Proof.
  destruct s as [e w c]. destruct entry as [orderId orderInfo].
  unfold process_order, call_broker, emit. unfold_m.
  cbn [obj world console fst snd].
  destruct (selectBroker e (oi_signal orderInfo)) as [b|];
    cbn beta iota; cbn [obj world console fst snd]; [|left; eauto].
  destruct (getOrderHistory b w) as [[orderHistory|error] w'];
    cbn beta iota; cbn [obj world console fst snd]; [|left; eauto].
  destruct (find _ orderHistory) as [currentOrder|];
    cbn beta iota; cbn [obj world console fst snd]; [|left; eauto].
  case_bool; [right|left]; eauto.
Qed.

(** X20. Reconciliation neither drops nor adds an order, whatever the
    brokers answer: after [processOrders] the registry has the keys it
    had, in the same order; every entry still carries the strategy name
    and the signal it was recorded with; and the only events emitted are
    [order_updated] events. *)
Theorem reconciliation_keeps_entries (s : St W (t W)) :
  let s' := snd (processOrders s) in
  fst (processOrders s) = Ok tt
  /\ JsMap.keys (orders (obj s')) = JsMap.keys (orders (obj s))
  /\ (forall orderId orderInfo',
        JsMap.get orderId (orders (obj s')) = Some orderInfo' ->
        exists orderInfo,
          In (orderId, orderInfo) (orders (obj s))
          /\ oi_strategyName orderInfo' = oi_strategyName orderInfo
          /\ oi_signal orderInfo' = oi_signal orderInfo)
  /\ (exists events,
        emitted (obj s') = emitted (obj s) ++ events
        /\ Forall is_update events).
Proof.
  cbn zeta. unfold processOrders, bind, get_obj. cbn [obj JsMap.entries].
  apply (for_each_keeps
           (fun s' =>
              JsMap.keys (orders (obj s')) = JsMap.keys (orders (obj s))
              /\ (forall orderId orderInfo',
                    JsMap.get orderId (orders (obj s')) = Some orderInfo' ->
                    exists orderInfo,
                      In (orderId, orderInfo) (orders (obj s))
                      /\ oi_strategyName orderInfo'
                         = oi_strategyName orderInfo
                      /\ oi_signal orderInfo' = oi_signal orderInfo)
              /\ (exists events,
                    emitted (obj s') = emitted (obj s) ++ events
                    /\ Forall is_update events))).
  - intros [orderId orderInfo] s1 Hin (Hkeys & Hent & events & Hev & Hupd).
    destruct (process_order_cases (orderId, orderInfo) s1)
      as [(w' & c' & ->)|(currentOrder & w' & c' & ->)];
      cbn [fst snd obj].
    + split; [reflexivity|]. eauto 6.
    + cbn [with_emitted with_orders orders emitted].
      split; [reflexivity|]. split; [|split].
      * rewrite JsMapFacts.keys_set_present; [exact Hkeys|].
        rewrite Hkeys. unfold JsMap.keys.
        apply (in_map fst) in Hin. exact Hin.
      * intros k oi' Hget.
        destruct (String.string_dec orderId k) as [->|Hne].
        -- rewrite JsMapFacts.get_set_eq in Hget. injection Hget as <-.
           exists orderInfo. auto.
        -- rewrite JsMapFacts.get_set_ne in Hget by exact Hne.
           now apply Hent.
      * exists (events ++ [EvOrderUpdated orderId currentOrder]).
        rewrite Hev, app_assoc. split; [reflexivity|].
        apply Forall_app. split; [exact Hupd|].
        apply Forall_cons_2; [exact I|apply Forall_nil_2].
  - split; [reflexivity|]. split.
    + intros k oi Hget. exists oi. split; [now apply get_is_In|auto].
    + exists []. rewrite app_nil_r. split; [reflexivity|apply Forall_nil_2].
Qed.

(** The loop body of [updatePositions]. *)
Definition refresh_positions (entry : string * Broker W)
  : M W (t W) unit :=
  try_catch
    (ps <- call (getPositions (snd entry)) ;;
     modify_obj (with_positions (JsMap.set (fst entry) ps)))
    (fun error => log (LogPositionsError (fst entry) error)).

Lemma refresh_positions_run (name : string) (broker : Broker W)
    (e : t W) (w : W) (c : list LogLine) :
  refresh_positions (name, broker) (mkSt e w c)
  = match getPositions broker w with
    | (Ok ps, w') =>
        (Ok tt, mkSt (with_positions (JsMap.set name ps) e) w' c)
    | (Throw error, w') =>
        (Ok tt, mkSt e w' (c ++ [LogPositionsError name error]))
    end.
Proof.
  unfold refresh_positions. unfold_m. cbn [fst snd obj world console].
  destruct (getPositions broker w) as [[ps|error] w']; reflexivity.
Qed.

(** The loop of [updatePositions] over the brokers [l]. *)
Lemma update_positions_loop (l : list (string * Broker W)) :
  forall s : St W (t W),
    NoDup (JsMap.keys l) ->
    let s' := snd (for_each l refresh_positions s) in
    (forall name, ~ In name (JsMap.keys l) ->
                  JsMap.get name (positions (obj s'))
                  = JsMap.get name (positions (obj s)))
    /\ (forall name broker,
          In (name, broker) l ->
          (forall ps, (forall w, fst (getPositions broker w) = Ok ps) ->
                      JsMap.get name (positions (obj s')) = Some ps)
          /\ ((forall w, exists error,
                  fst (getPositions broker w) = Throw error) ->
              JsMap.get name (positions (obj s'))
              = JsMap.get name (positions (obj s)))).
Proof.
  induction l as [|[n0 b0] rest IH]; intros [e w c] Hnd; cbn zeta.
  - split; [reflexivity|intros ? ? []].
  - unfold JsMap.keys in Hnd. cbn [map fst] in Hnd.
    apply NoDup_cons in Hnd as [Hfresh Hnd].
    rewrite list_elem_of_In in Hfresh.
    assert (Hstep : for_each ((n0, b0) :: rest) refresh_positions
                      (mkSt e w c)
                    = for_each rest refresh_positions
                        (snd (refresh_positions (n0, b0) (mkSt e w c)))).
    { cbn [for_each]. unfold bind. rewrite refresh_positions_run.
      destruct (getPositions b0 w) as [[ps|error] w1]; reflexivity. }
    rewrite Hstep. rewrite refresh_positions_run.
    destruct (getPositions b0 w) as [[ps|error] w1] eqn:Hget; cbn [snd];
      match goal with
      | |- context [for_each rest _ ?s1] =>
          destruct (IH s1 Hnd) as [Hout Hin]
      end;
      cbn zeta in *; cbn [obj with_positions positions] in *.
    + split.
      * intros name Hname. etransitivity.
        -- apply Hout. intros Hr. apply Hname. now right.
        -- apply JsMapFacts.get_set_ne. intros ->. apply Hname. now left.
      * intros name broker [[= <- <-]|Hrest].
        -- split.
           ++ intros ps' Hok. specialize (Hok w). rewrite Hget in Hok.
              cbn in Hok. injection Hok as <-.
              etransitivity; [exact (Hout n0 Hfresh)|].
              apply JsMapFacts.get_set_eq.
           ++ intros Hthrow. destruct (Hthrow w) as [err Herr].
              rewrite Hget in Herr. discriminate.
        -- destruct (Hin name broker Hrest) as [Hok Hthrow].
           split; [exact Hok|]. intros Hall.
           etransitivity; [exact (Hthrow Hall)|].
           apply JsMapFacts.get_set_ne. intros ->. apply Hfresh.
           apply (in_map fst) in Hrest. exact Hrest.
    + split.
      * intros name Hname. apply Hout. intros Hr. apply Hname. now right.
      * intros name broker [[= <- <-]|Hrest].
        -- split; [|intros _; exact (Hout n0 Hfresh)].
           intros ps' Hok. specialize (Hok w). rewrite Hget in Hok.
           discriminate.
        -- exact (Hin name broker Hrest).
Qed.

(** X21. The position refresh replaces and isolates. After
    [updatePositions], a broker whose [getPositions] returns [ps] has
    exactly [ps] as its positions (what was stored for it is gone, not
    merged), a broker whose [getPositions] throws keeps the positions
    stored for it before, and the failure of one broker does not keep the
    others from being refreshed; orders, strategies and emitted events
    are untouched. *)
Theorem positions_replaced_or_kept (e : t W) (w : W) (c : list LogLine) :
  JsMap.wf (brokers e) ->
  let r := updatePositions (mkSt e w c) in
  fst r = Ok tt
  /\ orders (obj (snd r)) = orders e
  /\ emitted (obj (snd r)) = emitted e
  /\ (forall name broker,
        In (name, broker) (brokers e) ->
        (forall ps, (forall w', fst (getPositions broker w') = Ok ps) ->
                    JsMap.get name (positions (obj (snd r))) = Some ps)
        /\ ((forall w', exists error,
                fst (getPositions broker w') = Throw error) ->
            JsMap.get name (positions (obj (snd r)))
            = JsMap.get name (positions e)))
  /\ (forall name, ~ In name (JsMap.keys (brokers e)) ->
                   JsMap.get name (positions (obj (snd r)))
                   = JsMap.get name (positions e)).
Proof.
  intros Hwf. cbn zeta.
  destruct (updatePositions_safe (mkSt e w c)) as (Hok & _ & Hord & _ & Hem).
  split; [exact Hok|]. split; [exact Hord|]. split; [exact Hem|].
  assert (Hrun : updatePositions (mkSt e w c)
                 = for_each (brokers e) refresh_positions (mkSt e w c))
    by reflexivity.
  rewrite Hrun.
  destruct (update_positions_loop (brokers e) (mkSt e w c) Hwf)
    as [Hout Hin].
  split; [exact Hin|exact Hout].
Qed.

(** *** The watched symbols and the market data *)

Lemma add_unseen_spec (l : list string) :
  forall acc : list string,
    NoDup acc ->
    let r := fold_left
               (fun symbols symbol =>
                  if existsb (String.eqb symbol) symbols then symbols
                  else symbols ++ [symbol]) l acc in
    NoDup r /\ forall x, In x r <-> In x acc \/ In x l.
Proof.
  induction l as [|y l IH]; intros acc Hnd; cbn zeta.
  - cbn. split; [exact Hnd|tauto].
  - cbn [fold_left].
    destruct (existsb (String.eqb y) acc) eqn:E.
    + destruct (IH acc Hnd) as [Hnd' Hin]. split; [exact Hnd'|].
      intros x. rewrite Hin. cbn.
      apply RiskGate.includes_In in E. split; [tauto|].
      intros [Ha|[<-|Hl]]; auto.
    + assert (Hfresh : ~ In y acc).
      { intros Hy. apply RiskGate.includes_In in Hy.
        unfold RiskGate.includes in Hy. congruence. }
      assert (Hnd1 : NoDup (acc ++ [y])).
      { apply NoDup_app. repeat split; try assumption.
        - intros x Hx Hx'. apply list_elem_of_singleton in Hx'. subst x.
          now apply list_elem_of_In in Hx.
        - apply NoDup_singleton. }
      destruct (IH (acc ++ [y]) Hnd1) as [Hnd' Hin].
      split; [exact Hnd'|].
      intros x. rewrite Hin, in_app_iff. cbn. tauto.
Qed.

(** X22. [getAllWatchedSymbols] returns the symbols of the watchlists
    of all registered strategies, enabled or not, each of them once. *)
Theorem watched_symbols_are_a_set (e : t W) :
  NoDup (getAllWatchedSymbols e)
  /\ forall symbol,
       In symbol (getAllWatchedSymbols e)
       <-> exists strategy,
             In strategy (JsMap.values (strategies e))
             /\ In symbol (Strategy.watchlist strategy).
Proof.
  unfold getAllWatchedSymbols.
  destruct (add_unseen_spec
              (concat (map Strategy.watchlist (JsMap.values (strategies e))))
              [] NoDup_nil_2) as [Hnd Hin].
  split; [exact Hnd|].
  intros symbol. rewrite Hin, in_concat. cbn. split.
  - intros [[]|(l & Hl & Hs)]. apply in_map_iff in Hl as (st & <- & Hst).
    eauto.
  - intros (st & Hst & Hs). right. exists (Strategy.watchlist st).
    split; [now apply in_map|exact Hs].
Qed.

(** X23. [gatherMarketData] always returns: a symbol whose quote fails
    is left out and the others are still fetched. The data it returns
    are for watched symbols only, the engine is unchanged, and without any
    broker the data are empty and the world is not touched. *)
Theorem market_data_for_watched_symbols (s : St W (t W)) :
  exists data w' c',
    gatherMarketData s = (Ok data, mkSt (obj s) w' c')
    /\ (forall symbol, is_Some (data !! symbol) ->
                       In symbol (getAllWatchedSymbols (obj s)))
    /\ (brokers (obj s) = [] -> data = ∅ /\ w' = world s).
Proof.
  unfold gatherMarketData, bind, get_obj.
  destruct (gather_loop_safe (getAllWatchedSymbols (obj s)) ∅ s)
    as (data & w' & c' & -> & Hdom & Hnone).
  exists data, w', c'. split; [reflexivity|]. split; [|exact Hnone].
  intros symbol Hs. destruct (Hdom symbol Hs) as [He|Hin]; [|exact Hin].
  rewrite lookup_empty in He. now destruct He.
Qed.

(** *** Start-up *)

(** The loop body of [start]: one broker is authenticated. *)
Definition connect (entry : string * Broker W) : M W (t W) unit :=
  try_catch
    (call (authenticate (snd entry)) ;;;
     log (LogBrokerConnected (fst entry)))
    (fun error =>
       log (LogBrokerConnectFailed (fst entry) error) ;;;
       throw error).

Lemma connect_run (name : string) (broker : Broker W)
    (e : t W) (w : W) (c : list LogLine) :
  connect (name, broker) (mkSt e w c)
  = match authenticate broker w with
    | (Ok _, w') => (Ok tt, mkSt e w' (c ++ [LogBrokerConnected name]))
    | (Throw error, w') =>
        (Throw error, mkSt e w' (c ++ [LogBrokerConnectFailed name error]))
    end.
Proof.
  unfold connect. unfold_m. cbn [fst snd obj world console].
  destruct (authenticate broker w) as [[[]|error] w']; reflexivity.
Qed.

Lemma connect_loop (l : list (string * Broker W)) :
  forall s : St W (t W),
    obj (snd (for_each l connect s)) = obj s
    /\ ((forall name broker, In (name, broker) l ->
                             forall w, fst (authenticate broker w) = Ok tt) ->
        fst (for_each l connect s) = Ok tt)
    /\ ((exists name broker,
           In (name, broker) l
           /\ forall w, exists error,
                fst (authenticate broker w) = Throw error) ->
        exists error, fst (for_each l connect s) = Throw error).
Proof.
  induction l as [|[n0 b0] rest IH]; intros [e w c].
  - split; [reflexivity|]. split; [reflexivity|].
    intros (? & ? & [] & _).
  - cbn [for_each]. unfold bind. rewrite connect_run.
    destruct (authenticate b0 w) as [[[]|error] w1] eqn:Ha.
    + destruct (IH (mkSt e w1 (c ++ [LogBrokerConnected n0])))
        as (Hobj & Hok & Hfail).
      split; [exact Hobj|]. split.
      * intros Hall. apply Hok. intros name broker Hin.
        apply (Hall name broker). now right.
      * intros (name & broker & [[= <- <-]|Hin] & Hthrow).
        -- destruct (Hthrow w) as [err Herr]. rewrite Ha in Herr.
           discriminate.
        -- apply Hfail. eauto.
    + cbn [fst snd obj]. split; [reflexivity|]. split.
      * intros Hall. specialize (Hall n0 b0 (or_introl eq_refl) w).
        rewrite Ha in Hall. discriminate.
      * intros _. eauto.
Qed.

(** X24. [start()] on a stopped engine sets the running flag before it
    connects the brokers. When every broker authenticates it returns and
    [started] is emitted. When a broker's authentication throws, [start()]
    throws, nothing is emitted, and the flag stays set though no loop was
    launched: a second [start()] then throws "Trading engine is already
    running". Orders and strategies are untouched either way. *)
Theorem start_outcomes (e : t W) (w : W) (c : list LogLine) :
  running e = false ->
  let r := start (mkSt e w c) in
  running (obj (snd r)) = true
  /\ orders (obj (snd r)) = orders e
  /\ strategies (obj (snd r)) = strategies e
  /\ (fst r = Ok tt -> emitted (obj (snd r)) = emitted e ++ [EvStarted])
  /\ (forall error,
        fst r = Throw error ->
        emitted (obj (snd r)) = emitted e
        /\ fst (start (snd r))
           = Throw (mkError "Trading engine is already running"))
  /\ ((forall name broker, In (name, broker) (brokers e) ->
                           forall w', fst (authenticate broker w') = Ok tt) ->
      fst r = Ok tt)
  /\ ((exists name broker,
         In (name, broker) (brokers e)
         /\ forall w', exists error,
              fst (authenticate broker w') = Throw error) ->
      exists error, fst r = Throw error).
Proof.
  intros Hstopped. cbn zeta.
  assert (Hrun :
            start (mkSt e w c)
            = let r := for_each (brokers e) connect
                         (mkSt (with_running true e) w (c ++ [LogStarting])) in
              match fst r with
              | Ok _ =>
                  (Ok tt,
                   mkSt (with_emitted (fun l => l ++ [EvStarted])
                                      (obj (snd r)))
                        (world (snd r)) (console (snd r) ++ [LogStarted]))
              | Throw error => (Throw error, snd r)
              end).
  { unfold start, bind at 1, get_obj at 1. cbn [obj]. rewrite Hstopped.
    unfold bind at 1, log at 1. cbn [obj world console].
    unfold bind at 1, modify_obj at 1. cbn [obj world console].
    unfold bind at 1. cbn zeta. fold connect. unfold JsMap.entries.
    destruct (for_each (brokers e) connect _) as [[[]|error] s1];
      unfold emit; unfold_m; reflexivity. }
  rewrite Hrun. cbn zeta.
  destruct (connect_loop (brokers e)
              (mkSt (with_running true e) w (c ++ [LogStarting])))
    as (Hobj & Hok & Hfail).
  destruct (for_each (brokers e) connect _) as [[[]|error] s1];
    cbn [fst snd obj] in *; rewrite Hobj.
  - split; [reflexivity|]. split; [reflexivity|]. split; [reflexivity|].
    split; [reflexivity|]. split; [discriminate|].
    split; [reflexivity|exact Hfail].
  - split; [reflexivity|]. split; [reflexivity|]. split; [reflexivity|].
    split; [discriminate|]. split.
    + intros err [= <-]. split; [reflexivity|].
      destruct s1 as [e1 w1 c1]. cbn [obj] in Hobj. subst e1.
      reflexivity.
    + split; [exact Hok|eauto].
Qed.

(** *** Cancelling *)







(** *** One event for each submission *)


End Facts.

(** *** The rules on the simulated world *)

Definition zero_quantity : Signal :=
  {| sig_symbol := "AAPL";
     sig_action := "buy";
     sig_quantity := 0%float;
     sig_orderType := "market";
     sig_limitPrice := None;
     sig_stopPrice := None;
     sig_timeInForce := "gtc";
     sig_strategyName := "NewsBasedStrategy";
     sig_timestamp := 1600000;
     sig_reason := NoReason;
     sig_preferredBroker := None |}.

(** A limit buy of 100 AAPL at 1: worth 100, far below the limit of 1000. *)
Definition cheap_limit_buy : Signal :=
  {| sig_symbol := "AAPL";
     sig_action := "buy";
     sig_quantity := 100%float;
     sig_orderType := "limit";
     sig_limitPrice := Some 1%float;
     sig_stopPrice := None;
     sig_timeInForce := "day";
     sig_strategyName := "NewsBasedStrategy";
     sig_timestamp := 1600000;
     sig_reason := NoReason;
     sig_preferredBroker := None |}.

Definition quiet : SimWorld := Scenarios.today_world None.

Lemma malformed_signal_dropped_witness :
  process_signal "news" zero_quantity (mkSt Scenarios.gated_engine quiet [])
  = (Ok tt, mkSt Scenarios.gated_engine quiet
                 [LogInvalidSignal "news" zero_quantity]).
Proof.
  exact (malformed_signal_dropped zero_quantity "news"
           Scenarios.gated_engine quiet [] eq_refl).
Defined.

Lemma rejected_signal_places_no_order_witness :
  let r := process_signal "news" Scenarios.buy_signal
             (mkSt Scenarios.gated_engine quiet []) in
  fst r = Ok tt
  /\ orders (obj (snd r)) = []
  /\ emitted (obj (snd r)) = []
  /\ world (snd r) = quiet.
Proof.
  assert (Hrej : fst (RiskManager.validateOrder
                        (risk_order_of_signal Scenarios.buy_signal)
                        (RiskManager.PosMap
                           (positions Scenarios.gated_engine))
                        (mkSt (RiskManager.constructor
                                 RiskFacts.scenario_limits "Mon Jan 01 2024")
                              quiet [])) = Ok false).
  { vm_compute. reflexivity. }
  destruct (rejected_signal_places_no_order Scenarios.buy_signal "news"
              Scenarios.gated_engine
              (RiskManager.constructor RiskFacts.scenario_limits
                 "Mon Jan 01 2024")
              quiet [] eq_refl eq_refl Hrej)
    as (Hok & Hord & Hem & _ & _ & Hw).
  cbn zeta. split; [exact Hok|]. split; [exact Hord|].
  split; [exact Hem|exact Hw].
Defined.

Lemma no_risk_manager_no_check_witness :
  process_signal "news" Scenarios.buy_signal
    (mkSt Scenarios.broker_down_engine quiet [])
  = executeSignal Scenarios.buy_signal "news"
      (mkSt Scenarios.broker_down_engine quiet []).
Proof.
  exact (no_risk_manager_no_check Scenarios.buy_signal "news"
           Scenarios.broker_down_engine quiet [] eq_refl eq_refl).
Defined.

Lemma gate_does_not_see_prices_witness :
  approved cheap_limit_buy "news" (mkSt Scenarios.gated_engine quiet [])
  = approved Scenarios.buy_signal "news"
      (mkSt Scenarios.gated_engine quiet [])
  /\ approved cheap_limit_buy "news" (mkSt Scenarios.gated_engine quiet [])
     = Ok false.
Proof.
  destruct (gate_does_not_see_prices Scenarios.buy_signal cheap_limit_buy
              "news" (mkSt Scenarios.gated_engine quiet [])) as [_ Hsame].
  split; [exact (Hsame eq_refl eq_refl eq_refl)|reflexivity].
Defined.

Lemma tick_books_no_pnl_witness :
  counters_at_zero
    (RiskManager.config
       (RiskManager.constructor RiskFacts.scenario_limits "Mon Jan 01 2024"))
    (obj (snd (tick (mkSt Scenarios.gated_engine Scenarios.with_news [])))).
Proof.
  apply (tick_books_no_pnl _ (mkSt Scenarios.gated_engine
                                   Scenarios.with_news [])).
  eexists. repeat split; reflexivity.
Defined.

Lemma reconciliation_keeps_entries_witness :
  let s' := snd (processOrders (mkSt Scenarios.two_tracked quiet [])) in
  JsMap.keys (orders (obj s')) = ["o1"; "o2"]
  /\ exists orderInfo,
       In ("o1", orderInfo) (orders Scenarios.two_tracked)
       /\ oi_signal (merge_order (Scenarios.tracked "o1") Scenarios.filled_o1)
          = oi_signal orderInfo.
Proof.
  destruct (reconciliation_keeps_entries
              (mkSt Scenarios.two_tracked quiet []))
    as (_ & Hkeys & Hent & _).
  cbn zeta. split; [exact Hkeys|].
  destruct (Hent "o1" (merge_order (Scenarios.tracked "o1")
                         Scenarios.filled_o1) eq_refl)
    as (orderInfo & Hin & _ & Hsig).
  exists orderInfo. split; [exact Hin|exact Hsig].
Defined.

(** Two brokers: the first cannot be reached, the second reports one
    position; the engine holds an older snapshot of each. *)
Definition unreachable : Broker SimWorld :=
  {| authenticate := fun w =>
       (Throw (mkError "Alpaca authentication failed: timeout"), w);
     getPositions := fun w =>
       (Throw (mkError "Failed to get Alpaca positions: timeout"), w);
     placeOrder := fun _ w => (Scenarios.broker_down, w);
     cancelOrder := fun _ w =>
       (Throw (mkError "Failed to cancel Alpaca order: timeout"), w);
     getMarketData := fun _ w =>
       (Throw (mkError "Failed to get Alpaca market data: timeout"), w);
     getOrderHistory := fun w =>
       (Throw (mkError "Failed to get Alpaca order history: timeout"), w) |}.

Definition holding (symbol : string) (qty : num) : Position :=
  {| pos_symbol := symbol;
     pos_qty := qty;
     pos_marketValue := Some (qty * 150)%float;
     pos_avgCost := 150%float;
     pos_unrealizedPnl := 0%float |}.

Definition reporting (ps : list Position) : Broker SimWorld :=
  {| authenticate := fun w => (Ok tt, w);
     getPositions := fun w => (Ok ps, w);
     placeOrder := fun _ w => (Scenarios.broker_down, w);
     cancelOrder := fun _ w => (Ok tt, w);
     getMarketData := fun _ w =>
       (Ok {| md_price := Some 150%float; md_volume := None |}, w);
     getOrderHistory := fun w => (Ok [], w) |}.

Definition two_brokers : t SimWorld :=
  with_positions
    (fun _ => [("down", [holding "TSLA" 5%float]);
               ("up", [holding "AAPL" 1%float; holding "MSFT" 2%float])])
    (constructor [("down", unreachable);
                  ("up", reporting [holding "AAPL" 3%float])]).

Lemma positions_replaced_or_kept_witness :
  let r := updatePositions (mkSt two_brokers quiet []) in
  fst r = Ok tt
  /\ JsMap.get "up" (positions (obj (snd r))) = Some [holding "AAPL" 3%float]
  /\ JsMap.get "down" (positions (obj (snd r)))
     = Some [holding "TSLA" 5%float].
Proof.
  assert (Hwf : JsMap.wf (brokers two_brokers)).
  { unfold JsMap.wf. apply (bool_decide_unpack _). vm_compute. exact I. }
  destruct (positions_replaced_or_kept two_brokers quiet [] Hwf)
    as (Hok & _ & _ & Hin & _).
  cbn zeta. split; [exact Hok|]. split.
  - destruct (Hin "up" (reporting [holding "AAPL" 3%float])) as [Hup _].
    + right. left. reflexivity.
    + apply Hup. reflexivity.
  - destruct (Hin "down" unreachable) as [_ Hdown].
    + left. reflexivity.
    + rewrite Hdown; [reflexivity|]. intros w. eexists. reflexivity.
Defined.

(** Two strategies whose watchlists overlap; the second is disabled. *)
Definition disabled (symbols : list string) : Strategy.t :=
  {| Strategy.name := "NewsBasedStrategy";
     Strategy.config := Strategy.defaultConfig;
     Strategy.enabled := false;
     Strategy.watchlist := symbols;
     Strategy.lastSignals := [];
     Strategy.activePositions := ∅;
     Strategy.dataAggregator := false |}.

Definition two_strategies : t SimWorld :=
  addStrategy "b" (disabled ["MSFT"; "TSLA"])
    (addStrategy "a"
       (Strategy.constructor Strategy.defaultConfig ["AAPL"; "MSFT"])
       (constructor [])).

Lemma watched_symbols_are_a_set_witness :
  getAllWatchedSymbols two_strategies = ["AAPL"; "MSFT"; "TSLA"]
  /\ In "TSLA" (getAllWatchedSymbols two_strategies).
Proof.
  split; [reflexivity|].
  apply (watched_symbols_are_a_set two_strategies).
  exists (disabled ["MSFT"; "TSLA"]). split; [right; left; reflexivity|].
  right. left. reflexivity.
Defined.

Lemma market_data_for_watched_symbols_witness :
  fst (gatherMarketData (mkSt two_strategies quiet [])) = Ok ∅
  /\ world (snd (gatherMarketData (mkSt two_strategies quiet []))) = quiet.
Proof.
  destruct (market_data_for_watched_symbols (mkSt two_strategies quiet []))
    as (data & w' & c' & Hrun & _ & Hnone).
  destruct (Hnone eq_refl) as [-> ->]. rewrite Hrun. split; reflexivity.
Defined.

Lemma start_outcomes_witness :
  fst (start (mkSt (constructor
                      [("up", reporting [holding "AAPL" 3%float])])
                   quiet [])) = Ok tt
  /\ (exists error,
        fst (start (mkSt two_brokers quiet [])) = Throw error)
  /\ running (obj (snd (start (mkSt two_brokers quiet [])))) = true
  /\ fst (start (snd (start (mkSt two_brokers quiet []))))
     = Throw (mkError "Trading engine is already running").
Proof.
  split.
  - destruct (start_outcomes
                (constructor [("up", reporting [holding "AAPL" 3%float])])
                quiet [] eq_refl) as (_ & _ & _ & _ & _ & Hok & _).
    apply Hok. intros name broker [[= <- <-]|[]] w'. reflexivity.
  - destruct (start_outcomes two_brokers quiet [] eq_refl)
      as (Hrun & _ & _ & _ & Hstuck & _ & Hfail).
    destruct Hfail as [error Herr].
    { exists "down", unreachable. split; [left; reflexivity|].
      intros w'. eexists. reflexivity. }
    split; [exists error; exact Herr|]. split; [exact Hrun|].
    exact (proj2 (Hstuck error Herr)).
Defined.




End EngineRules.


(** * The broker's own validation (src/brokers/base-broker.js) *)

From Stdlib Require Import FloatAxioms SpecFloat FloatOps.

Module BaseBroker.

(** The double quote of the messages. *)
Definition quote : string := String (Ascii.ascii_of_nat 34) EmptyString.

Definition quoted (word : string) : string :=
  String.append quote (String.append word quote).

Definition missing_field (field : string) : Error :=
  mkError (String.append "Order missing required field: " field).

Definition bad_side : Error :=
  mkError (String.append "Order side must be "
             (String.append (quoted "buy")
                (String.append " or " (quoted "sell")))).

Definition bad_type : Error :=
  mkError (String.append "Order type must be "
             (String.append (quoted "market")
                (String.append ", "
                   (String.append (quoted "limit")
                      (String.append ", or " (quoted "stop")))))).

Definition not_positive : Error := mkError "Order quantity must be positive".

(** [validateOrder(order)]: returns [true] or throws. *)
Definition validateOrder (order : Order) : Res bool :=
  if negb (truthy_str (ord_symbol order)) then Throw (missing_field "symbol")
  else if negb (Num.truthy (ord_qty order)) then Throw (missing_field "qty")
  else if negb (truthy_str (ord_side order)) then Throw (missing_field "side")
  else if negb (truthy_str (ord_type order)) then Throw (missing_field "type")
  else if negb (RiskGate.includes (ord_side order) ["buy"; "sell"]) then
    Throw bad_side
  else if negb (RiskGate.includes (ord_type order)
                                  ["market"; "limit"; "stop"]) then
    Throw bad_type
  else if Num.le (ord_qty order) 0%float then Throw not_positive
  else Ok true.

(** X27. The broker's [validateOrder] never returns [false]: it returns
    [true] exactly for an order with a symbol, a side that is "buy" or
    "sell", a type that is "market", "limit" or "stop" and a quantity
    above zero, and throws for any other. A quantity of zero or NaN is
    reported as a missing field, a negative one as not positive. *)
Theorem broker_accepts_iff (order : Order) :
  (validateOrder order = Ok true <->
   truthy_str (ord_symbol order) = true
   /\ RiskGate.includes (ord_side order) ["buy"; "sell"] = true
   /\ RiskGate.includes (ord_type order) ["market"; "limit"; "stop"] = true
   /\ Num.truthy (ord_qty order) = true
   /\ Num.le (ord_qty order) 0%float = false)
  /\ validateOrder order <> Ok false
  /\ (truthy_str (ord_symbol order) = true ->
      Num.truthy (ord_qty order) = false ->
      validateOrder order = Throw (missing_field "qty"))
  /\ (validateOrder order = Throw not_positive ->
      Num.lt (ord_qty order) 0%float = true).
Proof.
  unfold validateOrder, RiskGate.includes. cbn [existsb].
  rewrite !orb_false_r.
  destruct (truthy_str (ord_symbol order)) eqn:Hsym; cbn [negb].
  2: { repeat split; try discriminate. intros (? & _). discriminate. }
  destruct (Num.truthy (ord_qty order)) eqn:Hq; cbn [negb].
  2: { repeat split; try discriminate.
       intros (_ & _ & _ & ? & _). discriminate. }
  assert (Hside : String.eqb (ord_side order) "buy"
                  || String.eqb (ord_side order) "sell" = true ->
                  truthy_str (ord_side order) = true).
  { unfold truthy_str.
    destruct (ord_side order) as [|a s]; [discriminate|reflexivity]. }
  assert (Htype : String.eqb (ord_type order) "market"
                  || (String.eqb (ord_type order) "limit"
                      || String.eqb (ord_type order) "stop") = true ->
                  truthy_str (ord_type order) = true).
  { unfold truthy_str.
    destruct (ord_type order) as [|a s]; [discriminate|reflexivity]. }
  assert (Hneg : Num.le (ord_qty order) 0%float = true ->
                 Num.lt (ord_qty order) 0%float = true).
  { unfold Num.le, Num.lt, Num.truthy in *.
    apply negb_true_iff, orb_false_iff in Hq as [Hz _].
    revert Hz. rewrite leb_spec, ltb_spec, eqb_spec.
    unfold SFleb, SFltb, SFeqb.
    destruct (SFcompare _ _) as [[| |]|]; congruence. }
  destruct (truthy_str (ord_side order)) eqn:Hs; cbn [negb].
  2: { repeat split; try discriminate.
       intros (_ & Hb & _). specialize (Hside Hb). discriminate. }
  destruct (truthy_str (ord_type order)) eqn:Ht; cbn [negb].
  2: { repeat split; try discriminate.
       intros (_ & _ & Hb & _). specialize (Htype Hb). discriminate. }
  destruct (String.eqb (ord_side order) "buy"
            || String.eqb (ord_side order) "sell"); cbn [negb].
  2: { repeat split; try discriminate. intros (_ & ? & _). discriminate. }
  destruct (String.eqb (ord_type order) "market"
            || (String.eqb (ord_type order) "limit"
                || String.eqb (ord_type order) "stop")); cbn [negb].
  2: { repeat split; try discriminate.
       intros (_ & _ & ? & _). discriminate. }
  destruct (Num.le (ord_qty order) 0%float) eqn:Hle.
  - repeat split; try discriminate; auto.
    intros (_ & _ & _ & _ & ?). discriminate.
  - repeat split; try discriminate; auto.
Qed.

(** A number is above zero exactly when it is neither zero nor NaN and
    not at or below zero. *)
Lemma positive_iff (q : num) :
  Num.gt q 0%float = true
  <-> Num.truthy q = true /\ Num.le q 0%float = false.
Proof.
  unfold Num.gt, Num.truthy, Num.le, PrimFloat.is_nan.
  rewrite ltb_spec, leb_spec, !eqb_spec.
  change (Prim2SF 0) with (S754_zero false).
  unfold SFltb, SFleb, SFeqb.
  destruct (Prim2SF q) as [s|s| |s m e]; cbn.
  - split; [discriminate|]. intros [? _]. discriminate.
  - destruct s; cbn; intuition discriminate.
  - intuition discriminate.
  - rewrite Z.compare_refl, Pos.compare_cont_refl.
    destruct s; cbn; intuition discriminate.
Qed.

Lemma or_str_truthy (s d : string) :
  truthy_str d = true -> truthy_str (or_str s d) = true.
Proof. unfold or_str. destruct (truthy_str s) eqn:E; auto. Qed.

Lemma listed_truthy (x : string) (l : list string) :
  Forall (fun y => truthy_str y = true) l ->
  RiskGate.includes x l = true -> truthy_str x = true.
Proof.
  unfold RiskGate.includes. intros Hall Hin.
  apply existsb_exists in Hin as (y & Hy & Heq).
  apply String.eqb_eq in Heq. subst y.
  rewrite List.Forall_forall in Hall. auto.
Qed.

(** What the broker's check comes to for the order the engine builds. *)
Lemma validateOrder_of_signal (signal : Signal) :
  EngineRules.malformed signal = false ->
  validateOrder (Engine.order_of_signal signal)
  = if negb (RiskGate.includes (sig_action signal) ["buy"; "sell"]) then
      Throw bad_side
    else if negb (RiskGate.includes (or_str (sig_orderType signal) "market")
                                    ["market"; "limit"; "stop"]) then
      Throw bad_type
    else if Num.le (sig_quantity signal) 0%float then Throw not_positive
    else Ok true.
Proof.
  unfold EngineRules.malformed. intros Hm.
  apply orb_false_iff in Hm as [Hm Hq].
  apply orb_false_iff in Hm as [Hsym Hact].
  apply negb_false_iff in Hsym, Hact, Hq.
  unfold validateOrder, Engine.order_of_signal.
  cbn [ord_symbol ord_qty ord_side ord_type].
  rewrite Hsym, Hact, Hq, or_str_truthy by reflexivity.
  reflexivity.
Qed.

Section Facts.
Context {W : Type} `{World W}.

(** X28. The engine's own check of a signal is weaker than the
    broker's check of the order built from it. A signal the engine drops
    as invalid would also fail at the broker, for a missing field. A signal
    the engine lets through passes the broker's check exactly when its
    action is "buy" or "sell", its order type (or "market" when it has
    none) is one of the three known types and its quantity is above zero;
    with any other action the broker throws the side error, and with a
    negative quantity the quantity error. *)
Theorem engine_check_weaker_than_broker (signal : Signal) :
  (EngineRules.malformed signal = true ->
   exists field,
     validateOrder (Engine.order_of_signal signal)
     = Throw (missing_field field))
  /\ (EngineRules.malformed signal = false ->
      (validateOrder (Engine.order_of_signal signal) = Ok true
       <-> RiskGate.includes (sig_action signal) ["buy"; "sell"] = true
           /\ RiskGate.includes (or_str (sig_orderType signal) "market")
                                ["market"; "limit"; "stop"] = true
           /\ Num.gt (sig_quantity signal) 0%float = true)
      /\ (RiskGate.includes (sig_action signal) ["buy"; "sell"] = false ->
          validateOrder (Engine.order_of_signal signal) = Throw bad_side)
      /\ (RiskGate.includes (sig_action signal) ["buy"; "sell"] = true ->
          RiskGate.includes (or_str (sig_orderType signal) "market")
                            ["market"; "limit"; "stop"] = true ->
          Num.lt (sig_quantity signal) 0%float = true ->
          validateOrder (Engine.order_of_signal signal)
          = Throw not_positive)).
Proof.
  split.
  - unfold EngineRules.malformed, validateOrder, Engine.order_of_signal.
    cbn [ord_symbol ord_qty ord_side ord_type]. intros Hm.
    destruct (truthy_str (sig_symbol signal)); cbn [negb];
      [|eexists; reflexivity].
    destruct (Num.truthy (sig_quantity signal)); cbn [negb];
      [|eexists; reflexivity].
    destruct (truthy_str (sig_action signal)); cbn [negb];
      [discriminate|eexists; reflexivity].
  - intros Hm. rewrite validateOrder_of_signal by exact Hm.
    assert (Hq : Num.truthy (sig_quantity signal) = true).
    { unfold EngineRules.malformed in Hm.
      apply orb_false_iff in Hm as [_ Hq]. now apply negb_false_iff in Hq. }
    pose proof (positive_iff (sig_quantity signal)) as Hpos.
    split; [|split].
    + destruct (RiskGate.includes (sig_action signal) _); cbn [negb].
      2: { split; [discriminate|]. intros (? & _). discriminate. }
      destruct (RiskGate.includes (or_str _ _) _); cbn [negb].
      2: { split; [discriminate|]. intros (_ & ? & _). discriminate. }
      destruct (Num.le (sig_quantity signal) 0%float).
      * split; [discriminate|]. intros (_ & _ & Hgt).
        apply Hpos in Hgt as [_ ?]. discriminate.
      * split; [|reflexivity]. intros _. repeat split. apply Hpos. auto.
    + intros ->. reflexivity.
    + intros -> -> Hlt. cbn [negb].
      assert (Hle : Num.le (sig_quantity signal) 0%float = true).
      { revert Hlt. unfold Num.lt, Num.le. rewrite ltb_spec, leb_spec.
        unfold SFltb, SFleb.
        destruct (SFcompare _ _) as [[| |]|]; congruence. }
      now rewrite Hle.
Qed.

(** X29. From the strategy to the broker. When the configured
    position size is above zero and no symbol of the watchlist is the
    empty string, every signal [evaluate] returns passes the engine's
    check of signals, and the order the engine builds from it passes the
    broker's [validateOrder]. *)
Theorem evaluated_signals_pass_broker (marketData : gmap string MarketData)
    (s : Strategy.t) (w : W) (c : list LogLine) :
  Num.gt (Strategy.positionSize (Strategy.config s)) 0%float = true ->
  Forall (fun symbol => truthy_str symbol = true) (Strategy.watchlist s) ->
  exists signals,
    fst (Strategy.evaluate marketData (mkSt s w c)) = Ok signals
    /\ Forall (fun signal =>
                 EngineRules.malformed signal = false
                 /\ validateOrder (Engine.order_of_signal signal) = Ok true)
              signals.
Proof.
  intros Hsize Hsymbols.
  assert (Hgood : forall summary symbols signal,
             Forall (fun symbol => truthy_str symbol = true) symbols ->
             StrategyRules.watched_signal s summary marketData symbols
               signal ->
             EngineRules.malformed signal = false
             /\ validateOrder (Engine.order_of_signal signal) = Ok true).
  { intros summary symbols signal Hall
           (Hin & _ & _ & Hact & Hqty & Htype & _).
    rewrite List.Forall_forall in Hall. specialize (Hall _ Hin).
    apply positive_iff in Hsize as [Htruthy Hle].
    assert (Hm : EngineRules.malformed signal = false).
    { unfold EngineRules.malformed. rewrite Hall, Hqty, Htruthy.
      destruct Hact as [-> | ->]; reflexivity. }
    split; [exact Hm|].
    rewrite validateOrder_of_signal by exact Hm.
    rewrite Htype, Hqty, Hle. destruct Hact as [-> | ->]; reflexivity. }
  rewrite StrategyRules.evaluate_run.
  destruct (Strategy.dataAggregator s); cbn [negb].
  2: { exists []. split; [reflexivity|constructor]. }
  destruct (fst (aggregator_latest w) ≫= ld_summary) as [summary|].
  2: { exists []. split; [reflexivity|constructor]. }
  destruct (StrategyRules.evaluate_loop_spec summary marketData
              (Strategy.watchlist s) [] s (snd (aggregator_latest w)) c)
    as (new & st' & -> & _ & _ & _ & Hall).
  exists new. split; [reflexivity|].
  rewrite List.Forall_forall in Hall. apply List.Forall_forall.
  intros signal Hin. eapply Hgood; eauto.
Qed.

End Facts.

(** *** The checks on concrete orders *)

(** A signal to "hold": the engine lets it through, the broker does not. *)
Definition hold_signal : Signal := Scenarios.signal_for "hold" NoReason.

Lemma engine_check_weaker_than_broker_witness :
  EngineRules.malformed hold_signal = false
  /\ validateOrder (Engine.order_of_signal hold_signal) = Throw bad_side
  /\ validateOrder (Engine.order_of_signal Scenarios.buy_signal) = Ok true
  /\ exists field,
       validateOrder (Engine.order_of_signal EngineRules.zero_quantity)
       = Throw (missing_field field).
Proof.
  split; [reflexivity|].
  destruct (engine_check_weaker_than_broker hold_signal) as [_ Hpass].
  destruct (Hpass eq_refl) as (_ & Hside & _).
  split; [exact (Hside eq_refl)|].
  destruct (engine_check_weaker_than_broker Scenarios.buy_signal)
    as [_ Hbuy].
  destruct (Hbuy eq_refl) as (Hiff & _).
  split; [apply Hiff; repeat split|].
  destruct (engine_check_weaker_than_broker EngineRules.zero_quantity)
    as [Hdrop _].
  exact (Hdrop eq_refl).
Defined.

Lemma evaluated_signals_pass_broker_witness :
  exists signals,
    fst (Strategy.evaluate (StrategyRules.aapl_at 100%float)
           (mkSt StrategyRules.flat StrategyRules.aapl_news []))
    = Ok signals
    /\ signals <> []
    /\ Forall (fun signal =>
                 EngineRules.malformed signal = false
                 /\ validateOrder (Engine.order_of_signal signal) = Ok true)
              signals.
Proof.
  destruct (evaluated_signals_pass_broker (StrategyRules.aapl_at 100%float)
              StrategyRules.flat StrategyRules.aapl_news [] eq_refl)
    as (signals & Hrun & Hall).
  { repeat constructor. }
  exists signals. split; [exact Hrun|]. split; [|exact Hall].
  intros ->. vm_compute in Hrun. discriminate.
Defined.

End BaseBroker.
